(** * Outlook MCP server: the Graph API access layer

    A shallow embedding of [utils/graph-api.js] ([callGraphAPI],
    [callGraphAPIPaginated]) and of [auth/index.js] ([ensureAuthenticated]),
    together with the properties the specification states about them.

    JavaScript strings are modelled as [string] (the UTF-8 bytes of the text),
    parsed JSON as the inductive [Json], thrown or rejected [Error] objects as
    the record [JsError], and the effects of the code (HTTPS requests, calls
    of [tokenStorage.getValidAccessToken()], calls of the mock layer, and the
    mutation of the caller's query-parameter object) as an explicit state:
    a heap of query-parameter objects plus a trace of events. *)

From Stdlib Require Import String Ascii List ZArith Bool Lia Arith DecimalString.
Import ListNotations.
Local Open Scope string_scope.

Set Warnings "-register-all".

(* ===================================================================== *)
(** ** JavaScript values *)
(* ===================================================================== *)

(** Parsed JSON. Numbers are restricted to the integers; an object is its
    property list, looked up by first match. *)
Inductive Json : Type :=
| JNull
| JBool (b : bool)
| JNum (z : Z)
| JStr (s : string)
| JArr (items : list Json)
| JObj (props : list (string * Json)).

(** JavaScript truthiness ([if (x)], [x && ...], [!x]). *)
Definition truthy (j : Json) : bool :=
  match j with
  | JNull => false
  | JBool b => b
  | JNum z => negb (z =? 0)%Z
  | JStr s => negb (s =? EmptyString)
  | JArr _ => true
  | JObj _ => true
  end.

(** Truthiness of a possibly [undefined] value. *)
Definition truthy_opt (o : option Json) : bool :=
  match o with
  | None => false
  | Some j => truthy j
  end.

(** An [Error] object: its message and the two optional fields that
    [callGraphAPI] attaches ([err.statusCode], [err.body]). *)
Record JsError : Type := mkError {
  message : string;
  statusCode : option Z;
  body : option string
}.

(** [new Error(msg)] *)
Definition Error (msg : string) : JsError :=
  {| message := msg; statusCode := None; body := None |}.

(** The [TypeError] raised by a property access or method call on a value
    that does not support it. *)
Definition TypeError (msg : string) : JsError :=
  {| message := msg; statusCode := None; body := None |}.

Fixpoint assoc {A : Type} (k : string) (l : list (string * A)) : option A :=
  match l with
  | [] => None
  | (k', v) :: rest => if k' =? k then Some v else assoc k rest
  end.

Fixpoint remove_key {A : Type} (k : string) (l : list (string * A))
  : list (string * A) :=
  match l with
  | [] => []
  | (k', v) :: rest =>
      if k' =? k then remove_key k rest else (k', v) :: remove_key k rest
  end.

(** [response[k]] for the two property names the code reads (["value"] and
    ["@odata.nextLink"]): a [TypeError] on [null], the property of an object,
    [undefined] ([None]) on every other value. *)
Definition get_prop (j : Json) (k : string) : JsError + option Json :=
  match j with
  | JNull => inl (TypeError ("Cannot read properties of null (reading '" ++ k ++ "')"))
  | JObj props => inr (assoc k props)
  | _ => inr None
  end.

(** [res.statusCode >= 200 && res.statusCode < 300] *)
Definition is_2xx (status : Z) : bool := ((200 <=? status) && (status <? 300))%Z.

(** [maxCount > 0 && allItems.length >= maxCount] *)
Definition bound_reached (maxCount : Z) (count : nat) : bool :=
  ((0 <? maxCount) && (maxCount <=? Z.of_nat count))%Z.

(** [responseData ? responseData : '{}'] *)
Definition body_or_empty_object (responseData : string) : string :=
  if negb (responseData =? EmptyString) then responseData else "{}".

(** [`${n}`] for an integer [n]. *)
Definition string_of_Z (z : Z) : string := NilZero.string_of_int (Z.to_int z).

(* ===================================================================== *)
(** ** URL encoding *)
(* ===================================================================== *)

Definition hex_digit (n : N) : ascii :=
  match n with
  | 0%N => "0" | 1%N => "1" | 2%N => "2" | 3%N => "3"
  | 4%N => "4" | 5%N => "5" | 6%N => "6" | 7%N => "7"
  | 8%N => "8" | 9%N => "9" | 10%N => "A" | 11%N => "B"
  | 12%N => "C" | 13%N => "D" | 14%N => "E" | _ => "F"
  end%char.

(** [%XX], upper-case hexadecimal, for one byte. *)
Definition percent_byte (c : ascii) : string :=
  let n := N_of_ascii c in
  String "%" (String (hex_digit (n / 16)) (String (hex_digit (n mod 16)) EmptyString)).

Definition in_range (lo hi c : ascii) : bool :=
  ((N_of_ascii lo <=? N_of_ascii c) && (N_of_ascii c <=? N_of_ascii hi))%N.

Definition is_alnum (c : ascii) : bool :=
  in_range "A" "Z" c || in_range "a" "z" c || in_range "0" "9" c.

Definition one_of (s : string) (c : ascii) : bool :=
  existsb (Ascii.eqb c) (list_ascii_of_string s).

(** Characters [encodeURIComponent] leaves alone: [A-Z a-z 0-9 - _ . ! ~ * ' ( )]. *)
Definition uri_unreserved (c : ascii) : bool :=
  is_alnum c || one_of "-_.!~*'()" c.

Fixpoint encodeURIComponent (s : string) : string :=
  match s with
  | EmptyString => EmptyString
  | String c rest =>
      (if uri_unreserved c then String c EmptyString else percent_byte c)
        ++ encodeURIComponent rest
  end.

(** Characters the [application/x-www-form-urlencoded] serializer leaves
    alone: [A-Z a-z 0-9 * - . _]; a space becomes [+]. *)
Definition form_unreserved (c : ascii) : bool :=
  is_alnum c || one_of "*-._" c.

Fixpoint form_encode (s : string) : string :=
  match s with
  | EmptyString => EmptyString
  | String c rest =>
      (if Ascii.eqb c " " then "+"
       else if form_unreserved c then String c EmptyString
       else percent_byte c)
        ++ form_encode rest
  end.

(** A plain object used as a query-parameter map, as [Object.entries] lists
    it: keys in insertion order, each once, string values. *)
Definition QueryParams : Type := list (string * string).

(** [join(sep)] on a list of strings. *)
Fixpoint join (sep : string) (l : list string) : string :=
  match l with
  | [] => EmptyString
  | [x] => x
  | x :: rest => x ++ sep ++ join sep rest
  end.

(** [new URLSearchParams()], one [append(key, value)] per entry, [toString()]. *)
Definition URLSearchParams_toString (q : QueryParams) : string :=
  join "&" (map (fun kv => form_encode (fst kv) ++ "=" ++ form_encode (snd kv)) q).

(** [s.split('/')]: never empty; [''.split('/')] is [['']]. *)
Fixpoint split_slash_aux (cur : string) (s : string) : list string :=
  match s with
  | EmptyString => [cur]
  | String c rest =>
      if Ascii.eqb c "/" then cur :: split_slash_aux EmptyString rest
      else split_slash_aux (cur ++ String c EmptyString) rest
  end.

Definition split_slash (s : string) : list string := split_slash_aux EmptyString s.

(** [path.split('/').map(segment => encodeURIComponent(segment)).join('/')] *)
Definition encodePath (path : string) : string :=
  join "/" (map encodeURIComponent (split_slash path)).

(** [path.startsWith('http://') || path.startsWith('https://')] *)
Definition is_absolute_url (path : string) : bool :=
  String.prefix "http://" path || String.prefix "https://" path.

(* ===================================================================== *)
(** ** The effects of the code *)
(* ===================================================================== *)

(** A reference to a query-parameter object on the heap. The caller of
    [callGraphAPI] keeps its reference, so a mutation made by the callee is
    visible to every later use of the same object. *)
Definition loc : Type := nat.

(** What [https.request(finalUrl, options, ...)] sends, with the body
    written by [req.write]. The [Content-Type] header is constant. *)
Record Request : Type := mkRequest {
  req_url : string;
  req_method : string;
  req_authorization : string;
  req_body : option string
}.

(** How one HTTPS exchange ends. *)
Inductive NetResult : Type :=
| Response (status : Z) (responseData : string)  (* res.on('end') *)
| NetworkError (msg : string)                     (* req.on('error') *)
| RequestThrows (e : JsError).                    (* https.request throws inside the executor *)

(** How one call of [tokenStorage.getValidAccessToken()] ends: a token,
    [null] ([None]), or an exception. *)
Inductive TokenResult : Type :=
| TokenValue (fresh : option string)
| TokenThrows (e : JsError).

Inductive Event : Type :=
| EvHttp (r : Request)
| EvGetValidAccessToken
| EvNewTokenStorage
| EvMock (method : string) (path data : Json) (q : QueryParams).

(** The configuration, the library functions and the outside world that the
    code depends on. [https_request n r] is the outcome of the request [r]
    when [n] requests were issued before it; [getValidAccessToken n] is the
    outcome of the call of [tokenStorage.getValidAccessToken()] that [n]
    such calls preceded. *)
Record World : Type := mkWorld {
  USE_TEST_MODE : bool;
  GRAPH_API_ENDPOINT : string;
  simulateGraphAPIResponse : string -> Json -> Json -> QueryParams -> JsError + Json;
  JSON_parse : string -> string + Json;
  JSON_stringify : Json -> string;
  https_request : nat -> Request -> NetResult;
  getValidAccessToken : nat -> TokenResult
}.

Record State : Type := mkState {
  heap : list QueryParams;
  trace : list Event
}.

Definition is_http (e : Event) : bool :=
  match e with EvHttp _ => true | _ => false end.

Definition is_token_call (e : Event) : bool :=
  match e with EvGetValidAccessToken => true | _ => false end.

(** An attempt at the request: an HTTPS exchange, or its simulation. *)
Definition is_attempt (e : Event) : bool :=
  match e with EvHttp _ | EvMock _ _ _ _ => true | _ => false end.

Definition count_http (t : list Event) : nat := length (filter is_http t).
Definition count_attempts (t : list Event) : nat := length (filter is_attempt t).
Definition count_token_calls (t : list Event) : nat := length (filter is_token_call t).

(** The settled value of an [async] function, or the exhaustion of the fuel
    that bounds the recursion of the model. *)
Inductive Outcome (A : Type) : Type :=
| Resolved (a : A)
| Rejected (e : JsError)
| OutOfFuel.
Arguments Resolved {A} a.
Arguments Rejected {A} e.
Arguments OutOfFuel {A}.

Definition M (A : Type) : Type := State -> Outcome A * State.

Definition ret {A} (a : A) : M A := fun s => (Resolved a, s).
Definition throw {A} (e : JsError) : M A := fun s => (Rejected e, s).
Definition out_of_fuel {A} : M A := fun s => (OutOfFuel, s).

Definition bind {A B} (m : M A) (k : A -> M B) : M B :=
  fun s =>
    match m s with
    | (Resolved a, s') => k a s'
    | (Rejected e, s') => (Rejected e, s')
    | (OutOfFuel, s') => (OutOfFuel, s')
    end.

(** [try { m } catch (e) { h e }] *)
Definition try_catch {A} (m : M A) (h : JsError -> M A) : M A :=
  fun s =>
    match m s with
    | (Rejected e, s') => h e s'
    | r => r
    end.

Declare Scope js_scope.
Delimit Scope js_scope with js.
Notation "x <- m ;; k" := (bind m (fun x => k))
  (at level 100, m at next level, right associativity) : js_scope.
Notation "m ;;; k" := (bind m (fun _ => k))
  (at level 100, right associativity) : js_scope.
Local Open Scope js_scope.

Definition lift {A} (r : JsError + A) : M A :=
  match r with
  | inl e => throw e
  | inr a => ret a
  end.

Definition emit (e : Event) : M unit :=
  fun s => (Resolved tt, {| heap := heap s; trace := trace s ++ [e] |}).

(** Reading the object behind a reference. *)
Definition deref (l : loc) : M QueryParams :=
  fun s => (Resolved (nth l (heap s) []), s).

Fixpoint update_nth {A} (n : nat) (f : A -> A) (l : list A) : list A :=
  match l, n with
  | [], _ => []
  | x :: rest, O => f x :: rest
  | x :: rest, S n' => x :: update_nth n' f rest
  end.

(** [delete obj[k]] *)
Definition delete_prop (l : loc) (k : string) : M unit :=
  fun s => (Resolved tt,
            {| heap := update_nth l (remove_key k) (heap s); trace := trace s |}).

(** A fresh object literal. *)
Definition alloc (q : QueryParams) : M loc :=
  fun s => (Resolved (length (heap s)),
            {| heap := heap s ++ [q]; trace := trace s |}).

(** A string is falsy exactly when it is empty; [undefined] and [null] are falsy. *)
Definition truthy_str (o : option string) : bool :=
  match o with
  | Some s => negb (s =? EmptyString)
  | None => false
  end.

Definition str_or_empty (o : option string) : string :=
  match o with Some s => s | None => EmptyString end.

(* ===================================================================== *)
(** ** [utils/graph-api.js] *)
(* ===================================================================== *)

Section GraphApi.

Context (w : World).

(** [tokenStorage.getValidAccessToken()] on the module's token storage. *)
Definition call_getValidAccessToken : M (option string) :=
  fun s =>
    let s' := {| heap := heap s; trace := trace s ++ [EvGetValidAccessToken] |} in
    match getValidAccessToken w (count_token_calls (trace s)) with
    | TokenValue fresh => (Resolved fresh, s')
    | TokenThrows e => (Rejected e, s')
    end.

(** [mockData.simulateGraphAPIResponse(method, path, data, queryParams)] *)
Definition call_simulateGraphAPIResponse
    (method : string) (path data : Json) (queryParams : loc) : M Json :=
  q <- deref queryParams ;;
  emit (EvMock method path data q) ;;;
  lift (simulateGraphAPIResponse w method path data q).

(** Lines 55-86: the query string, with [$filter] taken out of the
    caller's object and appended on its own. *)
Definition buildQueryString (queryParams : loc) : M string :=
  q <- deref queryParams ;;
  if (0 <? length q)%nat then
    let filter := assoc "$filter" q in
    (if truthy_str filter then delete_prop queryParams "$filter" else ret tt) ;;;
    q' <- deref queryParams ;;
    let queryString := URLSearchParams_toString q' in
    let queryString :=
      if truthy_str filter then
        if negb (queryString =? EmptyString)
        then queryString ++ "&$filter=" ++ encodeURIComponent (str_or_empty filter)
        else "$filter=" ++ encodeURIComponent (str_or_empty filter)
      else queryString in
    let queryString :=
      if negb (queryString =? EmptyString) then "?" ++ queryString else queryString in
    ret queryString
  else ret EmptyString.

(** Lines 43-90: the target URL. [path.startsWith] throws a [TypeError]
    when [path] is not a string. *)
Definition buildFinalUrl (path : Json) (queryParams : loc) : M string :=
  match path with
  | JStr p =>
      if is_absolute_url p then ret p
      else
        queryString <- buildQueryString queryParams ;;
        ret (GRAPH_API_ENDPOINT w ++ encodePath p ++ queryString)
  | JNull => throw (TypeError "Cannot read properties of null (reading 'startsWith')")
  | _ => throw (TypeError "path.startsWith is not a function")
  end.

(** [data && (method === 'POST' || method === 'PATCH' || method === 'PUT')] *)
Definition writes_body (method : string) (data : Json) : bool :=
  truthy data && ((method =? "POST") || (method =? "PATCH") || (method =? "PUT")).

(** Lines 93-101 and 160-164: the request as it goes out. *)
Definition make_request (finalUrl accessToken method : string) (data : Json) : Request :=
  {| req_url := finalUrl;
     req_method := method;
     req_authorization := "Bearer " ++ accessToken;
     req_body := if writes_body method data then Some (JSON_stringify w data) else None |}.

Definition send (r : Request) : M NetResult :=
  fun s =>
    (Resolved (https_request w (count_http (trace s)) r),
     {| heap := heap s; trace := trace s ++ [EvHttp r] |}).

(** Lines 108-153: the [res.on('end', ...)] callback, settling the promise.
    [retry fresh] stands for the recursive call
    [callGraphAPI(fresh, method, path, data, queryParams, true)]. *)
Definition on_end (retry : string -> M Json) (_isRetry : bool)
    (status : Z) (responseData : string) : M Json :=
  if is_2xx status then
    let responseData := body_or_empty_object responseData in
    match JSON_parse w responseData with
    | inr jsonResponse => ret jsonResponse
    | inl msg => throw (Error ("Error parsing API response: " ++ msg))
    end
  else if (status =? 401)%Z && negb _isRetry then
    settled <-
      try_catch
        (fresh <- call_getValidAccessToken ;;
         if negb (truthy_str fresh) then
           (* reject(...); return; *)
           ret (inl (Error "UNAUTHORIZED: refresh failed or no refresh_token"))
         else
           retryResult <- retry (str_or_empty fresh) ;;
           ret (inr retryResult))
        (fun refreshError =>
           ret (inl {| message := "UNAUTHORIZED: " ++ message refreshError;
                       statusCode := Some 401%Z;
                       body := Some responseData |})) ;;
    match settled with
    | inr retryResult => ret retryResult
    | inl err => throw err
    end
  else
    throw (Error ("API call failed with status " ++ string_of_Z status
                    ++ ": " ++ responseData)).

(** Lines 166-183: the [catch] block of the function body. *)
Definition on_catch (retry : string -> M Json) (_isRetry : bool) (error : JsError)
  : M Json :=
  if (match statusCode error with Some c => (c =? 401)%Z | None => false end)
     && negb _isRetry then
    try_catch
      (fresh <- call_getValidAccessToken ;;
       if negb (truthy_str fresh) then
         throw (Error "UNAUTHORIZED: refresh failed or no refresh_token")
       else retry (str_or_empty fresh))
      (fun refreshError => throw (Error "UNAUTHORIZED"))
  else throw error.

(** [callGraphAPI(accessToken, method, path, data, queryParams, _isRetry)].
    The recursion of the source (the retry after a refresh) is bounded by
    [fuel].

    The promise built at line 92 is returned without [await], so the
    [catch] of line 166 sees only what is thrown while the URL is built;
    a rejection of the promise goes to the caller as it is. *)
Fixpoint callGraphAPI (fuel : nat) (accessToken method : string) (path data : Json)
    (queryParams : loc) (_isRetry : bool) {struct fuel} : M Json :=
  match fuel with
  | O => out_of_fuel
  | S fuel' =>
    let retry fresh := callGraphAPI fuel' fresh method path data queryParams true in
    if USE_TEST_MODE w && String.prefix "test_access_token_" accessToken then
      call_simulateGraphAPIResponse method path data queryParams
    else
      built <- try_catch (finalUrl <- buildFinalUrl path queryParams ;; ret (inr finalUrl))
                         (fun error => ret (inl error)) ;;
      match built with
      | inr finalUrl =>
        res <- send (make_request finalUrl accessToken method data) ;;
        match res with
        | Response status responseData => on_end retry _isRetry status responseData
        | NetworkError msg =>
          throw (Error ("Network error during API call: " ++ msg))
        | RequestThrows e => throw e
        end
      | inl error => on_catch retry _isRetry error
      end
  end.

(** The state of the [do ... while] loop of [callGraphAPIPaginated]. *)
Record PageLoop : Type := mkPageLoop {
  allItems : list Json;
  currentUrl : Json;
  currentParams : loc
}.

(** What one pass through the loop body decides. *)
Inductive LoopStep : Type :=
| Break (items : list Json)       (* [break], or the [while] test fails *)
| Continue (next : PageLoop).     (* [nextLink] is truthy *)

(** [allItems.push(...response.value)] under
    [response.value && Array.isArray(response.value)]. *)
Definition push_page (items : list Json) (value : option Json) : list Json :=
  match value with
  | Some (JArr page) => items ++ page
  | _ => items
  end.

(** Lines 207-230: one pass through the loop body. *)
Definition page_iteration (fuel : nat) (accessToken method : string) (maxCount : Z)
    (st : PageLoop) : M LoopStep :=
  response <- callGraphAPI fuel accessToken method (currentUrl st) JNull
                (currentParams st) false ;;
  value <- lift (get_prop response "value") ;;
  let allItems := push_page (allItems st) value in
  if bound_reached maxCount (length allItems) then
    ret (Break allItems)
  else
    nextLink <- lift (get_prop response "@odata.nextLink") ;;
    match nextLink with
    | Some link =>
        if truthy link then
          fresh_params <- alloc [] ;;
          ret (Continue {| allItems := allItems;
                           currentUrl := link;
                           currentParams := fresh_params |})
        else ret (Break allItems)
    | None => ret (Break allItems)
    end.

Fixpoint paginate_loop (fuel gas : nat) (accessToken method : string) (maxCount : Z)
    (st : PageLoop) {struct fuel} : M (list Json) :=
  match fuel with
  | O => out_of_fuel
  | S fuel' =>
    step <- page_iteration gas accessToken method maxCount st ;;
    match step with
    | Break items => ret items
    | Continue st' => paginate_loop fuel' gas accessToken method maxCount st'
    end
  end.

(** [callGraphAPIPaginated(accessToken, method, path, queryParams, maxCount)].
    [fuel] bounds the number of pages fetched and, separately, the recursion
    of each [callGraphAPI]. The outer [try]/[catch] rethrows and is the
    identity. *)
Definition callGraphAPIPaginated (fuel : nat) (accessToken method : string) (path : Json)
    (queryParams : loc) (maxCount : Z) : M Json :=
  if negb (method =? "GET") then
    throw (Error "Pagination only supports GET requests")
  else
    allItems <- paginate_loop fuel fuel accessToken method maxCount
                  {| allItems := []; currentUrl := path; currentParams := queryParams |} ;;
    let finalItems :=
      if (0 <? maxCount)%Z then firstn (Z.to_nat maxCount) allItems else allItems in
    ret (JObj [("value", JArr finalItems);
               ("@odata.count", JNum (Z.of_nat (length finalItems)))]).

(* ===================================================================== *)
(** ** [auth/index.js] *)
(* ===================================================================== *)

(** [ensureAuthenticated(forceNew)]: a [TokenStorage] is constructed on
    every call that gets past the [forceNew] guard. *)
Definition ensureAuthenticated (forceNew : bool) : M string :=
  if forceNew then throw (Error "Authentication required")
  else
    emit EvNewTokenStorage ;;;
    accessToken <- call_getValidAccessToken ;;
    if negb (truthy_str accessToken) then throw (Error "Authentication required")
    else ret (str_or_empty accessToken).

End GraphApi.

(* ===================================================================== *)
(** ** Vocabulary of the properties *)
(* ===================================================================== *)

(** Line 31: the call is simulated instead of sent. *)
Definition in_test_mode (w : World) (accessToken : string) : bool :=
  USE_TEST_MODE w && String.prefix "test_access_token_" accessToken.

Definition add_event (s : State) (e : Event) : State :=
  {| heap := heap s; trace := trace s ++ [e] |}.

(** How [on_end] settles a response that it does not answer with a retry. *)
Definition settle_final (w : World) (status : Z) (responseData : string) : Outcome Json :=
  if is_2xx status then
    match JSON_parse w (body_or_empty_object responseData) with
    | inr j => Resolved j
    | inl msg => Rejected (Error ("Error parsing API response: " ++ msg))
    end
  else Rejected (Error ("API call failed with status " ++ string_of_Z status
                          ++ ": " ++ responseData)).

(** The error built at lines 145-147 from whatever the refresh or the retry
    threw. *)
Definition wrap_unauthorized (responseData : string) (e : JsError) : JsError :=
  {| message := "UNAUTHORIZED: " ++ message e;
     statusCode := Some 401%Z;
     body := Some responseData |}.

(** The query string as the specification words it: every parameter but
    [$filter] form-encoded, then [$filter], percent-encoded as a whole, as a
    trailing component of its own; [?] in front when anything is there. *)
Definition spec_query_string (q : QueryParams) : string :=
  let general := URLSearchParams_toString (remove_key "$filter" q) in
  match assoc "$filter" q with
  | Some filter =>
      "?" ++ (if negb (general =? EmptyString) then general ++ "&" else EmptyString)
          ++ "$filter=" ++ encodeURIComponent filter
  | None => if negb (general =? EmptyString) then "?" ++ general else EmptyString
  end.

(** A sequence of pages chained by continuation cursors, as the server
    hands it out to the bearer of [tok]: the request number [n], sent to
    [url], is answered with a 2xx response whose body parses to an object
    with the page's items under [value]; every page but the last carries an
    absolute URL under [@odata.nextLink], to which request [n + 1] goes. *)
Inductive served_chain (w : World) (tok : string)
  : nat -> string -> list (list Json) -> Prop :=
| chain_last n url st rd resp items cursor :
    https_request w n (make_request w url tok "GET" JNull) = Response st rd ->
    is_2xx st = true ->
    JSON_parse w (body_or_empty_object rd) = inr resp ->
    get_prop resp "value" = inr (Some (JArr items)) ->
    get_prop resp "@odata.nextLink" = inr cursor ->
    truthy_opt cursor = false ->
    served_chain w tok n url [items]
| chain_next n url st rd resp items next rest :
    https_request w n (make_request w url tok "GET" JNull) = Response st rd ->
    is_2xx st = true ->
    JSON_parse w (body_or_empty_object rd) = inr resp ->
    get_prop resp "value" = inr (Some (JArr items)) ->
    get_prop resp "@odata.nextLink" = inr (Some (JStr next)) ->
    is_absolute_url next = true ->
    served_chain w tok (S n) next rest ->
    served_chain w tok n url (items :: rest).

(** The number of pages the loop fetches when it starts on [pages] with
    [acc] items already collected. *)
Fixpoint pages_fetched (maxCount : Z) (acc : nat) (pages : list (list Json)) : nat :=
  match pages with
  | [] => 0
  | page :: rest =>
      if bound_reached maxCount (acc + length page) then 1
      else S (pages_fetched maxCount (acc + length page) rest)
  end.

(** The event is aimed at the cursor: an HTTPS request goes to [url], a
    simulated call gets the cursor as its path and no query parameters. *)
Definition targets (cursor : Json) (url : string) (e : Event) : Prop :=
  match e with
  | EvHttp r => req_url r = url
  | EvMock _ p _ q => p = cursor /\ q = []
  | _ => True
  end.

(* ===================================================================== *)
(** ** Concurrent callers and the refresh in flight *)
(* ===================================================================== *)

Module TokenCoalescing.

(** [auth/token-storage.js] is not among the source files. What follows
    keeps, of a [TokenStorage] object, only the refresh it has in flight,
    and of the callers only which refresh each one awaits. Each step is one
    run-to-completion turn of the event loop. *)

Record System : Type := mkSystem {
  expired : bool;                 (* the stored access token is expired *)
  instances : list (option nat);  (* per [TokenStorage] object: its refresh in flight *)
  in_flight : list nat;           (* refresh requests on the network *)
  issued : nat;                   (* refresh requests sent so far *)
  awaiting : list (nat * nat)     (* (caller, refresh whose result it will get) *)
}.

Definition set_nth {A} (n : nat) (x : A) (l : list A) : list A :=
  update_nth n (fun _ => x) l.

(** Modelled from the spec: [TokenStorage.getValidAccessToken()], which is
    missing from the sources. Section 4.3: a valid stored token is returned
    as it is; for an expired one a refresh is invoked, and a caller arriving
    while a refresh is in progress awaits and shares that refresh. Section 5
    names the mechanism (a single in-flight promise shared by all waiters),
    section 9 its extent: the promise belongs to the object, and independent
    objects know nothing of each other's state. *)
Definition TokenStorage_getValidAccessToken (i caller : nat) (sys : System) : System :=
  if negb (expired sys) then sys
  else
    match nth i (instances sys) None with
    | Some r =>
        {| expired := expired sys; instances := instances sys;
           in_flight := in_flight sys; issued := issued sys;
           awaiting := awaiting sys ++ [(caller, r)] |}
    | None =>
        let r := issued sys in
        {| expired := expired sys;
           instances := set_nth i (Some r) (instances sys);
           in_flight := in_flight sys ++ [r];
           issued := S (issued sys);
           awaiting := awaiting sys ++ [(caller, r)] |}
    end.

(** Modelled from the spec: the refresh [r] comes back; the new token is
    stored, the promise is dropped, its waiters are served. *)
Definition refresh_completes (r : nat) (sys : System) : System :=
  {| expired := false;
     instances := map (fun o => match o with
                                | Some r' => if Nat.eqb r' r then None else Some r'
                                | None => None
                                end) (instances sys);
     in_flight := filter (fun r' => negb (Nat.eqb r' r)) (in_flight sys);
     issued := issued sys;
     awaiting := filter (fun cr => negb (Nat.eqb (snd cr) r)) (awaiting sys) |}.

(** [auth/index.js], lines 23-33: [ensureAuthenticated()] builds a
    [TokenStorage] of its own and asks it for the token. *)
Definition ensureAuthenticated_call (caller : nat) (sys : System) : System :=
  let i := length (instances sys) in
  TokenStorage_getValidAccessToken i caller
    {| expired := expired sys; instances := instances sys ++ [None];
       in_flight := in_flight sys; issued := issued sys; awaiting := awaiting sys |}.

(** [utils/graph-api.js], lines 9-16 and 124: every [callGraphAPI] asks the
    one [tokenStorage] of the module, object number 0. *)
Definition graph_api_tokenStorage : nat := 0.

Definition callGraphAPI_refresh (caller : nat) (sys : System) : System :=
  TokenStorage_getValidAccessToken graph_api_tokenStorage caller sys.

Inductive Step : Type :=
| EnsureAuthenticated (caller : nat)
| GraphApi401 (caller : nat)
| RefreshCompletes (r : nat).

Definition step (sys : System) (st : Step) : System :=
  match st with
  | EnsureAuthenticated c => ensureAuthenticated_call c sys
  | GraphApi401 c => callGraphAPI_refresh c sys
  | RefreshCompletes r => refresh_completes r sys
  end.

Definition run (steps : list Step) (sys : System) : System :=
  fold_left step steps sys.

(** The server after start-up, with an expired token on disk: the only
    [TokenStorage] is the one of [utils/graph-api.js]. *)
Definition expired_start : System :=
  {| expired := true; instances := [None]; in_flight := []; issued := 0; awaiting := [] |}.

End TokenCoalescing.

(* ===================================================================== *)
(** ** Scenarios *)
(* ===================================================================== *)

(** A stand-in for [JSON.parse] on the documents of a scenario: each listed
    text parses to the value given with it, any other text is a syntax
    error. *)
Definition parse_table (docs : list (string * Json)) (text : string) : string + Json :=
  match assoc text docs with
  | Some j => inr j
  | None => inl "Unexpected token"
  end.

Definition no_mock (method : string) (path data : Json) (q : QueryParams)
  : JsError + Json := inr (JObj []).

(** The first request is answered 401, every later one with [status] and
    [responseData]; the token storage has a fresh token. *)
Definition world_401_then (status : Z) (responseData : string) : World :=
  {| USE_TEST_MODE := false;
     GRAPH_API_ENDPOINT := "https://graph.microsoft.com/v1.0/";
     simulateGraphAPIResponse := no_mock;
     JSON_parse := parse_table [("{}", JObj [])];
     JSON_stringify := fun _ => "{}";
     https_request := fun n _ =>
       match n with
       | O => Response 401 "expired"
       | _ => Response status responseData
       end;
     getValidAccessToken := fun _ => TokenValue (Some "fresh-token") |}.

Definition world_401_then_200 : World := world_401_then 200 EmptyString.

(** Every request is answered with [status] and [responseData]. *)
Definition world_always (status : Z) (responseData : string) : World :=
  {| USE_TEST_MODE := false;
     GRAPH_API_ENDPOINT := "https://graph.microsoft.com/v1.0/";
     simulateGraphAPIResponse := no_mock;
     JSON_parse := parse_table [("{}", JObj [])];
     JSON_stringify := fun _ => "{}";
     https_request := fun _ _ => Response status responseData;
     getValidAccessToken := fun _ => TokenValue (Some "fresh-token") |}.

(** Three pages of two, two and one items, chained by cursors. *)
Definition page1 : Json :=
  JObj [("value", JArr [JNum 1; JNum 2]);
        ("@odata.nextLink", JStr "https://graph.microsoft.com/v1.0/me/messages?$skip=2")].
Definition page2 : Json :=
  JObj [("value", JArr [JNum 3; JNum 4]);
        ("@odata.nextLink", JStr "https://graph.microsoft.com/v1.0/me/messages?$skip=4")].
Definition page3 : Json :=
  JObj [("value", JArr [JNum 5])].

Definition world_three_pages : World :=
  {| USE_TEST_MODE := false;
     GRAPH_API_ENDPOINT := "https://graph.microsoft.com/v1.0/";
     simulateGraphAPIResponse := no_mock;
     JSON_parse := parse_table [("<page 1>", page1); ("<page 2>", page2);
                                ("<page 3>", page3); ("{}", JObj [])];
     JSON_stringify := fun _ => "{}";
     https_request := fun _ r =>
       if req_url r =? "https://graph.microsoft.com/v1.0/me/messages"
       then Response 200 "<page 1>"
       else if req_url r =? "https://graph.microsoft.com/v1.0/me/messages?$skip=2"
       then Response 200 "<page 2>"
       else if req_url r =? "https://graph.microsoft.com/v1.0/me/messages?$skip=4"
       then Response 200 "<page 3>"
       else Response 404 "not found";
     getValidAccessToken := fun _ => TokenValue None |}.

Definition empty_state : State := {| heap := [[]]; trace := [] |}.

(* ===================================================================== *)
(** ** More of the JavaScript library *)
(* ===================================================================== *)

(** The string of the given bytes. *)
Definition bytes (l : list nat) : string :=
  string_of_list_ascii (map ascii_of_nat l).

(** A line feed, [\n] in the source. *)
Definition nl : string := bytes [10].

(** A number is a double: [JNum z] stands for the value of the literal
    [z], the double nearest to [z], ties going to the even mantissa. For a
    positive [a] below [2^53] that is [a] itself; [None] is [Infinity],
    from [2^1024 - 2^970] on. *)
Definition nearest_double (a : Z) : option Z :=
  let e := (Z.log2 a - 52)%Z in
  if (e <=? 0)%Z then Some a
  else
    let q := Z.shiftr a e in
    let r := (a - Z.shiftl q e)%Z in
    let half := Z.shiftl 1 (e - 1) in
    let m := if (r <? half)%Z then q
             else if (half <? r)%Z then (q + 1)%Z
             else if Z.even q then q else (q + 1)%Z in
    let x := Z.shiftl m e in
    if (Z.shiftl 1 1024 <=? x)%Z then None else Some x.

(** The decimal [v] reads as the double [x]. *)
Definition reads_as (x v : Z) : bool :=
  (0 <? v)%Z && match nearest_double v with Some y => (y =? x)%Z | None => false end.

(** [Number::toString] picks the decimal with the fewest significant
    digits that reads as [x], the nearest to [x] when there are several,
    the one with an even last digit when two are as near. For an integer
    [x] this is the multiple of the highest power of ten, [10^j], that
    reads as [x]; the search goes down from [j], and the result is the
    decimal with the power it is a multiple of. *)
Fixpoint shortest_decimal (x : Z) (j : nat) : Z * nat :=
  match j with
  | O => (x, O)
  | S j' =>
      let p := (10 ^ Z.of_nat j)%Z in
      let below := (x / p * p)%Z in
      let above := (below + p)%Z in
      match reads_as x below, reads_as x above with
      | true, true =>
          if (x - below <? above - x)%Z then (below, j)
          else if (above - x <? x - below)%Z then (above, j)
          else if Z.even (below / p) then (below, j) else (above, j)
      | true, false => (below, j)
      | false, true => (above, j)
      | false, false => shortest_decimal x j'
      end
  end.

(** [`${z}`] for a number: the digits of the shortest decimal, followed by
    zeros up to twenty-one digits in all, in exponent form beyond. *)
Definition Number_toString (z : Z) : string :=
  if (z =? 0)%Z then "0"
  else
    let sign := if (z <? 0)%Z then "-" else EmptyString in
    match nearest_double (Z.abs z) with
    | None => sign ++ "Infinity"
    | Some x =>
        let (v, j) := shortest_decimal x (String.length (string_of_Z x)) in
        let digits := string_of_Z (v / 10 ^ Z.of_nat j) in
        let n := (String.length digits + j)%nat in
        if (n <=? 21)%nat then sign ++ string_of_Z v
        else
          match digits with
          | String d EmptyString => sign ++ String d ("e+" ++ string_of_Z (Z.of_nat n - 1))
          | String d more =>
              sign ++ String d ("." ++ more ++ "e+" ++ string_of_Z (Z.of_nat n - 1))
          | EmptyString => sign
          end
    end.

(** [`${v}`] and [String(v)]: an array prints its elements separated by
    commas, [null] among them as nothing. *)
Fixpoint js_toString (j : Json) : string :=
  match j with
  | JNull => "null"
  | JBool true => "true"
  | JBool false => "false"
  | JNum z => Number_toString z
  | JStr s => s
  | JArr items =>
      join "," (map (fun x => match x with
                              | JNull => EmptyString
                              | _ => js_toString x
                              end) items)
  | JObj _ => "[object Object]"
  end.

(** The same for a value that may be [undefined]. *)
Definition js_toString_opt (o : option Json) : string :=
  match o with
  | Some j => js_toString j
  | None => "undefined"
  end.

(** [x || y] *)
Definition js_or (x : option Json) (y : Json) : Json :=
  match x with
  | Some j => if truthy j then j else y
  | None => y
  end.

(** [x ?? y], on values that may be [undefined]. *)
Definition nullish (o : option Json) : bool :=
  match o with
  | None | Some JNull => true
  | Some _ => false
  end.

Definition js_coalesce (x y : option Json) : option Json :=
  if nullish x then y else x.

(** [x?.k]: [undefined] on [null] and [undefined], the property otherwise. *)
Definition opt_chain (x : option Json) (k : string) : option Json :=
  match x with
  | Some (JObj props) => assoc k props
  | _ => None
  end.

(** [s.split(sep)] for a one-character separator: never empty. *)
Fixpoint split_on_aux (sep : ascii) (cur : string) (s : string) : list string :=
  match s with
  | EmptyString => [cur]
  | String c rest =>
      if Ascii.eqb c sep then cur :: split_on_aux sep EmptyString rest
      else split_on_aux sep (cur ++ String c EmptyString) rest
  end.

Definition split_on (sep : ascii) (s : string) : list string :=
  split_on_aux sep EmptyString s.

(** [s.includes(sub)] *)
Fixpoint includes (sub s : string) : bool :=
  String.prefix sub s
  || match s with
     | EmptyString => false
     | String _ rest => includes sub rest
     end.

(** [s.length]: UTF-16 code units, counted on the UTF-8 bytes. A byte that
    starts a character counts one, or two when the character takes four
    bytes (a surrogate pair); a continuation byte counts nothing. *)
Definition code_units (c : ascii) : nat :=
  let n := nat_of_ascii c in
  if (n <? 128)%nat then 1
  else if (n <? 192)%nat then 0
  else if (n <? 240)%nat then 1
  else 2.

Fixpoint utf16_length (s : string) : nat :=
  match s with
  | EmptyString => 0
  | String c rest => code_units c + utf16_length rest
  end.

(** The white space and line terminators that [trim] removes, in UTF-8:
    TAB, LF, VT, FF, CR, SP, U+00A0, U+1680, U+2000 to U+200A, U+2028,
    U+2029, U+202F, U+205F, U+3000, U+FEFF. *)
Definition js_whitespace : list string :=
  [bytes [9]; bytes [10]; bytes [11]; bytes [12]; bytes [13]; bytes [32];
   bytes [194; 160]; bytes [225; 154; 128];
   bytes [226; 128; 128]; bytes [226; 128; 129]; bytes [226; 128; 130];
   bytes [226; 128; 131]; bytes [226; 128; 132]; bytes [226; 128; 133];
   bytes [226; 128; 134]; bytes [226; 128; 135]; bytes [226; 128; 136];
   bytes [226; 128; 137]; bytes [226; 128; 138];
   bytes [226; 128; 168]; bytes [226; 128; 169]; bytes [226; 128; 175];
   bytes [226; 129; 159]; bytes [227; 128; 128]; bytes [239; 187; 191]].

(** [s] without the prefix [p], when it has it. *)
Fixpoint drop_prefix (p s : string) : option string :=
  match p, s with
  | EmptyString, _ => Some s
  | String a p', String b s' => if Ascii.eqb a b then drop_prefix p' s' else None
  | String _ _, EmptyString => None
  end.

Fixpoint drop_first (ps : list string) (s : string) : option string :=
  match ps with
  | [] => None
  | p :: rest =>
      match drop_prefix p s with
      | Some s' => Some s'
      | None => drop_first rest s
      end
  end.

Fixpoint trim_with (ws : list string) (fuel : nat) (s : string) : string :=
  match fuel with
  | O => s
  | S fuel' =>
      match drop_first ws s with
      | Some s' => trim_with ws fuel' s'
      | None => s
      end
  end.

Definition string_rev (s : string) : string :=
  string_of_list_ascii (rev (list_ascii_of_string s)).

Definition trimStart (s : string) : string :=
  trim_with js_whitespace (String.length s) s.

Definition trimEnd (s : string) : string :=
  string_rev (trim_with (map string_rev js_whitespace) (String.length s) (string_rev s)).

(** [s.trim()] *)
Definition trim (s : string) : string := trimEnd (trimStart s).

(* ===================================================================== *)
(** ** [email/create-draft.js] *)
(* ===================================================================== *)

(** An MCP tool response with one text item. *)
Definition text_response (text : string) : Json :=
  JObj [("content", JArr [JObj [("type", JStr "text"); ("text", JStr text)]])].

(** [v ? v.split(',').map(email => ({ emailAddress: { address: email.trim() } })) : []]
    for the argument called [name]; [split] exists on strings only. *)
Definition parse_recipients (name : string) (v : option Json) : JsError + list Json :=
  match v with
  | Some (JStr s) =>
      if truthy (JStr s) then
        inr (map (fun email => JObj [("emailAddress", JObj [("address", JStr (trim email))])])
                 (split_on "," s))
      else inr []
  | Some j =>
      if truthy j then inl (TypeError (name ++ ".split is not a function")) else inr []
  | None => inr []
  end.

(** [(body && body.includes('<html'))]: [includes] exists on strings and on
    arrays, where it looks for an element equal to the string. *)
Definition body_includes_html (body : option Json) : JsError + bool :=
  match body with
  | Some (JStr s) => inr (truthy (JStr s) && includes "<html" s)
  | Some (JArr items) =>
      inr (existsb (fun x => match x with JStr t => t =? "<html" | _ => false end) items)
  | Some j =>
      if truthy j then inl (TypeError "body.includes is not a function") else inr false
  | None => inr false
  end.

(** [body ? body.length : 0], as it prints. *)
Definition body_length_text (body : option Json) : string :=
  match body with
  | Some (JStr s) => if truthy (JStr s) then string_of_Z (Z.of_nat (utf16_length s)) else "0"
  | Some (JArr items) => string_of_Z (Z.of_nat (length items))
  | Some j => if truthy j then "undefined" else "0"
  | None => "0"
  end.

(** [if (recipients.length > 0) draftObject[key] = recipients] *)
Definition add_recipients (key : string) (recipients : list Json)
    (props : list (string * Json)) : list (string * Json) :=
  if (0 <? length recipients)%nat then props ++ [(key, JArr recipients)] else props.

(** Lines 98-101: the recipients line of the success message. *)
Definition recipientInfo (toRecipients ccRecipients bccRecipients : list Json) : string :=
  if (0 <? length toRecipients)%nat then
    nl ++ "Recipients: " ++ string_of_Z (Z.of_nat (length toRecipients))
       ++ (if (0 <? length ccRecipients)%nat
           then " + " ++ string_of_Z (Z.of_nat (length ccRecipients)) ++ " CC"
           else EmptyString)
       ++ (if (0 <? length bccRecipients)%nat
           then " + " ++ string_of_Z (Z.of_nat (length bccRecipients)) ++ " BCC"
           else EmptyString)
  else EmptyString.

(** Line 106: the success message. *)
Definition success_text (subject body : option Json) (info : string) (id : option Json)
  : string :=
  "Draft created successfully!" ++ nl ++ nl
    ++ "Subject: " ++ js_toString (js_or subject (JStr "(no subject)")) ++ info ++ nl
    ++ "Draft ID: " ++ js_toString_opt id ++ nl
    ++ "Message Length: " ++ body_length_text body ++ " characters" ++ nl ++ nl
    ++ "The draft has been saved in your Drafts folder and can be edited or sent later.".

(** The [catch] block, the same in both versions of the handler. *)
Definition draft_error_response (error : JsError) : Json :=
  if message error =? "Authentication required" then
    text_response "Authentication required. Please use the 'authenticate' tool first."
  else text_response ("Error creating draft: " ++ message error).

Definition missing_content_response : Json :=
  text_response "Either subject or body content is required to create a draft.".

(** Lines 59-80: the draft object, with the recipient lists added when
    they are not empty. *)
Definition draft_object (html_no : string) (flags : list (string * Json))
    (subject body : option Json) (importance : Json) (html : bool)
    (toRecipients ccRecipients bccRecipients : list Json) : Json :=
  JObj (add_recipients "bccRecipients" bccRecipients
         (add_recipients "ccRecipients" ccRecipients
           (add_recipients "toRecipients" toRecipients
             ([("subject", js_or subject (JStr EmptyString));
               ("body", JObj [("contentType", JStr (if html then "html" else html_no));
                              ("content", js_or body (JStr EmptyString))]);
               ("importance", importance)] ++ flags)))).

Section Handlers.

Context (w : World).

(** What the two versions of the handler do once they hold a token: the
    recipients, the draft object, the call and the message. [html_no] is
    the content type of a body without [<html], [flags] the fixed
    properties after [importance], [endpoint] the path posted to. *)
Definition create_draft (html_no : string) (flags : list (string * Json)) (endpoint : string)
    (fuel : nat) (accessToken : string) (to cc bcc subject body : option Json)
    (importance : Json) : M Json :=
  toRecipients <- lift (parse_recipients "to" to) ;;
  ccRecipients <- lift (parse_recipients "cc" cc) ;;
  bccRecipients <- lift (parse_recipients "bcc" bcc) ;;
  html <- lift (body_includes_html body) ;;
  let draftObject :=
    draft_object html_no flags subject body importance html
      toRecipients ccRecipients bccRecipients in
  queryParams <- alloc [] ;;
  result <- callGraphAPI w fuel accessToken "POST" (JStr endpoint) draftObject queryParams
              false ;;
  id <- lift (get_prop result "id") ;;
  ret (text_response
         (success_text subject body
            (recipientInfo toRecipients ccRecipients bccRecipients) id)).

(** [const { to, cc, bcc, subject, body, importance } = args]: a
    [TypeError] on [null] and [undefined], the properties of an object,
    nothing but [undefined] from any other value. *)
Definition destructure (args : option Json) (k : string) : JsError + option Json :=
  match args with
  | None =>
      inl (TypeError ("Cannot destructure property '" ++ k
                        ++ "' of 'args' as it is undefined."))
  | Some JNull =>
      inl (TypeError ("Cannot destructure property '" ++ k ++ "' of 'args' as it is null."))
  | Some (JObj props) => inr (assoc k props)
  | Some _ => inr None
  end.

(** [handleCreateDraft(args)] of [email/create-draft.js]. The arguments
    are taken apart before the [try]. *)
Definition handleCreateDraft (fuel : nat) (args : option Json) : M Json :=
  to <- lift (destructure args "to") ;;
  cc <- lift (destructure args "cc") ;;
  bcc <- lift (destructure args "bcc") ;;
  subject <- lift (destructure args "subject") ;;
  body <- lift (destructure args "body") ;;
  importance <- lift (destructure args "importance") ;;
  let importance := match importance with Some j => j | None => JStr "normal" end in
  if negb (truthy_opt subject) && negb (truthy_opt body) then
    ret missing_content_response
  else
    try_catch
      (accessToken <- ensureAuthenticated w false ;;
       create_draft "text" [("isDraft", JBool true)] "me/mailFolders/drafts/messages"
         fuel accessToken to cc bcc subject body importance)
      (fun error => ret (draft_error_response error)).

(** Lines 36-59 of the later version: when [ensureAuthenticated()] fails,
    whatever the failure, a [TokenStorage] built on the spot is asked. *)
Definition token_with_fallback : M string :=
  try_catch
    (ensureAuthenticated w false)
    (fun authError =>
       emit EvNewTokenStorage ;;;
       accessToken <- call_getValidAccessToken w ;;
       if negb (truthy_str accessToken) then throw (Error "Authentication required")
       else ret (str_or_empty accessToken)).

(** [handleCreateDraft(args)] in its later version (the source file with
    the direct [TokenStorage] import): [args || {}], the token with its
    fallback, content type [Text], no [isDraft], posted to [me/messages]. *)
Definition handleCreateDraft_direct (fuel : nat) (args : option Json) : M Json :=
  let args := Some (js_or args (JObj [])) in
  to <- lift (destructure args "to") ;;
  cc <- lift (destructure args "cc") ;;
  bcc <- lift (destructure args "bcc") ;;
  subject <- lift (destructure args "subject") ;;
  body <- lift (destructure args "body") ;;
  importance <- lift (destructure args "importance") ;;
  let importance := match importance with Some j => j | None => JStr "normal" end in
  if negb (truthy_opt subject) && negb (truthy_opt body) then
    ret missing_content_response
  else
    try_catch
      (accessToken <- token_with_fallback ;;
       create_draft "Text" [] "me/messages" fuel accessToken to cc bcc subject body importance)
      (fun error => ret (draft_error_response error)).

End Handlers.

(* ===================================================================== *)
(** ** [index.js] *)
(* ===================================================================== *)

(** An entry of [TOOLS]. A tool module may leave the handler out. *)
Record Tool : Type := mkTool {
  tool_name : string;
  tool_description : Json;
  tool_inputSchema : Json;
  tool_handler : option (Json -> M Json)
}.

(** [{ error: { code, message } }] *)
Definition rpc_error (code : Z) (msg : string) : Json :=
  JObj [("error", JObj [("code", JNum code); ("message", JStr msg)])].

(** [obj[k] = v] on a property list: in place when the key is there, at
    the end when it is new (the keys are tool names, not array indices). *)
Fixpoint set_prop (k : string) (v : Json) (props : list (string * Json))
  : list (string * Json) :=
  match props with
  | [] => [(k, v)]
  | (k', v') :: rest =>
      if k' =? k then (k, v) :: rest else (k', v') :: set_prop k v rest
  end.

(** [TOOLS.find(t => t.name === name)] *)
Fixpoint find_tool (TOOLS : list Tool) (name : option Json) : option Tool :=
  match TOOLS with
  | [] => None
  | t :: rest =>
      match name with
      | Some (JStr n) => if tool_name t =? n then Some t else find_tool rest name
      | _ => find_tool rest name
      end
  end.

(** Lines 126-131: where the arguments of a tool call are looked for. *)
Definition call_arguments (params : option Json) : Json :=
  let found :=
    js_coalesce (opt_chain params "arguments")
      (js_coalesce (opt_chain params "input")
         (js_coalesce (opt_chain (opt_chain params "params") "arguments")
            (opt_chain (opt_chain params "params") "input"))) in
  match found with
  | Some j => if nullish found then JObj [] else j
  | None => JObj []
  end.

(** [const { method, params, id } = request] *)
Definition destructure_request (request : option Json) (k : string)
  : JsError + option Json :=
  match request with
  | None =>
      inl (TypeError ("Cannot destructure property '" ++ k
                        ++ "' of 'request' as it is undefined."))
  | Some JNull =>
      inl (TypeError ("Cannot destructure property '" ++ k
                        ++ "' of 'request' as it is null."))
  | Some (JObj props) => inr (assoc k props)
  | Some _ => inr None
  end.

Definition is_method (method : option Json) (name : string) : bool :=
  match method with
  | Some (JStr m) => m =? name
  | _ => false
  end.

Section Server.

Variable SERVER_NAME SERVER_VERSION : string.
Variable TOOLS : list Tool.

(** Lines 101-150: the [tools/call] branch, with its own [try]. *)
Definition tools_call (params : option Json) : M Json :=
  try_catch
    (let p := js_or params (JObj []) in
     let name := opt_chain (Some p) "name" in
     let args := call_arguments params in
     match find_tool TOOLS name with
     | Some {| tool_handler := Some handler |} => handler args
     | _ => ret (rpc_error (-32601) ("Tool not found: " ++ js_toString_opt name))
     end)
    (fun error =>
       ret (rpc_error (-32603) ("Error processing tool call: " ++ message error))).

(** Lines 58-168: [server.fallbackRequestHandler]. *)
Definition fallbackRequestHandler (request : option Json) : M Json :=
  try_catch
    (method <- lift (destructure_request request "method") ;;
     params <- lift (destructure_request request "params") ;;
     if is_method method "initialize" then
       ret (JObj [("protocolVersion", JStr "2024-11-05");
                  ("capabilities",
                   JObj [("tools",
                          JObj (fold_left (fun acc tool => set_prop (tool_name tool) (JObj []) acc)
                                          TOOLS []))]);
                  ("serverInfo", JObj [("name", JStr SERVER_NAME);
                                       ("version", JStr SERVER_VERSION)])])
     else if is_method method "tools/list" then
       ret (JObj [("tools",
                   JArr (map (fun tool => JObj [("name", JStr (tool_name tool));
                                                ("description", tool_description tool);
                                                ("inputSchema", tool_inputSchema tool)])
                             TOOLS))])
     else if is_method method "resources/list" then ret (JObj [("resources", JArr [])])
     else if is_method method "prompts/list" then ret (JObj [("prompts", JArr [])])
     else if is_method method "tools/call" then tools_call params
     else ret (rpc_error (-32601) ("Method not found: " ++ js_toString_opt method)))
    (fun error =>
       ret (rpc_error (-32603) ("Error processing request: " ++ message error))).

End Server.

(** [arg && typeof arg === 'object'] *)
Definition is_object (o : option Json) : bool :=
  match o with
  | Some (JObj _) | Some (JArr _) => true
  | _ => false
  end.

(** Lines 207-228: the search for the parameters of a tool among the
    arguments the SDK hands to the callback. *)
Fixpoint find_params (allArgs : list Json) : Json :=
  match allArgs with
  | [] => JObj []
  | arg :: rest =>
      if is_object (Some arg) then
        if truthy_opt (opt_chain (Some arg) "subject")
           || truthy_opt (opt_chain (Some arg) "body")
           || truthy_opt (opt_chain (Some arg) "to") then arg
        else if is_object (opt_chain (Some arg) "arguments") then
          match opt_chain (Some arg) "arguments" with Some j => j | None => JObj [] end
        else if is_object (opt_chain (Some arg) "params") then
          match opt_chain (Some arg) "params" with Some j => j | None => JObj [] end
        else find_params rest
      else find_params rest
  end.

(** Lines 196-243: the callback registered for a tool. *)
Definition tool_callback (handler : Json -> M Json) (allArgs : list Json) : M Json :=
  handler (find_params allArgs).

(* ===================================================================== *)
(** ** Vocabulary of the further properties *)
(* ===================================================================== *)

(** Every character of the string passes the test. *)
Fixpoint string_forall (f : ascii -> bool) (s : string) : bool :=
  match s with
  | EmptyString => true
  | String c rest => f c && string_forall f rest
  end.

(** The number of occurrences of a character. *)
Fixpoint count_char (c : ascii) (s : string) : nat :=
  match s with
  | EmptyString => 0
  | String c' rest => (if Ascii.eqb c' c then 1 else 0) + count_char c rest
  end.

(** The event, if a request, has the method and the body that
    [callGraphAPI] was called with. *)
Definition sends (w : World) (method : string) (data : Json) (e : Event) : Prop :=
  match e with
  | EvHttp r =>
      req_method r = method
      /\ req_body r = (if writes_body method data then Some (JSON_stringify w data) else None)
  | _ => True
  end.

(** The event touches neither the network nor the token storage. *)
Definition offline (e : Event) : Prop :=
  match e with
  | EvHttp _ | EvGetValidAccessToken | EvNewTokenStorage => False
  | EvMock _ _ _ _ => True
  end.

(** The event, if a request, is a [GET] without a body. *)
Definition get_without_body (e : Event) : Prop :=
  match e with
  | EvHttp r => req_method r = "GET" /\ req_body r = None
  | _ => True
  end.

(** The path is a string that is not an absolute URL. *)
Definition is_relative (path : Json) : bool :=
  match path with
  | JStr p => negb (is_absolute_url p)
  | _ => false
  end.

(** [importance = 'normal'] in the parameter pattern: the default stands
    in for [undefined] only. *)
Definition importance_of (args : option Json) : Json :=
  match opt_chain args "importance" with
  | Some j => j
  | None => JStr "normal"
  end.

(** The state in which a handler that got its token at the first asking
    calls [callGraphAPI]: the token storage was built and asked once, the
    default [{}] of [queryParams] is allocated. *)
Definition authenticated (s : State) : State :=
  {| heap := heap s ++ [[]];
     trace := trace s ++ [EvNewTokenStorage; EvGetValidAccessToken] |}.

(** The same after the first asking failed and the second succeeded. *)
Definition authenticated_twice (s : State) : State :=
  {| heap := heap s ++ [[]];
     trace := trace s ++ [EvNewTokenStorage; EvGetValidAccessToken;
                          EvNewTokenStorage; EvGetValidAccessToken] |}.

(** The token storage has no usable token, or fails. *)
Definition no_token (r : TokenResult) : Prop :=
  match r with
  | TokenValue fresh => truthy_str fresh = false
  | TokenThrows _ => True
  end.

(** How a handler that holds a token, and whose arguments are of the right
    kinds, answers what its one call of [callGraphAPI] came to. *)
Definition answer_of (subject body : option Json) (info : string)
    (r : Outcome Json * State) : Outcome Json * State :=
  match r with
  | (Resolved result, s') =>
      match get_prop result "id" with
      | inl e => (Resolved (draft_error_response e), s')
      | inr id => (Resolved (text_response (success_text subject body info id)), s')
      end
  | (Rejected e, s') => (Resolved (draft_error_response e), s')
  | (OutOfFuel, s') => (OutOfFuel, s')
  end.

(** The arguments of a draft are of the kinds the handler can work with:
    the recipient fields split into [tos], [ccs] and [bccs], and the body
    can be searched for [<html], with the answer [html]. *)
Definition well_formed_draft (args : option Json) (tos ccs bccs : list Json) (html : bool)
  : Prop :=
  parse_recipients "to" (opt_chain args "to") = inr tos
  /\ parse_recipients "cc" (opt_chain args "cc") = inr ccs
  /\ parse_recipients "bcc" (opt_chain args "bcc") = inr bccs
  /\ body_includes_html (opt_chain args "body") = inr html.

(** The arguments carry a subject or a body. *)
Definition has_content (args : option Json) : bool :=
  truthy_opt (opt_chain args "subject") || truthy_opt (opt_chain args "body").

(** The draft that [handleCreateDraft] posts. *)
Definition draft_v1 (args : option Json) (tos ccs bccs : list Json) (html : bool) : Json :=
  draft_object "text" [("isDraft", JBool true)] (opt_chain args "subject")
    (opt_chain args "body") (importance_of args) html tos ccs bccs.

(** The draft that the later version posts. *)
Definition draft_v2 (args : option Json) (tos ccs bccs : list Json) (html : bool) : Json :=
  draft_object "Text" [] (opt_chain args "subject")
    (opt_chain args "body") (importance_of args) html tos ccs bccs.

(** The loop of [callGraphAPIPaginated] after [i] passes that all went on
    to a next page: its variables and the state, or nothing when one of the
    passes left the loop. *)
Fixpoint loop_after (w : World) (gas : nat) (accessToken method : string) (maxCount : Z)
    (i : nat) (st : PageLoop) (s : State) : option (PageLoop * State) :=
  match i with
  | O => Some (st, s)
  | S i' =>
      match page_iteration w gas accessToken method maxCount st s with
      | (Resolved (Continue st'), s') => loop_after w gas accessToken method maxCount i' st' s'
      | _ => None
      end
  end.

(** The request that a handler makes of [callGraphAPI] for a draft. *)
Definition draft_request (w : World) (endpoint accessToken : string) (draft : Json) : Request :=
  make_request w (GRAPH_API_ENDPOINT w ++ endpoint) accessToken "POST" draft.

(** The request is a [tools/call]. *)
Definition calls_tool (request : option Json) : bool :=
  match destructure_request request "method" with
  | inr method => is_method method "tools/call"
  | inl _ => false
  end.

(* ===================================================================== *)
(** ** Further scenarios *)
(* ===================================================================== *)

(** What the server answers when it has saved a draft. *)
Definition draft_saved : Json := JObj [("id", JStr "AAMkAGI2")].

(** A page whose cursor leads to a page like it. *)
Definition endless_page : Json :=
  JObj [("value", JArr [JNum 1]);
        ("@odata.nextLink", JStr "https://graph.microsoft.com/v1.0/me/messages?$skip=1")].

(** A world given by its mode, its network and its token storage. *)
Definition world_of (test_mode : bool) (net : nat -> Request -> NetResult)
    (tokens : nat -> TokenResult) : World :=
  {| USE_TEST_MODE := test_mode;
     GRAPH_API_ENDPOINT := "https://graph.microsoft.com/v1.0/";
     simulateGraphAPIResponse := no_mock;
     JSON_parse := parse_table [("{}", JObj []); ("<draft>", draft_saved);
                                ("<more>", endless_page)];
     JSON_stringify := fun _ => "{}";
     https_request := net;
     getValidAccessToken := tokens |}.

(** The network gives every request the same result. *)
Definition always (r : NetResult) : nat -> Request -> NetResult := fun _ _ => r.

(** The token storage has the token [t] from its [k]-th asking on, and
    none before. *)
Definition token_from (k : nat) (t : string) : nat -> TokenResult :=
  fun n => if (n <? k)%nat then TokenValue None else TokenValue (Some t).

(** The token storage has the token [t] for its first [k] askings, and
    none after. *)
Definition token_until (k : nat) (t : string) : nat -> TokenResult :=
  fun n => if (n <? k)%nat then TokenValue (Some t) else TokenValue None.

(** The arguments of a draft to two recipients. *)
Definition draft_args : option Json :=
  Some (JObj [("to", JStr "ann@example.com, bob@example.com");
              ("subject", JStr "Hello");
              ("body", JStr "See you on Monday.")]).

Definition draft_tos : list Json :=
  [JObj [("emailAddress", JObj [("address", JStr "ann@example.com")])];
   JObj [("emailAddress", JObj [("address", JStr "bob@example.com")])]].

(** Three tools: one without a handler, one that answers with its
    arguments, one of the same name that fails. *)
Definition sample_tools : list Tool :=
  [mkTool "list-emails" (JStr "List emails") (JObj []) None;
   mkTool "create-draft" (JStr "Create a draft") (JObj []) (Some (fun args => ret args));
   mkTool "create-draft" (JStr "Create a draft") (JObj [])
     (Some (fun _ => throw (Error "unreachable")))].

(* ===================================================================== *)
(** ** Properties *)
(* ===================================================================== *)

Example encodeURIComponent_filter :
  encodeURIComponent "subject eq 'hello world'" = "subject%20eq%20'hello%20world'".
Proof. reflexivity. Qed.

Example form_encode_top : form_encode "$top" = "%24top".
Proof. reflexivity. Qed.

Example encodePath_messages : encodePath "me/mail folders/x" = "me/mail%20folders/x".
Proof. reflexivity. Qed.

Example string_of_Z_500 : string_of_Z 500 = "500".
Proof. reflexivity. Qed.

Example filter_and_top_query :
  URLSearchParams_toString [("$top", "5")] = "%24top=5"
  /\ spec_query_string [("$filter", "subject eq 'hello world'"); ("$top", "5")]
     = "?%24top=5&$filter=subject%20eq%20'hello%20world'".
Proof. split; reflexivity. Qed.

Section Facts.
Context (w : World).

(** *** One invocation of [callGraphAPI] *)

Lemma buildQueryString_trace q s :
  exists qs h, buildQueryString q s = (Resolved qs, {| heap := h; trace := trace s |}).
Proof.
  unfold buildQueryString, bind, deref, delete_prop, ret. simpl.
  destruct (0 <? length (nth q (heap s) []))%nat; [|destruct s; eauto].
  destruct (truthy_str (assoc "$filter" (nth q (heap s) []))); simpl; destruct s; eauto.
Qed.

Lemma buildFinalUrl_cases path q s :
  (exists url h, buildFinalUrl w path q s = (Resolved url, {| heap := h; trace := trace s |}))
  \/ (exists e, buildFinalUrl w path q s = (Rejected e, s) /\ statusCode e = None).
Proof.
  destruct path; simpl; try (right; eexists; split; reflexivity).
  destruct (is_absolute_url s0).
  - left. destruct s; unfold ret; eauto.
  - left. unfold bind. destruct (buildQueryString_trace q s) as (qs & h & E). rewrite E.
    unfold ret. eauto.
Qed.


Lemma callGraphAPI_eq fuel tok m p d q b s :
  callGraphAPI w (S fuel) tok m p d q b s =
  let retry fresh := callGraphAPI w fuel fresh m p d q true in
  if in_test_mode w tok then call_simulateGraphAPIResponse w m p d q s
  else
    match buildFinalUrl w p q s with
    | (Resolved url, s1) =>
        let req := make_request w url tok m d in
        let s2 := {| heap := heap s1; trace := trace s1 ++ [EvHttp req] |} in
        match https_request w (count_http (trace s1)) req with
        | Response st rd => on_end w retry b st rd s2
        | NetworkError msg =>
            (Rejected (Error ("Network error during API call: " ++ msg)), s2)
        | RequestThrows e => (Rejected e, s2)
        end
    | (Rejected e, s1) => on_catch w retry b e s1
    | (OutOfFuel, s1) => (OutOfFuel, s1)
    end.
Proof.
  simpl. unfold in_test_mode.
  destruct (USE_TEST_MODE w && String.prefix "test_access_token_" tok); [reflexivity|].
  unfold bind at 1. unfold try_catch, bind at 1.
  destruct (buildFinalUrl w p q s) as [[url|e|] s1]; simpl; try reflexivity.
  unfold bind, send; simpl.
  destruct (https_request w (count_http (trace s1)) (make_request w url tok m d)); reflexivity.
Qed.





Lemma on_end_no_retry retry b st rd s :
  is_2xx st || negb ((st =? 401)%Z && negb b) = true ->
  on_end w retry b st rd s = (settle_final w st rd, s).
Proof.
  unfold on_end, settle_final, is_2xx. intros H.
  destruct ((200 <=? st)%Z && (st <? 300)%Z); simpl in *.
  - destruct (JSON_parse w _); reflexivity.
  - apply negb_true_iff in H. rewrite H. reflexivity.
Qed.

Lemma on_end_401 retry rd s :
  on_end w retry false 401 rd s =
  let s1 := add_event s EvGetValidAccessToken in
  match getValidAccessToken w (count_token_calls (trace s)) with
  | TokenThrows e => (Rejected (wrap_unauthorized rd e), s1)
  | TokenValue fresh =>
      if truthy_str fresh then
        match retry (str_or_empty fresh) s1 with
        | (Resolved j, s2) => (Resolved j, s2)
        | (Rejected e, s2) => (Rejected (wrap_unauthorized rd e), s2)
        | (OutOfFuel, s2) => (OutOfFuel, s2)
        end
      else (Rejected (Error "UNAUTHORIZED: refresh failed or no refresh_token"), s1)
  end.
Proof.
  unfold on_end. simpl. unfold bind at 1. unfold try_catch. unfold bind at 1.
  unfold call_getValidAccessToken, add_event.
  destruct (getValidAccessToken w (count_token_calls (trace s))) as [fresh|e]; simpl.
  - destruct (truthy_str fresh); simpl; [|reflexivity].
    unfold bind. destruct (retry (str_or_empty fresh) _) as [[j|e|] s2]; reflexivity.
  - reflexivity.
Qed.

Lemma on_catch_no_status retry b e s :
  statusCode e = None -> on_catch w retry b e s = (Rejected e, s).
Proof. intros H. unfold on_catch. rewrite H. reflexivity. Qed.

Lemma buildFinalUrl_str p q s :
  exists url h, buildFinalUrl w (JStr p) q s = (Resolved url, {| heap := h; trace := trace s |}).
Proof.
  simpl. destruct (is_absolute_url p).
  - destruct s; unfold ret; eauto.
  - unfold bind. destruct (buildQueryString_trace q s) as (qs & h & E). rewrite E.
    unfold ret. eauto.
Qed.


Lemma mock_run m p d q s :
  exists r, call_simulateGraphAPIResponse w m p d q s
            = (r, add_event s (EvMock m p d (nth q (heap s) []))) /\ r <> OutOfFuel.
Proof.
  unfold call_simulateGraphAPIResponse, bind, deref, emit, lift, add_event. simpl.
  destruct (simulateGraphAPIResponse w m p d _); simpl; eexists; split;
    try reflexivity; discriminate.
Qed.

Lemma settle_final_not_out st rd : settle_final w st rd <> OutOfFuel.
Proof.
  unfold settle_final. destruct (is_2xx st); [|discriminate].
  destruct (JSON_parse w _); discriminate.
Qed.

Lemma callGraphAPI_retry_run fuel tok m p d q s :
  let res := callGraphAPI w (S fuel) tok m p d q true s in
  fst res <> OutOfFuel /\
  exists evs,
    trace (snd res) = (trace s ++ evs)%list
    /\ (evs = [] \/ exists e, evs = [e] /\ is_attempt e = true)
    /\ (forall p', p = JStr p' -> exists e, evs = [e] /\ is_attempt e = true)
    /\ (forall r2 st rd,
          evs = [EvHttp r2] ->
          https_request w (count_http (trace s)) r2 = Response st rd ->
          fst res = settle_final w st rd).
Proof.
  cbv zeta. rewrite callGraphAPI_eq. cbv zeta.
  destruct (in_test_mode w tok).
  - destruct (mock_run m p d q s) as (r & E & Hr). rewrite E. simpl. split; [exact Hr|].
    eexists. split; [reflexivity|]. split; [right; eauto|]. split; [eauto|].
    intros r2 st rd H. discriminate.
  - destruct (buildFinalUrl_cases p q s) as [(url & h & E)|(e & E & He)]; rewrite E.
    + simpl.
      set (req := make_request w url tok m d).
      assert (Hshape : forall (r : Outcome Json) (s2 : State),
                 trace s2 = (trace s ++ [EvHttp req])%list ->
                 (forall st rd, https_request w (count_http (trace s)) req = Response st rd ->
                                r = settle_final w st rd) ->
                 exists evs,
                   trace s2 = (trace s ++ evs)%list
                   /\ (evs = [] \/ exists e, evs = [e] /\ is_attempt e = true)
                   /\ (forall p', p = JStr p' -> exists e, evs = [e] /\ is_attempt e = true)
                   /\ (forall r2 st rd,
                         evs = [EvHttp r2] ->
                         https_request w (count_http (trace s)) r2 = Response st rd ->
                         r = settle_final w st rd)).
      { intros r s2 Ht Hr. exists [EvHttp req]. split; [exact Ht|].
        split; [right; eauto|]. split; [eauto|].
        intros r2 st rd H1 H2. injection H1 as <-. eauto. }
      remember (https_request w (count_http (trace s)) req) as net eqn:Hnet in |- *.
      destruct net as [st rd|msg|e].
      * rewrite on_end_no_retry by (simpl; rewrite andb_false_r; apply orb_true_r).
        simpl. split; [apply settle_final_not_out|].
        apply (Hshape _ {| heap := h; trace := trace s ++ [EvHttp req] |}); [reflexivity|]. intros st' rd' H. rewrite H in Hnet.
        injection Hnet as <- <-. reflexivity.
      * simpl. split; [discriminate|]. apply (Hshape _ {| heap := h; trace := trace s ++ [EvHttp req] |}); [reflexivity|].
        intros st' rd' H. rewrite H in Hnet. discriminate.
      * simpl. split; [discriminate|]. apply (Hshape _ {| heap := h; trace := trace s ++ [EvHttp req] |}); [reflexivity|].
        intros st' rd' H. rewrite H in Hnet. discriminate.
    + rewrite on_catch_no_status by exact He. simpl. split; [discriminate|].
      exists []. split; [symmetry; apply app_nil_r|]. split; [left; reflexivity|].
      split.
      * intros p' ->. destruct (buildFinalUrl_str p' q s) as (url & h & E').
        rewrite E' in E. discriminate.
      * intros r2 st rd H. discriminate.
Qed.

(** *** At most one refresh and one retry *)

Lemma count_http_app t1 t2 : count_http (t1 ++ t2) = count_http t1 + count_http t2.
Proof. unfold count_http. rewrite filter_app, length_app. reflexivity. Qed.

Lemma count_token_calls_app t1 t2 :
  count_token_calls (t1 ++ t2) = count_token_calls t1 + count_token_calls t2.
Proof. unfold count_token_calls. rewrite filter_app, length_app. reflexivity. Qed.

Ltac count_events :=
  unfold count_attempts, count_token_calls, count_http in *; simpl;
  rewrite ?filter_app, ?length_app; simpl; lia.


(** *** The fuel of the model *)

Lemma on_end_ext retry1 retry2 b st rd s :
  (forall fresh s', retry1 fresh s' = retry2 fresh s') ->
  on_end w retry1 b st rd s = on_end w retry2 b st rd s.
Proof.
  intros Hext. destruct (is_2xx st || negb ((st =? 401)%Z && negb b)) eqn:Hst.
  - rewrite !on_end_no_retry by exact Hst. reflexivity.
  - apply orb_false_iff in Hst. destruct Hst as [_ Hst].
    apply negb_false_iff, andb_true_iff in Hst. destruct Hst as [Hst Hb].
    apply Z.eqb_eq in Hst. apply negb_true_iff in Hb. subst st b.
    rewrite !on_end_401. cbv zeta.
    destruct (getValidAccessToken w _) as [fresh|e]; [|reflexivity].
    destruct (truthy_str fresh); [|reflexivity]. rewrite Hext. reflexivity.
Qed.

Lemma on_catch_ext retry1 retry2 b e s :
  (forall fresh s', retry1 fresh s' = retry2 fresh s') ->
  on_catch w retry1 b e s = on_catch w retry2 b e s.
Proof.
  intros Hext. unfold on_catch.
  destruct (match statusCode e with Some c => (c =? 401)%Z | None => false end && negb b);
    [|reflexivity].
  unfold try_catch, bind.
  destruct (call_getValidAccessToken w s) as [[fresh|e'|] s1]; try reflexivity.
  destruct (negb (truthy_str fresh)); [reflexivity|]. rewrite Hext. reflexivity.
Qed.

Lemma callGraphAPI_retry_fuel fuel tok m p d q s :
  callGraphAPI w (S fuel) tok m p d q true s = callGraphAPI w 1 tok m p d q true s.
Proof.
  rewrite !callGraphAPI_eq. cbv zeta.
  destruct (in_test_mode w tok); [reflexivity|].
  destruct (buildFinalUrl w p q s) as [[url|e|] s1]; [|unfold on_catch|reflexivity].
  - destruct (https_request w _ _) as [st rd|msg|e]; try reflexivity.
    rewrite !on_end_no_retry by (simpl; rewrite andb_false_r; apply orb_true_r).
    reflexivity.
  - rewrite !andb_false_r. reflexivity.
Qed.

(** Two units of fuel are all that [callGraphAPI] ever uses. *)
Lemma callGraphAPI_fuel_irrelevant fuel tok m p d q b s :
  2 <= fuel ->
  callGraphAPI w fuel tok m p d q b s = callGraphAPI w 2 tok m p d q b s.
Proof.
  intros Hfuel. destruct fuel as [|[|fuel]]; try lia. clear Hfuel.
  assert (Hext : forall fresh s',
             callGraphAPI w (S fuel) fresh m p d q true s'
             = callGraphAPI w 1 fresh m p d q true s')
    by (intros; apply callGraphAPI_retry_fuel).
  rewrite !callGraphAPI_eq. cbv zeta.
  destruct (in_test_mode w tok); [reflexivity|].
  destruct (buildFinalUrl w p q s) as [[url|e|] s1]; [| |reflexivity].
  - destruct (https_request w _ _) as [st rd|msg|e]; try reflexivity.
    apply on_end_ext. exact Hext.
  - apply on_catch_ext. exact Hext.
Qed.

(** *** Responses that are not retried *)

Lemma buildFinalUrl_trace p q s r s1 :
  buildFinalUrl w p q s = (r, s1) -> trace s1 = trace s.
Proof.
  intros H. destruct (buildFinalUrl_cases p q s) as [(url & h & E)|(e & E & _)];
    rewrite E in H; injection H as <- <-; reflexivity.
Qed.

Lemma callGraphAPI_no_retry fuel tok m p d q b s url s1 st rd :
  in_test_mode w tok = false ->
  buildFinalUrl w p q s = (Resolved url, s1) ->
  https_request w (count_http (trace s)) (make_request w url tok m d) = Response st rd ->
  is_2xx st || negb ((st =? 401)%Z && negb b) = true ->
  callGraphAPI w (S fuel) tok m p d q b s
  = (settle_final w st rd,
     {| heap := heap s1; trace := trace s ++ [EvHttp (make_request w url tok m d)] |}).
Proof.
  intros Hmode Hurl Hnet Hst. rewrite callGraphAPI_eq. cbv zeta. rewrite Hmode, Hurl.
  rewrite (buildFinalUrl_trace _ _ _ _ _ Hurl), Hnet.
  apply on_end_no_retry. exact Hst.
Qed.


(** Claim C9. When the request of an invocation of [callGraphAPI] is
    answered 2xx and [JSON.parse] reads [{}] as the empty object: an empty
    body resolves to the empty object; and the invocation rejects only if
    the body is not empty and [JSON.parse] fails on it, the error then
    being [Error parsing API response: <parser message>]. One request is
    sent either way. *)
Theorem callGraphAPI_empty_body fuel tok m p d q b s url s1 st rd :
  in_test_mode w tok = false ->
  buildFinalUrl w p q s = (Resolved url, s1) ->
  https_request w (count_http (trace s)) (make_request w url tok m d) = Response st rd ->
  is_2xx st = true ->
  JSON_parse w "{}" = inr (JObj []) ->
  let run := callGraphAPI w (S fuel) tok m p d q b s in
  (rd = EmptyString -> fst run = Resolved (JObj []))
  /\ (forall e, fst run = Rejected e ->
        rd <> EmptyString
        /\ exists msg, JSON_parse w rd = inl msg
                       /\ e = Error ("Error parsing API response: " ++ msg))
  /\ trace (snd run) = (trace s ++ [EvHttp (make_request w url tok m d)])%list.
Proof.
  intros Hmode Hurl Hnet H2xx Hparse. cbv zeta.
  rewrite (callGraphAPI_no_retry _ _ _ _ _ _ _ _ _ _ _ _ Hmode Hurl Hnet)
    by (rewrite H2xx; reflexivity).
  unfold settle_final, body_or_empty_object. rewrite H2xx. simpl.
  split; [|split; [|reflexivity]].
  - intros ->. simpl. rewrite Hparse. reflexivity.
  - intros e He. destruct (rd =? EmptyString) eqn:Hrd; simpl in He.
    + rewrite Hparse in He. discriminate.
    + split; [intros ->; discriminate|].
      destruct (JSON_parse w rd) as [msg|j]; [|discriminate].
      injection He as <-. eauto.
Qed.

(** Claim C7. For every method other than [GET], [callGraphAPIPaginated]
    rejects with [Pagination only supports GET requests] and leaves the
    state as it found it: no request, no simulated call, no token call, no
    object allocated. This holds with any amount of fuel, none included. *)
Theorem callGraphAPIPaginated_get_only fuel tok m p q maxCount s :
  m <> "GET" ->
  callGraphAPIPaginated w fuel tok m p q maxCount s
  = (Rejected (Error "Pagination only supports GET requests"), s).
Proof.
  intros H. unfold callGraphAPIPaginated. apply String.eqb_neq in H. rewrite H. reflexivity.
Qed.

(** Claim C10. [ensureAuthenticated(true)] rejects with [Authentication
    required] in every world and every state and leaves the state as it
    found it; [ensureAuthenticated(false)] constructs a [TokenStorage] and
    calls its [getValidAccessToken()] exactly once. *)
Theorem ensureAuthenticated_forceNew s :
  ensureAuthenticated w true s = (Rejected (Error "Authentication required"), s)
  /\ trace (snd (ensureAuthenticated w false s))
     = (trace s ++ [EvNewTokenStorage; EvGetValidAccessToken])%list.
Proof.
  split; [reflexivity|].
  unfold ensureAuthenticated, bind, emit, call_getValidAccessToken. simpl.
  destruct (getValidAccessToken w _) as [fresh|e]; simpl.
  - destruct (truthy_str fresh); simpl; rewrite <- app_assoc; reflexivity.
  - rewrite <- app_assoc; reflexivity.
Qed.


(** *** The query string *)

Lemma append_assoc (a b c : string) : (a ++ b) ++ c = a ++ b ++ c.
Proof. induction a as [|x a IH]; simpl; [reflexivity|]. rewrite IH. reflexivity. Qed.

Lemma append_nonempty_r (a b : string) : b <> EmptyString -> a ++ b <> EmptyString.
Proof. destruct a; simpl; [auto|discriminate]. Qed.

Lemma URLSearchParams_toString_nonempty kv q :
  URLSearchParams_toString (kv :: q) <> EmptyString.
Proof.
  unfold URLSearchParams_toString. simpl.
  destruct (map _ q); [|rewrite append_assoc]; apply append_nonempty_r; discriminate.
Qed.

Lemma remove_key_absent {A} k (l : list (string * A)) :
  assoc k l = None -> remove_key k l = l.
Proof.
  induction l as [|[k' v] l IH]; simpl; [reflexivity|].
  destruct (k' =? k); [discriminate|]. intros H. rewrite IH by exact H. reflexivity.
Qed.

Lemma nth_update_nth {A} (f : A -> A) (d : A) n (l : list A) :
  n < length l -> nth n (update_nth n f l) d = f (nth n l d).
Proof.
  revert n. induction l as [|x l IH]; intros [|n] H; simpl in *; try lia; [reflexivity|].
  apply IH. lia.
Qed.

Lemma nth_nonempty_lt {A} n (l : list (list A)) :
  (0 <? length (nth n l []))%nat = true -> n < length l.
Proof.
  intros H. destruct (Nat.lt_ge_cases n (length l)) as [Hlt|Hge]; [exact Hlt|].
  rewrite nth_overflow in H by exact Hge. discriminate.
Qed.

Lemma buildQueryString_result q s :
  let params := nth q (heap s) [] in
  let filter := assoc "$filter" params in
  fst (buildQueryString q s) =
  Resolved
    (if truthy_str filter then spec_query_string params
     else match params with
          | [] => EmptyString
          | _ => "?" ++ URLSearchParams_toString params
          end).
Proof.
  cbv zeta. unfold buildQueryString, bind, deref. simpl.
  destruct (0 <? length (nth q (heap s) []))%nat eqn:Hlen.
  - destruct (truthy_str (assoc "$filter" (nth q (heap s) []))) eqn:Hf.
    + simpl. rewrite nth_update_nth by (apply nth_nonempty_lt; exact Hlen).
      unfold spec_query_string.
      destruct (assoc "$filter" (nth q (heap s) [])) as [f|]; [|discriminate].
      simpl str_or_empty.
      destruct (URLSearchParams_toString (remove_key "$filter" (nth q (heap s) [])) =? EmptyString)
        eqn:Hg; simpl.
      * reflexivity.
      * match goal with
        | |- context [negb (?x =? EmptyString)] =>
            assert (Hx : (x =? EmptyString) = false)
              by (apply String.eqb_neq, append_nonempty_r; discriminate);
            rewrite Hx
        end.
        simpl. rewrite append_assoc. reflexivity.
    + simpl. destruct (nth q (heap s) []) as [|kv rest]; [discriminate|].
      pose proof (URLSearchParams_toString_nonempty kv rest) as Hne.
      apply String.eqb_neq in Hne. rewrite Hne. reflexivity.
  - simpl. destruct (nth q (heap s) []); [|discriminate].
    destruct (truthy_str _); reflexivity.
Qed.





(** *** Pagination *)

Lemma page_iteration_served gas tok maxCount acc cur q s s1 url st rd resp items :
  in_test_mode w tok = false ->
  buildFinalUrl w cur q s = (Resolved url, s1) ->
  https_request w (count_http (trace s)) (make_request w url tok "GET" JNull) = Response st rd ->
  is_2xx st = true ->
  JSON_parse w (body_or_empty_object rd) = inr resp ->
  get_prop resp "value" = inr (Some (JArr items)) ->
  page_iteration w (S gas) tok "GET" maxCount
    {| allItems := acc; currentUrl := cur; currentParams := q |} s
  = let t2 := (trace s ++ [EvHttp (make_request w url tok "GET" JNull)])%list in
    let s2 := {| heap := heap s1; trace := t2 |} in
    if bound_reached maxCount (length (acc ++ items)) then (Resolved (Break (acc ++ items)), s2)
    else
      match get_prop resp "@odata.nextLink" with
      | inl e => (Rejected e, s2)
      | inr (Some link) =>
          if truthy link then
            (Resolved (Continue {| allItems := acc ++ items;
                                   currentUrl := link;
                                   currentParams := length (heap s1) |}),
             {| heap := heap s1 ++ [[]]; trace := t2 |})
          else (Resolved (Break (acc ++ items)), s2)
      | inr None => (Resolved (Break (acc ++ items)), s2)
      end.
Proof.
  intros Hmode Hurl Hnet H2xx Hparse Hvalue. unfold page_iteration. unfold bind at 1.
  cbn [currentUrl currentParams allItems].
  rewrite (callGraphAPI_no_retry _ _ _ _ _ _ _ _ _ _ _ _ Hmode Hurl Hnet)
    by (rewrite H2xx; reflexivity).
  unfold settle_final. rewrite H2xx. fold (body_or_empty_object rd). rewrite Hparse.
  unfold bind at 1. rewrite Hvalue. simpl lift. unfold ret at 1. cbn [push_page].
  cbv zeta. fold (bound_reached maxCount (length (acc ++ items))).
  destruct (bound_reached maxCount (length (acc ++ items))); [reflexivity|].
  unfold bind at 1. destruct (get_prop resp "@odata.nextLink") as [e|[link|]]; simpl; try reflexivity.
  destruct (truthy link); reflexivity.
Qed.

Local Open Scope list_scope.

Lemma buildFinalUrl_absolute url q s :
  is_absolute_url url = true -> buildFinalUrl w (JStr url) q s = (Resolved url, s).
Proof. intros H. simpl. rewrite H. reflexivity. Qed.

Lemma served_chain_nonempty tok n url pages :
  served_chain w tok n url pages -> pages <> [].
Proof. intros H. destruct H; discriminate. Qed.

Lemma paginate_loop_chain tok maxCount n url pages :
  served_chain w tok n url pages ->
  in_test_mode w tok = false ->
  forall fuel gas acc cur q s s1,
    buildFinalUrl w cur q s = (Resolved url, s1) ->
    count_http (trace s) = n ->
    length pages <= fuel ->
    1 <= gas ->
    exists s',
      paginate_loop w fuel gas tok "GET" maxCount
        {| allItems := acc; currentUrl := cur; currentParams := q |} s
      = (Resolved (acc ++ concat (firstn (pages_fetched maxCount (length acc) pages) pages)), s')
      /\ count_http (trace s') = n + pages_fetched maxCount (length acc) pages
      /\ count_token_calls (trace s') = count_token_calls (trace s).
Proof.
  intros Hchain Hmode.
  induction Hchain as [n url st rd resp items cursor Hnet H2xx Hparse Hvalue Hcur Hfalsy
                      |n url st rd resp items next rest Hnet H2xx Hparse Hvalue Hcur Habs Hrest IH];
    intros fuel gas acc cur q s s1 Hurl Hn Hfuel Hgas;
    (destruct fuel as [|fuel]; [simpl in Hfuel; lia|]);
    (destruct gas as [|gas]; [lia|]);
    subst n; cbn [paginate_loop]; unfold bind at 1;
    rewrite (page_iteration_served _ _ _ _ _ _ _ _ _ _ _ _ _ Hmode Hurl Hnet H2xx Hparse Hvalue);
    cbv zeta; rewrite length_app; cbn [pages_fetched];
    destruct (bound_reached maxCount (length acc + length items)) eqn:Hb.
  - eexists. split; [unfold ret; simpl; rewrite app_nil_r; reflexivity|].
    split; count_events.
  - rewrite Hcur. destruct cursor as [link|].
    + simpl in Hfalsy. rewrite Hfalsy.
      eexists. split; [unfold ret; simpl; rewrite app_nil_r; reflexivity|].
      split; count_events.
    + eexists. split; [unfold ret; simpl; rewrite app_nil_r; reflexivity|].
      split; count_events.
  - eexists. split; [unfold ret; simpl; rewrite app_nil_r; reflexivity|].
    split; count_events.
  - rewrite Hcur.
    assert (Ht : truthy (JStr next) = true).
    { simpl. destruct next; [discriminate Habs|reflexivity]. }
    rewrite Ht.
    edestruct (IH fuel (S gas) (acc ++ items) (JStr next) (length (heap s1))
                 {| heap := heap s1 ++ [[]];
                    trace := trace s ++ [EvHttp (make_request w url tok "GET" JNull)] |})
      as (s' & Hrun & Hc & Ht').
    + apply buildFinalUrl_absolute. exact Habs.
    + count_events.
    + simpl in Hfuel. lia.
    + lia.
    + rewrite Hrun. rewrite length_app in *. exists s'.
      split; [simpl; rewrite <- app_assoc; reflexivity|].
      clear Hrun. simpl in Hc, Ht'.
      rewrite count_token_calls_app in Ht'.
      split; [rewrite Hc|rewrite Ht']; count_events.
Qed.

Lemma pages_fetched_bounds maxCount acc pages :
  pages <> [] ->
  1 <= pages_fetched maxCount acc pages <= length pages.
Proof.
  revert acc. induction pages as [|page rest IH]; intros acc H; [contradiction|].
  simpl. destruct (bound_reached maxCount (acc + length page)); [lia|].
  destruct rest as [|page' rest']; [simpl; lia|].
  specialize (IH (acc + length page)). simpl in *.
  assert (page' :: rest' <> []) as Hne by discriminate. specialize (IH Hne). lia.
Qed.

Lemma pages_fetched_unbounded maxCount acc pages :
  (maxCount <= 0)%Z -> pages_fetched maxCount acc pages = length pages.
Proof.
  intros H. revert acc. induction pages as [|page rest IH]; intros acc; [reflexivity|].
  simpl. unfold bound_reached. destruct (0 <? maxCount)%Z eqn:E; [apply Z.ltb_lt in E; lia|].
  simpl. rewrite IH. reflexivity.
Qed.

Lemma pages_fetched_reached maxCount acc pages :
  let k := pages_fetched maxCount acc pages in
  k = length pages
  \/ bound_reached maxCount (acc + length (concat (firstn k pages))) = true.
Proof.
  revert acc. induction pages as [|page rest IH]; intros acc; [left; reflexivity|].
  cbv zeta. simpl pages_fetched.
  destruct (bound_reached maxCount (acc + length page)) eqn:Hb.
  - right. simpl. rewrite app_nil_r. exact Hb.
  - destruct (IH (acc + length page)) as [H|H].
    + left. simpl. rewrite H. reflexivity.
    + right. simpl firstn. simpl concat. rewrite length_app, Nat.add_assoc. exact H.
Qed.

Lemma pages_fetched_minimal maxCount acc pages j :
  1 <= j < pages_fetched maxCount acc pages ->
  bound_reached maxCount (acc + length (concat (firstn j pages))) = false.
Proof.
  revert acc j. induction pages as [|page rest IH]; intros acc j H; [simpl in H; lia|].
  simpl in H. destruct (bound_reached maxCount (acc + length page)) eqn:Hb; [lia|].
  destruct j as [|[|j]]; [lia| |].
  - simpl. rewrite app_nil_r. exact Hb.
  - change (firstn (S (S j)) (page :: rest)) with (page :: firstn (S j) rest).
    rewrite concat_cons, length_app, Nat.add_assoc. apply IH. lia.
Qed.

Lemma bound_reached_true maxCount count :
  bound_reached maxCount count = true -> (0 < maxCount)%Z /\ Z.to_nat maxCount <= count.
Proof.
  unfold bound_reached. intros H. apply andb_true_iff in H. destruct H as [H1 H2].
  apply Z.ltb_lt in H1. apply Z.leb_le in H2. lia.
Qed.

Lemma bound_reached_false maxCount count :
  (0 < maxCount)%Z -> bound_reached maxCount count = false -> count < Z.to_nat maxCount.
Proof.
  unfold bound_reached. intros H0 H. apply Z.ltb_lt in H0. rewrite H0 in H. simpl in H.
  apply Z.leb_gt in H. lia.
Qed.

Lemma firstn_concat_prefix (n k : nat) (pages : list (list Json)) :
  n <= length (concat (firstn k pages)) ->
  firstn n (concat (firstn k pages)) = firstn n (concat pages).
Proof.
  intros H. rewrite <- (firstn_skipn k pages) at 2. rewrite concat_app, firstn_app.
  replace (n - length (concat (firstn k pages))) with 0 by lia.
  simpl. rewrite app_nil_r. reflexivity.
Qed.

(** Claim C5. Let a chain of pages be served for the URL that the first
    request goes to, and let the fuel cover the number of pages. Then
    [callGraphAPIPaginated] with [GET] resolves to the object whose [value]
    is the concatenation of all the pages in order when [maxCount <= 0], and
    its first [maxCount] items when [maxCount > 0], with [@odata.count]
    their number. It sends [k] requests, one per page fetched, and asks for
    no token, where [k] is at least one and at most the number of pages;
    [k] is the number of pages when [maxCount <= 0]; and when
    [maxCount > 0], either all pages were fetched or the first [k] pages
    hold at least [maxCount] items, while no shorter prefix of the pages
    does. *)
Theorem callGraphAPIPaginated_exact fuel tok path q maxCount s url s1 pages :
  in_test_mode w tok = false ->
  buildFinalUrl w path q s = (Resolved url, s1) ->
  served_chain w tok (count_http (trace s)) url pages ->
  length pages <= fuel ->
  let n := Z.to_nat maxCount in
  let items := if (0 <? maxCount)%Z then firstn n (concat pages) else concat pages in
  exists s' k,
    callGraphAPIPaginated w fuel tok "GET" path q maxCount s
    = (Resolved (JObj [("value", JArr items);
                       ("@odata.count", JNum (Z.of_nat (length items)))]), s')
    /\ count_http (trace s') = count_http (trace s) + k
    /\ count_token_calls (trace s') = count_token_calls (trace s)
    /\ 1 <= k <= length pages
    /\ ((maxCount <= 0)%Z -> k = length pages)
    /\ ((0 < maxCount)%Z ->
        (k = length pages \/ n <= length (concat (firstn k pages)))
        /\ forall j, 1 <= j < k -> length (concat (firstn j pages)) < n).
Proof.
  intros Hmode Hurl Hchain Hfuel. cbv zeta.
  pose proof (served_chain_nonempty _ _ _ _ Hchain) as Hne.
  assert (Hgas : 1 <= fuel).
  { destruct pages; [contradiction|]. simpl in Hfuel. lia. }
  destruct (paginate_loop_chain tok maxCount _ _ _ Hchain Hmode fuel fuel [] path q s s1
              Hurl eq_refl Hfuel Hgas) as (s' & Hrun & Hc & Ht).
  simpl length in *. simpl app in Hrun.
  set (k := pages_fetched maxCount 0 pages) in *.
  exists s', k.
  assert (Hitems : (if (0 <? maxCount)%Z then firstn (Z.to_nat maxCount) (concat (firstn k pages))
                    else concat (firstn k pages))
                   = (if (0 <? maxCount)%Z then firstn (Z.to_nat maxCount) (concat pages)
                      else concat pages)).
  { destruct (0 <? maxCount)%Z eqn:E.
    - destruct (pages_fetched_reached maxCount 0 pages) as [H|H]; fold k in H.
      + rewrite H, firstn_all. reflexivity.
      + apply bound_reached_true in H. apply firstn_concat_prefix. simpl in H. lia.
    - apply Z.ltb_ge in E. unfold k. rewrite pages_fetched_unbounded by exact E.
      rewrite firstn_all. reflexivity. }
  split.
  { unfold callGraphAPIPaginated. rewrite String.eqb_refl. cbn [negb]. unfold bind. rewrite Hrun.
    unfold ret. rewrite Hitems. reflexivity. }
  split; [exact Hc|]. split; [exact Ht|].
  split; [apply pages_fetched_bounds; exact Hne|].
  split; [intros H; apply pages_fetched_unbounded; exact H|].
  intros Hpos. split.
  - destruct (pages_fetched_reached maxCount 0 pages) as [H|H]; fold k in H.
    + left. exact H.
    + right. apply bound_reached_true in H. simpl in H. lia.
  - intros j Hj. apply (bound_reached_false maxCount _ Hpos).
    apply (pages_fetched_minimal maxCount 0 pages j). exact Hj.
Qed.


(** *** Following the cursor *)

Lemma state_eta s : s = {| heap := heap s; trace := trace s ++ [] |}.
Proof. destruct s. simpl. rewrite app_nil_r. reflexivity. Qed.

Lemma callGraphAPI_absolute_run url m d q :
  is_absolute_url url = true ->
  forall fuel tok b s,
    nth q (heap s) [] = [] ->
    exists r evs,
      callGraphAPI w fuel tok m (JStr url) d q b s
      = (r, {| heap := heap s; trace := trace s ++ evs |})
      /\ Forall (targets (JStr url) url) evs
      /\ (in_test_mode w tok = false -> 0 < fuel ->
          exists rest, evs = EvHttp (make_request w url tok m d) :: rest).
Proof.
  intros Habs. induction fuel as [|fuel IH]; intros tok b s Hq.
  - exists OutOfFuel, []. split; [simpl; unfold out_of_fuel; f_equal; apply state_eta|].
    split; [constructor|]. intros _ H. lia.
  - rewrite callGraphAPI_eq. cbv zeta. destruct (in_test_mode w tok) eqn:Hmode.
    + destruct (mock_run m (JStr url) d q s) as (r & E & _). rewrite E.
      exists r, [EvMock m (JStr url) d (nth q (heap s) [])].
      split; [reflexivity|]. split; [|discriminate].
      constructor; [|constructor]. simpl. auto.
    + rewrite (buildFinalUrl_absolute _ _ _ Habs).
      set (req := make_request w url tok m d).
      set (s2 := {| heap := heap s; trace := trace s ++ [EvHttp req] |}).
      assert (Hreq : targets (JStr url) url (EvHttp req)) by reflexivity.
      destruct (https_request w (count_http (trace s)) req) as [st rd|msg|e].
      * destruct (is_2xx st || negb ((st =? 401)%Z && negb b)) eqn:Hst.
        -- rewrite on_end_no_retry by exact Hst.
           exists (settle_final w st rd), [EvHttp req]. split; [reflexivity|].
           split; [constructor; [exact Hreq|constructor]|]. eauto.
        -- apply orb_false_iff in Hst. destruct Hst as [_ Hst].
           apply negb_false_iff, andb_true_iff in Hst. destruct Hst as [Hst Hb].
           apply Z.eqb_eq in Hst. apply negb_true_iff in Hb. subst st b.
           rewrite on_end_401. cbv zeta.
           destruct (getValidAccessToken w _) as [fresh|e].
           ++ destruct (truthy_str fresh).
              ** destruct (IH (str_or_empty fresh) true (add_event s2 EvGetValidAccessToken) Hq)
                   as (r & evs & E & Hall & _).
                 rewrite E.
                 exists (match r with
                         | Resolved j => Resolved j
                         | Rejected e => Rejected (wrap_unauthorized rd e)
                         | OutOfFuel => OutOfFuel
                         end), ([EvHttp req; EvGetValidAccessToken] ++ evs).
                 split; [destruct r; unfold s2, add_event; simpl; rewrite <- !app_assoc; reflexivity|].
                 split; [constructor; [exact Hreq|constructor; [exact I|exact Hall]]|].
                 simpl. eauto.
              ** eexists _, [EvHttp req; EvGetValidAccessToken].
                 split; [unfold s2, add_event; simpl; rewrite <- app_assoc; reflexivity|].
                 split; [repeat constructor|]. eauto.
           ++ eexists _, [EvHttp req; EvGetValidAccessToken].
              split; [unfold s2, add_event; simpl; rewrite <- app_assoc; reflexivity|].
              split; [repeat constructor|]. eauto.
      * eexists _, [EvHttp req]. split; [reflexivity|].
        split; [repeat constructor|]. eauto.
      * eexists _, [EvHttp req]. split; [reflexivity|].
        split; [repeat constructor|]. eauto.
Qed.

(** Whenever a pass through the loop body decides to continue, the
    response of that pass carried a truthy [@odata.nextLink], the next pass
    is given exactly that value as its path, and a freshly allocated empty
    object as its query parameters. If the cursor is an absolute URL, every
    HTTPS request that a [callGraphAPI] on these sends, the first attempt
    and the retry alike, goes to that URL character for character, and
    every simulated call gets the cursor as its path with no query
    parameters. *)
Lemma page_iteration_continue gas tok m maxCount st s st' s' :
  page_iteration w gas tok m maxCount st s = (Resolved (Continue st'), s') ->
  exists response s1,
    callGraphAPI w gas tok m (currentUrl st) JNull (currentParams st) false s
    = (Resolved response, s1)
    /\ get_prop response "@odata.nextLink" = inr (Some (currentUrl st'))
    /\ truthy (currentUrl st') = true
    /\ nth (currentParams st') (heap s') [] = []
    /\ trace s' = trace s1
    /\ forall url,
         currentUrl st' = JStr url ->
         is_absolute_url url = true ->
         forall fuel tok' b,
         exists r evs,
           callGraphAPI w fuel tok' m (currentUrl st') JNull (currentParams st') b s'
           = (r, {| heap := heap s'; trace := trace s' ++ evs |})
           /\ Forall (targets (currentUrl st') url) evs
           /\ (in_test_mode w tok' = false -> 0 < fuel ->
               exists rest, evs = EvHttp (make_request w url tok' m JNull) :: rest).
Proof.
  unfold page_iteration. unfold bind at 1.
  destruct (callGraphAPI w gas tok m (currentUrl st) JNull (currentParams st) false s)
    as [[response|e|] s1]; try discriminate.
  unfold bind at 1. destruct (get_prop response "value") as [e|value]; simpl; try discriminate.
  destruct (bound_reached maxCount _); [discriminate|].
  unfold bind at 1.
  destruct (get_prop response "@odata.nextLink") as [e|[link|]] eqn:Hnext; simpl;
    try discriminate.
  destruct (truthy link) eqn:Hlink; [|discriminate].
  unfold bind, alloc, ret. simpl. intros H. injection H as <- <-. simpl.
  exists response, s1. split; [reflexivity|]. split; [exact Hnext|].
  split; [exact Hlink|]. split; [rewrite nth_middle; reflexivity|]. split; [reflexivity|].
  intros url -> Habs fuel tok' b.
  apply (callGraphAPI_absolute_run url m JNull (length (heap s1)) Habs fuel tok' b
           {| heap := heap s1 ++ [[]]; trace := trace s1 |}).
  simpl. rewrite nth_middle. reflexivity.
Qed.

(** *** The URL of a relative path *)

Lemma buildFinalUrl_relative p q s :
  is_absolute_url p = false ->
  buildFinalUrl w (JStr p) q s
  = match buildQueryString q s with
    | (Resolved queryString, s1) =>
        (Resolved (GRAPH_API_ENDPOINT w ++ encodePath p ++ queryString)%string, s1)
    | (Rejected e, s1) => (Rejected e, s1)
    | (OutOfFuel, s1) => (OutOfFuel, s1)
    end.
Proof. intros H. simpl. rewrite H. reflexivity. Qed.

(** Claim C4, amended. For a relative path the URL is the endpoint, the
    path with its segments percent-encoded, and a query string. Whenever
    [$filter] is absent or not empty the query string is the one the
    specification describes: the other parameters form-encoded and joined
    by [&], then [$filter=] with the value percent-encoded as a whole, as
    the last component, after [&] if other parameters precede it, and [?]
    in front unless there is no parameter at all. An empty [$filter] is not
    set apart: it is form-encoded, name and value, in its place among the
    other parameters. *)
Theorem buildFinalUrl_query_encoding p q s :
  is_absolute_url p = false ->
  let params := nth q (heap s) [] in
  (assoc "$filter" params <> Some EmptyString ->
   fst (buildFinalUrl w (JStr p) q s)
   = Resolved (GRAPH_API_ENDPOINT w ++ encodePath p ++ spec_query_string params)%string)
  /\ (assoc "$filter" params = Some EmptyString ->
      fst (buildFinalUrl w (JStr p) q s)
      = Resolved (GRAPH_API_ENDPOINT w ++ encodePath p ++ "?"
                    ++ URLSearchParams_toString params)%string).
Proof.
  intros Hrel. cbv zeta. rewrite (buildFinalUrl_relative _ _ _ Hrel).
  pose proof (buildQueryString_result q s) as Hqs. cbv zeta in Hqs.
  destruct (buildQueryString_trace q s) as (qs & h & E). rewrite E in *. simpl in *.
  injection Hqs as ->.
  destruct (assoc "$filter" (nth q (heap s) [])) as [f|] eqn:Hf.
  - destruct (f =? EmptyString)%string eqn:Hfe.
    + apply String.eqb_eq in Hfe. subst f. simpl. split; [congruence|]. intros _.
      destruct (nth q (heap s) []); [discriminate Hf|]. reflexivity.
    + simpl. rewrite Hfe. simpl. split; [reflexivity|].
      intros H. injection H as ->. discriminate Hfe.
  - simpl. split; [|discriminate]. intros _.
    unfold spec_query_string. rewrite Hf, (remove_key_absent _ _ Hf).
    destruct (nth q (heap s) []) as [|kv rest]; [reflexivity|].
    pose proof (URLSearchParams_toString_nonempty kv rest) as Hne.
    apply String.eqb_neq in Hne. rewrite Hne. reflexivity.
Qed.

(** With a relative path and a truthy [$filter], building the URL removes
    [$filter] from the object the caller passed. *)
Lemma buildFinalUrl_deletes_filter p q s :
  is_absolute_url p = false ->
  truthy_str (assoc "$filter" (nth q (heap s) [])) = true ->
  nth q (heap (snd (buildFinalUrl w (JStr p) q s))) []
  = remove_key "$filter" (nth q (heap s) []).
Proof.
  intros Hrel Hf. rewrite (buildFinalUrl_relative _ _ _ Hrel).
  unfold buildQueryString, bind, deref, delete_prop, ret. simpl.
  destruct (0 <? length (nth q (heap s) []))%nat eqn:Hlen.
  - rewrite Hf. simpl. apply nth_update_nth, nth_nonempty_lt. exact Hlen.
  - destruct (nth q (heap s) []); [discriminate Hf|discriminate Hlen].
Qed.

(** Without a truthy [$filter], or with an absolute URL, it leaves the
    state alone. *)
Lemma buildFinalUrl_keeps_state p q s :
  (exists u, p = JStr u /\ is_absolute_url u = true)
  \/ truthy_str (assoc "$filter" (nth q (heap s) [])) = false ->
  snd (buildFinalUrl w p q s) = s.
Proof.
  intros [(u & -> & Habs)|Hf].
  - rewrite (buildFinalUrl_absolute _ _ _ Habs). reflexivity.
  - destruct p as [| | |u| |]; try reflexivity.
    destruct (is_absolute_url u) eqn:Habs.
    + rewrite (buildFinalUrl_absolute _ _ _ Habs). reflexivity.
    + rewrite (buildFinalUrl_relative _ _ _ Habs).
      unfold buildQueryString, bind, deref, ret. simpl.
      destruct (0 <? length (nth q (heap s) []))%nat; [|reflexivity].
      rewrite Hf. reflexivity.
Qed.

End Facts.

(* ===================================================================== *)
(** ** The retried request *)
(* ===================================================================== *)

(** Claim C3. [callGraphAPI] is called with a relative path and the
    query parameters [{ $filter: "isRead eq false" }]; the first attempt
    is answered 401 and the token storage hands out a fresh token. The
    first request carries the filter in its URL. Building that URL deleted
    [$filter] from the caller's object, the retry is given the same object,
    and so the second request goes to the bare path: it differs from the
    first in its URL as well as in its bearer token. *)
Theorem retry_loses_filter :
  callGraphAPI world_401_then_200 2 "stale-token" "GET" (JStr "me/messages") JNull 0 false
    {| heap := [[("$filter", "isRead eq false")]]; trace := [] |}
  = (Resolved (JObj []),
     {| heap := [[]];
        trace :=
          [EvHttp {| req_url := "https://graph.microsoft.com/v1.0/me/messages?$filter=isRead%20eq%20false";
                     req_method := "GET";
                     req_authorization := "Bearer stale-token";
                     req_body := None |};
           EvGetValidAccessToken;
           EvHttp {| req_url := "https://graph.microsoft.com/v1.0/me/messages";
                     req_method := "GET";
                     req_authorization := "Bearer fresh-token";
                     req_body := None |}] |}).
Proof. vm_compute. reflexivity. Qed.

(** The same call without [$filter] is retried as it was sent. *)
Example retry_keeps_other_parameters :
  trace (snd (callGraphAPI world_401_then_200 2 "stale-token" "GET" (JStr "me/messages")
                JNull 0 false {| heap := [[("$top", "5")]]; trace := [] |}))
  = [EvHttp {| req_url := "https://graph.microsoft.com/v1.0/me/messages?%24top=5";
               req_method := "GET";
               req_authorization := "Bearer stale-token";
               req_body := None |};
     EvGetValidAccessToken;
     EvHttp {| req_url := "https://graph.microsoft.com/v1.0/me/messages?%24top=5";
               req_method := "GET";
               req_authorization := "Bearer fresh-token";
               req_body := None |}].
Proof. vm_compute. reflexivity. Qed.

(** A second 401 ends the call, whatever fuel is left. *)
Example second_401_is_terminal :
  callGraphAPI (world_401_then 401 "denied") 5 "stale-token" "GET" (JStr "me/messages")
    JNull 0 false empty_state
  = (Rejected {| message := "UNAUTHORIZED: API call failed with status 401: denied";
                 statusCode := Some 401%Z;
                 body := Some "expired" |},
     {| heap := [[]];
        trace :=
          [EvHttp {| req_url := "https://graph.microsoft.com/v1.0/me/messages";
                     req_method := "GET";
                     req_authorization := "Bearer stale-token";
                     req_body := None |};
           EvGetValidAccessToken;
           EvHttp {| req_url := "https://graph.microsoft.com/v1.0/me/messages";
                     req_method := "GET";
                     req_authorization := "Bearer fresh-token";
                     req_body := None |}] |}).
Proof. vm_compute. reflexivity. Qed.


(* ===================================================================== *)
(** ** The refresh in flight *)
(* ===================================================================== *)

Module TokenCoalescingFacts.
Import TokenCoalescing.

Lemma shared_instance_joins callers aw :
  run (map GraphApi401 callers)
      {| expired := true; instances := [Some 0]; in_flight := [0]; issued := 1; awaiting := aw |}
  = {| expired := true; instances := [Some 0]; in_flight := [0]; issued := 1;
       awaiting := aw ++ map (fun c => (c, 0)) callers |}.
Proof.
  unfold run. revert aw. induction callers as [|c callers IH]; intros aw; simpl.
  - rewrite app_nil_r. reflexivity.
  - unfold callGraphAPI_refresh, TokenStorage_getValidAccessToken. simpl.
    rewrite IH, <- app_assoc. reflexivity.
Qed.

(** Callers that go through the one [tokenStorage] of [utils/graph-api.js]
    while the token is expired share a single refresh. *)
Lemma shared_instance_coalesces c callers :
  let sys := run (map GraphApi401 (c :: callers)) expired_start in
  in_flight sys = [0] /\ issued sys = 1
  /\ awaiting sys = map (fun c => (c, 0)) (c :: callers).
Proof.
  cbv zeta. simpl map. unfold run. simpl fold_left.
  change (fold_left step (map GraphApi401 callers) ?s) with (run (map GraphApi401 callers) s).
  unfold callGraphAPI_refresh, TokenStorage_getValidAccessToken, expired_start. simpl.
  rewrite shared_instance_joins. simpl. auto.
Qed.

(** Claim C2. Two callers enter [ensureAuthenticated()] while the stored
    token is expired, the second before the refresh of the first has come
    back. Each call builds a [TokenStorage] of its own, which has no
    refresh in flight, so two refresh requests are on the network at once
    and each caller awaits a different one. *)
Theorem ensureAuthenticated_refreshes_twice :
  let sys := run [EnsureAuthenticated 1; EnsureAuthenticated 2] expired_start in
  in_flight sys = [0; 1]
  /\ issued sys = 2
  /\ awaiting sys = [(1, 0); (2, 1)].
Proof. vm_compute. auto. Qed.

(** The same happens between a [callGraphAPI] that recovers from a 401 and
    a handler that enters [ensureAuthenticated()]. *)
Example graph_api_and_ensureAuthenticated :
  in_flight (run [GraphApi401 1; EnsureAuthenticated 2] expired_start) = [0; 1].
Proof. reflexivity. Qed.

End TokenCoalescingFacts.

(* ===================================================================== *)
(** ** The properties at work *)
(* ===================================================================== *)

(** Claim C4 as it is stated fails on an empty [$filter] next to [$top]:
    the query string of the specification ends in [$filter=], the code
    form-encodes [$filter] where it stands. *)
Lemma empty_filter_is_form_encoded :
  let params := [("$filter", EmptyString); ("$top", "5")] in
  let w := world_always 200 EmptyString in
  let url := fst (buildFinalUrl w (JStr "me/messages") 0 {| heap := [params]; trace := [] |}) in
  url = Resolved "https://graph.microsoft.com/v1.0/me/messages?%24filter=&%24top=5"
  /\ spec_query_string params = "?%24top=5&$filter="
  /\ url <> Resolved (GRAPH_API_ENDPOINT w ++ encodePath "me/messages"
                        ++ spec_query_string params)%string.
Proof.
  cbv zeta. split; [reflexivity|]. split; [reflexivity|].
  vm_compute. intros H. discriminate H.
Qed.


Lemma buildFinalUrl_query_encoding_witness :
  is_absolute_url "me/messages" = false
  /\ fst (buildFinalUrl (world_always 200 EmptyString) (JStr "me/messages") 0
            {| heap := [[("$filter", "subject eq 'hello world'"); ("$top", "5")]];
               trace := [] |})
     = Resolved "https://graph.microsoft.com/v1.0/me/messages?%24top=5&$filter=subject%20eq%20'hello%20world'".
Proof.
  split; [reflexivity|].
  destruct (buildFinalUrl_query_encoding (world_always 200 EmptyString) "me/messages" 0
              {| heap := [[("$filter", "subject eq 'hello world'"); ("$top", "5")]];
                 trace := [] |} eq_refl) as (H & _).
  rewrite H; [reflexivity|]. simpl. discriminate.
Defined.

Lemma three_pages_served :
  served_chain world_three_pages "token" 0 "https://graph.microsoft.com/v1.0/me/messages"
    [[JNum 1; JNum 2]; [JNum 3; JNum 4]; [JNum 5]].
Proof.
  eapply chain_next with (st := 200%Z) (rd := "<page 1>") (resp := page1); try reflexivity.
  eapply chain_next with (st := 200%Z) (rd := "<page 2>") (resp := page2); try reflexivity.
  eapply chain_last with (st := 200%Z) (rd := "<page 3>") (resp := page3) (cursor := None);
    reflexivity.
Defined.

Lemma callGraphAPIPaginated_exact_witness :
  in_test_mode world_three_pages "token" = false
  /\ served_chain world_three_pages "token" 0 "https://graph.microsoft.com/v1.0/me/messages"
       [[JNum 1; JNum 2]; [JNum 3; JNum 4]; [JNum 5]]
  /\ fst (callGraphAPIPaginated world_three_pages 3 "token" "GET" (JStr "me/messages") 0 3
            empty_state)
     = Resolved (JObj [("value", JArr [JNum 1; JNum 2; JNum 3]); ("@odata.count", JNum 3)])
  /\ fst (callGraphAPIPaginated world_three_pages 3 "token" "GET" (JStr "me/messages") 0 0
            empty_state)
     = Resolved (JObj [("value", JArr [JNum 1; JNum 2; JNum 3; JNum 4; JNum 5]);
                       ("@odata.count", JNum 5)]).
Proof.
  split; [reflexivity|]. split; [exact three_pages_served|]. split.
  - destruct (callGraphAPIPaginated_exact world_three_pages 3 "token" (JStr "me/messages") 0 3
                empty_state "https://graph.microsoft.com/v1.0/me/messages" empty_state
                [[JNum 1; JNum 2]; [JNum 3; JNum 4]; [JNum 5]]
                eq_refl eq_refl three_pages_served (le_n 3)) as (s' & k & Hrun & _).
    rewrite Hrun. reflexivity.
  - destruct (callGraphAPIPaginated_exact world_three_pages 3 "token" (JStr "me/messages") 0 0
                empty_state "https://graph.microsoft.com/v1.0/me/messages" empty_state
                [[JNum 1; JNum 2]; [JNum 3; JNum 4]; [JNum 5]]
                eq_refl eq_refl three_pages_served (le_n 3)) as (s' & k & Hrun & _).
    rewrite Hrun. reflexivity.
Defined.

(** With a bound of three the third page is never asked for. *)
Example three_pages_bound_three :
  map (fun e => match e with EvHttp r => req_url r | _ => EmptyString end)
      (trace (snd (callGraphAPIPaginated world_three_pages 3 "token" "GET" (JStr "me/messages")
                     0 3 empty_state)))
  = ["https://graph.microsoft.com/v1.0/me/messages";
     "https://graph.microsoft.com/v1.0/me/messages?$skip=2"].
Proof. vm_compute. reflexivity. Qed.

Lemma callGraphAPIPaginated_get_only_witness :
  "POST" <> "GET"
  /\ callGraphAPIPaginated (world_always 200 EmptyString) 0 "token" "POST" (JStr "me/messages")
       0 0 empty_state
     = (Rejected (Error "Pagination only supports GET requests"), empty_state).
Proof.
  assert (H : "POST" <> "GET") by discriminate.
  split; [exact H|].
  exact (callGraphAPIPaginated_get_only (world_always 200 EmptyString) 0 "token" "POST"
           (JStr "me/messages") 0 0%Z empty_state H).
Defined.

Lemma callGraphAPI_empty_body_witness :
  JSON_parse (world_always 204 EmptyString) "{}" = inr (JObj [])
  /\ fst (callGraphAPI (world_always 204 EmptyString) 1 "token" "DELETE" (JStr "me/messages/1")
            JNull 0 false empty_state)
     = Resolved (JObj []).
Proof.
  split; [reflexivity|].
  destruct (callGraphAPI_empty_body (world_always 204 EmptyString) 0 "token" "DELETE"
              (JStr "me/messages/1") JNull 0 false empty_state
              "https://graph.microsoft.com/v1.0/me/messages/1" empty_state 204%Z EmptyString
              eq_refl eq_refl eq_refl eq_refl eq_refl) as (H & _).
  exact (H eq_refl).
Defined.

(* ===================================================================== *)
(** ** Further properties of [callGraphAPI] *)
(* ===================================================================== *)

Section MoreFacts.
Context (w : World).

Local Open Scope list_scope.

Lemma callGraphAPI_settles fuel tok m p d q b s :
  2 <= fuel -> fst (callGraphAPI w fuel tok m p d q b s) <> OutOfFuel.
Proof.
  intros Hfuel. rewrite (callGraphAPI_fuel_irrelevant w fuel tok m p d q b s Hfuel).
  destruct b; [apply (callGraphAPI_retry_run w 1)|].
  rewrite callGraphAPI_eq. cbv zeta.
  destruct (in_test_mode w tok).
  { destruct (mock_run w m p d q s) as (r & E & Hr). rewrite E. exact Hr. }
  destruct (buildFinalUrl_cases w p q s) as [(url & h & E)|(e & E & He)]; rewrite E.
  - cbn [trace heap].
    destruct (https_request w _ _) as [st rd|msg|e]; try discriminate.
    destruct (is_2xx st || negb ((st =? 401)%Z && negb false)) eqn:Hst.
    + rewrite on_end_no_retry by exact Hst. apply settle_final_not_out.
    + apply orb_false_iff in Hst. destruct Hst as [_ Hst].
      apply negb_false_iff, andb_true_iff in Hst. destruct Hst as [Hst _].
      apply Z.eqb_eq in Hst. subst st. rewrite on_end_401. cbv zeta.
      destruct (getValidAccessToken w _) as [fresh|e]; [|discriminate].
      destruct (truthy_str fresh); [|discriminate].
      pose proof (callGraphAPI_retry_run w 0 (str_or_empty fresh) m p d q
                    (add_event {| heap := h; trace := trace s ++ [EvHttp (make_request w url tok m d)] |}
                               EvGetValidAccessToken)) as [Hout _].
      cbv zeta in Hout.
      destruct (callGraphAPI w 1 _ m p d q true _) as [[j|e|] s3]; simpl in *;
        try discriminate. contradiction.
  - rewrite on_catch_no_status by exact He. discriminate.
Qed.

Lemma buildFinalUrl_any_trace p q h t :
  buildFinalUrl w p q {| heap := h; trace := t |}
  = (fst (buildFinalUrl w p q {| heap := h; trace := [] |}),
     {| heap := heap (snd (buildFinalUrl w p q {| heap := h; trace := [] |})); trace := t |}).
Proof.
  destruct p as [| | |u| |]; try reflexivity.
  simpl. destruct (is_absolute_url u); [reflexivity|].
  unfold buildQueryString, bind, deref, delete_prop, ret. simpl.
  destruct (0 <? length (nth q h []))%nat; [|reflexivity].
  destruct (truthy_str (assoc "$filter" (nth q h []))); reflexivity.
Qed.

(** Property X1. When the transport fails ([req.on('error')]) on the request
    of a call made outside test mode, the call rejects with
    [Network error during API call: <message>]; the one request was sent,
    the token storage was not asked and nothing was retried. *)
Theorem callGraphAPI_network_error fuel tok m p d q b s url s1 msg :
  in_test_mode w tok = false ->
  buildFinalUrl w p q s = (Resolved url, s1) ->
  https_request w (count_http (trace s)) (make_request w url tok m d) = NetworkError msg ->
  callGraphAPI w (S fuel) tok m p d q b s
  = (Rejected (Error ("Network error during API call: " ++ msg)),
     {| heap := heap s1; trace := trace s ++ [EvHttp (make_request w url tok m d)] |}).
Proof.
  intros Hmode Hurl Hnet. rewrite callGraphAPI_eq. cbv zeta. rewrite Hmode, Hurl.
  rewrite (buildFinalUrl_trace w _ _ _ _ _ Hurl), Hnet. reflexivity.
Qed.

(** Property X2. When a first attempt is answered 401 and the refresh gives
    no token, the call rejects with [UNAUTHORIZED: refresh failed or no
    refresh_token], an error without [statusCode]; when the token storage
    throws, it rejects with [UNAUTHORIZED: <message>], [statusCode] 401 and
    the 401 body. In both cases one request and one asking of the token
    storage took place, and no second request. *)
Theorem callGraphAPI_refresh_failure fuel tok m p d q s url s1 body1 :
  in_test_mode w tok = false ->
  buildFinalUrl w p q s = (Resolved url, s1) ->
  https_request w (count_http (trace s)) (make_request w url tok m d) = Response 401 body1 ->
  let run := callGraphAPI w (S fuel) tok m p d q false s in
  let after :=
    {| heap := heap s1;
       trace := trace s ++ [EvHttp (make_request w url tok m d); EvGetValidAccessToken] |} in
  (forall fresh,
      getValidAccessToken w (count_token_calls (trace s)) = TokenValue fresh ->
      truthy_str fresh = false ->
      run = (Rejected (Error "UNAUTHORIZED: refresh failed or no refresh_token"), after))
  /\ (forall e,
        getValidAccessToken w (count_token_calls (trace s)) = TokenThrows e ->
        run = (Rejected {| message := "UNAUTHORIZED: " ++ message e;
                           statusCode := Some 401%Z;
                           body := Some body1 |}, after)).
Proof.
  intros Hmode Hurl Hnet. cbv zeta. rewrite callGraphAPI_eq. cbv zeta. rewrite Hmode, Hurl.
  rewrite (buildFinalUrl_trace w _ _ _ _ _ Hurl), Hnet. rewrite on_end_401. cbv zeta.
  assert (Hc : count_token_calls (trace s ++ [EvHttp (make_request w url tok m d)])
               = count_token_calls (trace s)).
  { rewrite count_token_calls_app. unfold count_token_calls. simpl. lia. }
  cbn [trace heap]. rewrite Hc. unfold add_event. cbn [trace heap]. rewrite <- app_assoc.
  split.
  - intros fresh -> Hf. rewrite Hf. reflexivity.
  - intros e ->. reflexivity.
Qed.

(** Property X3. When the first attempt is answered 401, the token storage
    hands out a token and the retry is answered 2xx with a body that
    parses, the call resolves with the parsed body of the retry; the trace
    is the first request with the stale token, the asking of the token
    storage, and the second request with the fresh token in its
    [Authorization] header. *)
Theorem callGraphAPI_recovers fuel tok m p d q s url1 s1 body1 t url2 s2 st2 rd2 j :
  in_test_mode w tok = false ->
  in_test_mode w t = false ->
  buildFinalUrl w p q s = (Resolved url1, s1) ->
  https_request w (count_http (trace s)) (make_request w url1 tok m d) = Response 401 body1 ->
  getValidAccessToken w (count_token_calls (trace s)) = TokenValue (Some t) ->
  t <> EmptyString ->
  buildFinalUrl w p q s1 = (Resolved url2, s2) ->
  https_request w (S (count_http (trace s))) (make_request w url2 t m d) = Response st2 rd2 ->
  is_2xx st2 = true ->
  JSON_parse w (body_or_empty_object rd2) = inr j ->
  callGraphAPI w (S (S fuel)) tok m p d q false s
  = (Resolved j,
     {| heap := heap s2;
        trace := trace s ++ [EvHttp (make_request w url1 tok m d);
                             EvGetValidAccessToken;
                             EvHttp (make_request w url2 t m d)] |}).
Proof.
  intros Hmode Hmode' Hurl Hnet Htok Hne Hurl2 Hnet2 H2xx Hparse.
  rewrite callGraphAPI_eq. cbv zeta. rewrite Hmode, Hurl.
  pose proof (buildFinalUrl_trace w _ _ _ _ _ Hurl) as Ht1.
  rewrite Ht1, Hnet. rewrite on_end_401. cbv zeta.
  assert (Hc : count_token_calls (trace s ++ [EvHttp (make_request w url1 tok m d)])
               = count_token_calls (trace s)).
  { rewrite count_token_calls_app. unfold count_token_calls. simpl. lia. }
  cbn [trace heap]. rewrite Hc, Htok.
  assert (Hf : truthy_str (Some t) = true).
  { simpl. apply negb_true_iff, String.eqb_neq. exact Hne. }
  rewrite Hf. cbn [str_or_empty]. unfold add_event. cbn [trace heap].
  set (t3 := (trace s ++ [EvHttp (make_request w url1 tok m d)]) ++ [EvGetValidAccessToken]).
  assert (Hurl3 : buildFinalUrl w p q {| heap := heap s1; trace := t3 |}
                  = (Resolved url2, {| heap := heap s2; trace := t3 |})).
  { rewrite buildFinalUrl_any_trace.
    destruct s1 as [h1 t1]. rewrite buildFinalUrl_any_trace in Hurl2. cbn [heap] in *.
    injection Hurl2 as Hr Hs. rewrite Hr. rewrite <- Hs. reflexivity. }
  assert (Hn3 : count_http t3 = S (count_http (trace s))).
  { unfold t3. rewrite !count_http_app. unfold count_http. simpl. lia. }
  rewrite (callGraphAPI_no_retry w fuel t m p d q true _ url2 _ st2 rd2 Hmode' Hurl3).
  - unfold settle_final. rewrite H2xx, Hparse. cbn [heap trace]. unfold t3.
    rewrite <- !app_assoc. reflexivity.
  - cbn [trace]. rewrite Hn3. exact Hnet2.
  - rewrite H2xx. reflexivity.
Qed.

Lemma make_request_sends url tok m d : sends w m d (EvHttp (make_request w url tok m d)).
Proof. split; reflexivity. Qed.

Lemma callGraphAPI_events_send fuel tok m p d q b s :
  exists evs,
    trace (snd (callGraphAPI w fuel tok m p d q b s)) = trace s ++ evs
    /\ Forall (sends w m d) evs.
Proof.
  revert tok b s. induction fuel as [|fuel IH]; intros tok b s.
  - exists []. split; [simpl; rewrite app_nil_r; reflexivity|constructor].
  - rewrite callGraphAPI_eq. cbv zeta. destruct (in_test_mode w tok).
    { destruct (mock_run w m p d q s) as (r & E & _). rewrite E.
      eexists. split; [reflexivity|]. repeat constructor. }
    destruct (buildFinalUrl_cases w p q s) as [(url & h & E)|(e & E & He)]; rewrite E.
    + cbn [trace heap].
      set (req := make_request w url tok m d).
      pose proof (make_request_sends url tok m d) as Hreq. fold req in Hreq.
      destruct (https_request w _ _) as [st rd|msg|e].
      * destruct (is_2xx st || negb ((st =? 401)%Z && negb b)) eqn:Hst.
        -- rewrite on_end_no_retry by exact Hst.
           exists [EvHttp req]. split; [reflexivity|]. repeat constructor; apply Hreq.
        -- apply orb_false_iff in Hst. destruct Hst as [_ Hst].
           apply negb_false_iff, andb_true_iff in Hst. destruct Hst as [Hst Hb].
           apply Z.eqb_eq in Hst. apply negb_true_iff in Hb. subst st b.
           rewrite on_end_401. cbv zeta.
           destruct (getValidAccessToken w _) as [fresh|e].
           ++ destruct (truthy_str fresh).
              ** match goal with
                 | |- context [callGraphAPI w fuel ?t m p d q true ?s0] =>
                     destruct (IH t true s0) as (evs & Ht & Hall);
                     destruct (callGraphAPI w fuel t m p d q true s0) as [[j|e|] s3]
                 end; cbn [fst snd] in *; rewrite Ht; unfold add_event; cbn [trace];
                   exists ([EvHttp req; EvGetValidAccessToken] ++ evs);
                   (split; [rewrite <- !app_assoc; reflexivity|]);
                   repeat constructor; try apply Hreq; exact Hall.
              ** exists [EvHttp req; EvGetValidAccessToken].
                 split; [unfold add_event; simpl; rewrite <- app_assoc; reflexivity|].
                 repeat constructor; apply Hreq.
           ++ exists [EvHttp req; EvGetValidAccessToken].
              split; [unfold add_event; simpl; rewrite <- app_assoc; reflexivity|].
              repeat constructor; apply Hreq.
      * exists [EvHttp req]. split; [reflexivity|]. repeat constructor; apply Hreq.
      * exists [EvHttp req]. split; [reflexivity|]. repeat constructor; apply Hreq.
    + rewrite on_catch_no_status by exact He.
      exists []. split; [simpl; rewrite app_nil_r; reflexivity|constructor].
Qed.

(** Property X4. Every request that a call sends, the retry included, has
    the method the call was given, and carries the serialised [data] exactly
    when [data] is truthy and the method is [POST], [PATCH] or [PUT]; with
    any other method no body is written. *)
Theorem callGraphAPI_sends_method_and_body fuel tok m p d q b s :
  exists evs,
    trace (snd (callGraphAPI w fuel tok m p d q b s)) = trace s ++ evs
    /\ Forall (sends w m d) evs.
Proof. apply callGraphAPI_events_send. Qed.

(** Property X5. Outside test mode a call resolves only with what a server
    answered: when it resolves with [j], one of the requests in its trace
    got a 2xx response whose body (or [{}] for an empty body) parses to
    [j]. *)
Theorem callGraphAPI_resolves_from_2xx fuel tok m p d q b s j :
  USE_TEST_MODE w = false ->
  fst (callGraphAPI w fuel tok m p d q b s) = Resolved j ->
  exists before r after st rd,
    trace (snd (callGraphAPI w fuel tok m p d q b s)) = before ++ EvHttp r :: after
    /\ https_request w (count_http before) r = Response st rd
    /\ is_2xx st = true
    /\ JSON_parse w (body_or_empty_object rd) = inr j.
Proof.
  intros Hmode. revert tok b s. induction fuel as [|fuel IH]; intros tok b s; [discriminate|].
  rewrite callGraphAPI_eq. cbv zeta. unfold in_test_mode. rewrite Hmode. cbn [andb].
  destruct (buildFinalUrl_cases w p q s) as [(url & h & E)|(e & E & He)]; rewrite E.
  - cbn [trace heap].
    set (req := make_request w url tok m d).
    destruct (https_request w (count_http (trace s)) req) as [st rd|msg|e] eqn:Hnet;
      try discriminate.
    destruct (is_2xx st || negb ((st =? 401)%Z && negb b)) eqn:Hst.
    + rewrite on_end_no_retry by exact Hst. unfold settle_final. cbn [fst snd trace].
      destruct (is_2xx st) eqn:H2; [|discriminate].
      destruct (JSON_parse w (body_or_empty_object rd)) as [msg|j'] eqn:Hp; [discriminate|].
      intros H. injection H as ->.
      exists (trace s), req, [], st, rd. auto.
    + apply orb_false_iff in Hst. destruct Hst as [_ Hst].
      apply negb_false_iff, andb_true_iff in Hst. destruct Hst as [Hst Hb].
      apply Z.eqb_eq in Hst. apply negb_true_iff in Hb. subst st b.
      rewrite on_end_401. cbv zeta.
      destruct (getValidAccessToken w _) as [fresh|e]; [|discriminate].
      destruct (truthy_str fresh); [|discriminate].
      match goal with
      | |- context [callGraphAPI w fuel ?t m p d q true ?s0] =>
          specialize (IH t true s0);
          destruct (callGraphAPI w fuel t m p d q true s0) as [[j'|e|] s3]
      end; cbn [fst snd] in *; try discriminate.
      intros H. injection H as ->. apply IH. reflexivity.
  - rewrite on_catch_no_status by exact He. discriminate.
Qed.

Lemma assoc_remove_key {A} k (l : list (string * A)) : assoc k (remove_key k l) = None.
Proof.
  induction l as [|[k' v] l IH]; simpl; [reflexivity|].
  destruct (k' =? k)%string eqn:E; [exact IH|]. simpl. rewrite E. exact IH.
Qed.

Lemma nth_update_nth_other {A} (f : A -> A) (d : A) n n' (l : list A) :
  n' <> n -> nth n' (update_nth n f l) d = nth n' l d.
Proof.
  revert n n'. induction l as [|x l IH]; intros [|n] [|n'] H; simpl; try reflexivity;
    try contradiction. apply IH. congruence.
Qed.

(** The heap after the URL is built. *)
Lemma buildFinalUrl_heap p q s :
  heap (snd (buildFinalUrl w p q s))
  = if is_relative p && truthy_str (assoc "$filter" (nth q (heap s) []))
    then update_nth q (remove_key "$filter") (heap s)
    else heap s.
Proof.
  destruct p as [| | |u| |]; try reflexivity. simpl.
  destruct (is_absolute_url u); [reflexivity|]. simpl.
  unfold buildQueryString, bind, deref, delete_prop, ret. simpl.
  destruct (0 <? length (nth q (heap s) []))%nat eqn:Hlen.
  - destruct (truthy_str (assoc "$filter" (nth q (heap s) []))); reflexivity.
  - destruct (nth q (heap s) []); [reflexivity|discriminate Hlen].
Qed.

Lemma buildFinalUrl_heap_twice p q s s' :
  heap s' = heap (snd (buildFinalUrl w p q s)) ->
  heap (snd (buildFinalUrl w p q s')) = heap s'.
Proof.
  intros H. rewrite buildFinalUrl_heap.
  destruct (is_relative p && truthy_str (assoc "$filter" (nth q (heap s') []))) eqn:E;
    [|reflexivity].
  apply andb_true_iff in E. destruct E as [Hrel Hf].
  rewrite H, buildFinalUrl_heap, Hrel in Hf. cbn [andb] in Hf.
  destruct (truthy_str (assoc "$filter" (nth q (heap s) []))) eqn:Hf0.
  - destruct (Nat.lt_ge_cases q (length (heap s))) as [Hlt|Hge].
    + rewrite nth_update_nth, assoc_remove_key in Hf by exact Hlt. discriminate.
    + rewrite (nth_overflow (heap s)) in Hf0 by exact Hge. discriminate.
  - congruence.
Qed.

Lemma callGraphAPI_heap fuel tok m p d q b s :
  heap (snd (callGraphAPI w fuel tok m p d q b s))
  = if (0 <? fuel)%nat && negb (in_test_mode w tok)
    then heap (snd (buildFinalUrl w p q s))
    else heap s.
Proof.
  revert tok b s. induction fuel as [|fuel IH]; intros tok b s; [reflexivity|].
  rewrite callGraphAPI_eq. cbv zeta. cbn [Nat.ltb Nat.leb andb].
  destruct (in_test_mode w tok) eqn:Hmode; cbn [negb].
  { destruct (mock_run w m p d q s) as (r & E & _). rewrite E. reflexivity. }
  destruct (buildFinalUrl_cases w p q s) as [(url & h & E)|(e & E & He)]; rewrite E.
  - cbn [trace heap snd].
    destruct (https_request w _ _) as [st rd|msg|e]; try reflexivity.
    destruct (is_2xx st || negb ((st =? 401)%Z && negb b)) eqn:Hst.
    + rewrite on_end_no_retry by exact Hst. reflexivity.
    + apply orb_false_iff in Hst. destruct Hst as [_ Hst].
      apply negb_false_iff, andb_true_iff in Hst. destruct Hst as [Hst Hb].
      apply Z.eqb_eq in Hst. apply negb_true_iff in Hb. subst st b.
      rewrite on_end_401. cbv zeta.
      destruct (getValidAccessToken w _) as [fresh|e]; [|reflexivity].
      destruct (truthy_str fresh); [|reflexivity].
      match goal with
      | |- context [callGraphAPI w fuel ?t m p d q true ?s0] =>
          specialize (IH t true s0);
          assert (Hh : heap (snd (buildFinalUrl w p q s0)) = heap s0)
            by (apply (buildFinalUrl_heap_twice p q s); rewrite E; reflexivity);
          rewrite Hh in IH;
          assert (Hs0 : heap s0 = h) by reflexivity;
          destruct (callGraphAPI w fuel t m p d q true s0) as [[j|e|] s3]
      end; cbn [fst snd] in *; rewrite IH, Hs0;
        destruct ((0 <? fuel)%nat && negb (in_test_mode w (str_or_empty fresh)));
        reflexivity.
  - rewrite on_catch_no_status by exact He. reflexivity.
Qed.

(** Property X6. What a call does to the objects of its caller: outside test
    mode, with a relative path and a truthy [$filter] in [queryParams], the
    [$filter] entry is deleted from the caller's object and nothing else
    changes; in every other case no object changes at all. *)
Theorem callGraphAPI_queryParams_effect fuel tok m p d q b s :
  let after := heap (snd (callGraphAPI w (S fuel) tok m p d q b s)) in
  let params := nth q (heap s) [] in
  if negb (in_test_mode w tok) && is_relative p && truthy_str (assoc "$filter" params)
  then nth q after [] = remove_key "$filter" params
       /\ (forall l, l <> q -> nth l after [] = nth l (heap s) [])
       /\ length after = length (heap s)
  else after = heap s.
Proof.
  cbv zeta. rewrite callGraphAPI_heap. cbn [Nat.ltb Nat.leb andb].
  destruct (in_test_mode w tok); cbn [negb andb]; [reflexivity|].
  rewrite buildFinalUrl_heap.
  destruct (is_relative p && truthy_str (assoc "$filter" (nth q (heap s) []))) eqn:E;
    [|reflexivity].
  apply andb_true_iff in E. destruct E as [_ Hf].
  split; [|split].
  - apply nth_update_nth.
    destruct (Nat.lt_ge_cases q (length (heap s))) as [Hlt|Hge]; [exact Hlt|].
    rewrite nth_overflow in Hf by exact Hge. discriminate.
  - intros l Hl. apply nth_update_nth_other. exact Hl.
  - clear. generalize (heap s) as h. revert q.
    induction q as [|q IH]; intros [|x h]; simpl; try reflexivity. rewrite IH. reflexivity.
Qed.

End MoreFacts.

(* ===================================================================== *)
(** ** Further properties of [callGraphAPIPaginated] *)
(* ===================================================================== *)

Section MorePagination.
Context (w : World).

Local Open Scope list_scope.

Lemma page_iteration_trace gas tok m maxCount st s :
  trace (snd (page_iteration w gas tok m maxCount st s))
  = trace (snd (callGraphAPI w gas tok m (currentUrl st) JNull (currentParams st) false s)).
Proof.
  unfold page_iteration. unfold bind at 1.
  destruct (callGraphAPI w gas tok m (currentUrl st) JNull (currentParams st) false s)
    as [[response|e|] s1]; try reflexivity.
  unfold bind at 1. destruct (get_prop response "value") as [e|value]; simpl; try reflexivity.
  destruct (bound_reached maxCount _); [reflexivity|].
  unfold bind at 1.
  destruct (get_prop response "@odata.nextLink") as [e|[link|]]; simpl; try reflexivity.
  destruct (truthy link); reflexivity.
Qed.

Lemma paginate_loop_Forall (P : Event -> Prop) gas tok m maxCount :
  (forall cur q s, exists evs,
      trace (snd (callGraphAPI w gas tok m cur JNull q false s)) = trace s ++ evs
      /\ Forall P evs) ->
  forall fuel st s, exists evs,
    trace (snd (paginate_loop w fuel gas tok m maxCount st s)) = trace s ++ evs
    /\ Forall P evs.
Proof.
  intros Hcall. induction fuel as [|fuel IH]; intros st s.
  - exists []. split; [simpl; rewrite app_nil_r; reflexivity|constructor].
  - cbn [paginate_loop]. unfold bind.
    pose proof (page_iteration_trace gas tok m maxCount st s) as Ht.
    destruct (Hcall (currentUrl st) (currentParams st) s) as (evs & Hevs & Hall).
    rewrite Hevs in Ht.
    destruct (page_iteration w gas tok m maxCount st s) as [[[items|st']|e|] s1];
      cbn [fst snd] in *; try (exists evs; split; [exact Ht|exact Hall]).
    destruct (IH st' s1) as (evs' & Hevs' & Hall').
    exists (evs ++ evs'). split; [rewrite Hevs', Ht, app_assoc; reflexivity|].
    apply Forall_app. split; assumption.
Qed.

Lemma callGraphAPIPaginated_Forall (P : Event -> Prop) fuel tok m p q maxCount s :
  (forall cur q s, exists evs,
      trace (snd (callGraphAPI w fuel tok m cur JNull q false s)) = trace s ++ evs
      /\ Forall P evs) ->
  exists evs,
    trace (snd (callGraphAPIPaginated w fuel tok m p q maxCount s)) = trace s ++ evs
    /\ Forall P evs.
Proof.
  intros Hcall. unfold callGraphAPIPaginated.
  destruct (negb (m =? "GET")%string).
  - exists []. split; [simpl; rewrite app_nil_r; reflexivity|constructor].
  - unfold bind.
    destruct (paginate_loop_Forall P fuel tok m maxCount Hcall fuel
                {| allItems := []; currentUrl := p; currentParams := q |} s)
      as (evs & Hevs & Hall).
    exists evs. split; [|exact Hall].
    destruct (paginate_loop w fuel fuel tok m maxCount _ s) as [[items|e|] s1]; exact Hevs.
Qed.

(** Property X7. Whatever its arguments, every request that
    [callGraphAPIPaginated] sends is a [GET] without a body. *)
Theorem callGraphAPIPaginated_only_gets fuel tok m p q maxCount s :
  exists evs,
    trace (snd (callGraphAPIPaginated w fuel tok m p q maxCount s)) = trace s ++ evs
    /\ Forall get_without_body evs.
Proof.
  destruct (m =? "GET")%string eqn:Hm.
  - apply String.eqb_eq in Hm. subst m.
    apply callGraphAPIPaginated_Forall. intros cur q' s'.
    destruct (callGraphAPI_events_send w fuel tok "GET" cur JNull q' false s')
      as (evs & Hevs & Hall).
    exists evs. split; [exact Hevs|].
    eapply Forall_impl; [|exact Hall]. intros [r| | |]; simpl; auto.
  - exists []. unfold callGraphAPIPaginated. rewrite Hm. simpl.
    split; [rewrite app_nil_r; reflexivity|constructor].
Qed.

(** Property X8. With a test token in test mode neither [callGraphAPI] nor
    [callGraphAPIPaginated] sends a request or asks the token storage:
    their traces hold simulated calls only, and [callGraphAPI] leaves the
    query parameters as they are. *)
Theorem test_mode_stays_offline tok :
  in_test_mode w tok = true ->
  (forall fuel m p d q b s, exists evs,
      trace (snd (callGraphAPI w fuel tok m p d q b s)) = trace s ++ evs
      /\ Forall offline evs
      /\ heap (snd (callGraphAPI w fuel tok m p d q b s)) = heap s)
  /\ (forall fuel m p q maxCount s, exists evs,
        trace (snd (callGraphAPIPaginated w fuel tok m p q maxCount s)) = trace s ++ evs
        /\ Forall offline evs).
Proof.
  intros Hmode.
  assert (Hcall : forall fuel m p d q b s, exists evs,
             trace (snd (callGraphAPI w fuel tok m p d q b s)) = trace s ++ evs
             /\ Forall offline evs
             /\ heap (snd (callGraphAPI w fuel tok m p d q b s)) = heap s).
  { intros [|fuel] m p d q b s.
    - exists []. split; [simpl; rewrite app_nil_r; reflexivity|]. split; [constructor|reflexivity].
    - rewrite callGraphAPI_eq. cbv zeta. rewrite Hmode.
      destruct (mock_run w m p d q s) as (r & E & _). rewrite E.
      eexists. split; [reflexivity|]. split; [repeat constructor|reflexivity]. }
  split; [exact Hcall|].
  intros fuel m p q maxCount s. apply callGraphAPIPaginated_Forall.
  intros cur q' s'. destruct (Hcall fuel m cur JNull q' false s') as (evs & H1 & H2 & _).
  exists evs. auto.
Qed.

(** Property X9. Whenever [callGraphAPIPaginated] resolves, the method was
    [GET] and the result is [{ value, '@odata.count' }] with the count equal
    to the number of items in [value]; under a positive [maxCount] there are
    at most [maxCount] items. *)
Theorem callGraphAPIPaginated_result_shape fuel tok m p q maxCount s v :
  fst (callGraphAPIPaginated w fuel tok m p q maxCount s) = Resolved v ->
  m = "GET"
  /\ exists items,
       v = JObj [("value", JArr items); ("@odata.count", JNum (Z.of_nat (length items)))]
       /\ ((0 < maxCount)%Z -> (Z.of_nat (length items) <= maxCount)%Z).
Proof.
  unfold callGraphAPIPaginated.
  destruct (m =? "GET")%string eqn:Hm; simpl; [|discriminate].
  apply String.eqb_eq in Hm. unfold bind.
  destruct (paginate_loop w fuel fuel tok m maxCount _ s) as [[items|e|] s1];
    simpl; try discriminate.
  intros H. injection H as <-. split; [exact Hm|].
  eexists. split; [reflexivity|].
  intros Hpos. apply Z.ltb_lt in Hpos. rewrite Hpos.
  pose proof (firstn_le_length (Z.to_nat maxCount) items). apply Z.ltb_lt in Hpos. lia.
Qed.

Lemma absolute_is_truthy next : is_absolute_url next = true -> truthy (JStr next) = true.
Proof. destruct next; [discriminate|reflexivity]. Qed.

Lemma paginate_loop_endless tok maxCount :
  in_test_mode w tok = false ->
  (maxCount <= 0)%Z ->
  (forall n r, exists st rd resp value next,
      https_request w n r = Response st rd
      /\ is_2xx st = true
      /\ JSON_parse w (body_or_empty_object rd) = inr resp
      /\ get_prop resp "value" = inr value
      /\ get_prop resp "@odata.nextLink" = inr (Some (JStr next))
      /\ is_absolute_url next = true) ->
  forall fuel gas acc u q s,
    fuel <= gas ->
    let run := paginate_loop w fuel gas tok "GET" maxCount
                 {| allItems := acc; currentUrl := JStr u; currentParams := q |} s in
    fst run = OutOfFuel /\ count_http (trace (snd run)) = count_http (trace s) + fuel.
Proof.
  intros Hmode Hmax Hserver. induction fuel as [|fuel IH]; intros gas acc u q s Hgas.
  - simpl. split; [reflexivity|lia].
  - destruct gas as [|gas]; [lia|]. cbv zeta.
    destruct (buildFinalUrl_str w u q s) as (url & h & Hurl).
    destruct (Hserver (count_http (trace s)) (make_request w url tok "GET" JNull))
      as (st & rd & resp & value & next & Hnet & H2xx & Hparse & Hvalue & Hnext & Habs).
    assert (Hstep :
      paginate_loop w (S fuel) (S gas) tok "GET" maxCount
        {| allItems := acc; currentUrl := JStr u; currentParams := q |} s
      = paginate_loop w fuel (S gas) tok "GET" maxCount
          {| allItems := push_page acc value; currentUrl := JStr next;
             currentParams := length h |}
          {| heap := h ++ [[]];
             trace := trace s ++ [EvHttp (make_request w url tok "GET" JNull)] |}).
    { cbn [paginate_loop]. unfold bind at 1.
      unfold page_iteration. unfold bind at 1. cbn [currentUrl currentParams allItems].
      rewrite (callGraphAPI_no_retry w gas tok "GET" (JStr u) JNull q false s url _ st rd
                 Hmode Hurl Hnet) by (rewrite H2xx; reflexivity).
      unfold settle_final. rewrite H2xx, Hparse.
      unfold bind at 1. rewrite Hvalue. cbn [lift]. unfold ret at 1.
      assert (Hb : forall n, bound_reached maxCount n = false).
      { intros n. unfold bound_reached. destruct (0 <? maxCount)%Z eqn:E; [|reflexivity].
        apply Z.ltb_lt in E. lia. }
      rewrite Hb. unfold bind at 1. rewrite Hnext. cbn [lift]. unfold ret at 1.
      rewrite (absolute_is_truthy _ Habs). reflexivity. }
    rewrite Hstep.
    destruct (IH (S gas) (push_page acc value) next (length h)
                {| heap := h ++ [[]];
                   trace := trace s ++ [EvHttp (make_request w url tok "GET" JNull)] |}
                ltac:(lia)) as [Hout Hcount].
    cbv zeta in Hout, Hcount. split; [exact Hout|].
    rewrite Hcount. cbn [trace]. rewrite count_http_app. unfold count_http. simpl. lia.
Qed.

(** Property X10. The loop has no bound of its own: without a positive
    [maxCount], against a server that answers every request with a page
    carrying an absolute [@odata.nextLink], [callGraphAPIPaginated] never
    returns; whatever the budget of iterations, it is used up, with one
    request per iteration. *)
Theorem callGraphAPIPaginated_follows_cursors_forever tok maxCount :
  in_test_mode w tok = false ->
  (maxCount <= 0)%Z ->
  (forall n r, exists st rd resp value next,
      https_request w n r = Response st rd
      /\ is_2xx st = true
      /\ JSON_parse w (body_or_empty_object rd) = inr resp
      /\ get_prop resp "value" = inr value
      /\ get_prop resp "@odata.nextLink" = inr (Some (JStr next))
      /\ is_absolute_url next = true) ->
  forall fuel p q s,
    let run := callGraphAPIPaginated w fuel tok "GET" (JStr p) q maxCount s in
    fst run = OutOfFuel /\ count_http (trace (snd run)) = count_http (trace s) + fuel.
Proof.
  intros Hmode Hmax Hserver fuel p q s. cbv zeta.
  destruct (paginate_loop_endless tok maxCount Hmode Hmax Hserver fuel fuel [] p q s (le_n _))
    as [Hout Hcount].
  cbv zeta in Hout, Hcount. unfold callGraphAPIPaginated.
  rewrite String.eqb_refl. cbn [negb]. unfold bind.
  destruct (paginate_loop w fuel fuel tok "GET" maxCount _ s) as [[items|e|] s1];
    cbn [fst snd] in *; try discriminate. split; [reflexivity|exact Hcount].
Qed.

End MorePagination.

(* ===================================================================== *)
(** ** The encoded path *)
(* ===================================================================== *)

Lemma string_forall_app f a b :
  string_forall f (a ++ b) = string_forall f a && string_forall f b.
Proof. induction a as [|c a IH]; simpl; [reflexivity|]. rewrite IH, andb_assoc. reflexivity. Qed.

Lemma string_forall_impl (f g : ascii -> bool) s :
  (forall c, f c = true -> g c = true) ->
  string_forall f s = true -> string_forall g s = true.
Proof.
  intros H. induction s as [|c s IH]; simpl; [reflexivity|].
  intros Hs. apply andb_true_iff in Hs. destruct Hs as [Hc Hs].
  rewrite (H c Hc), (IH Hs). reflexivity.
Qed.

Lemma hex_digit_unreserved n : (n < 16)%N -> uri_unreserved (hex_digit n) = true.
Proof.
  intros H. destruct n as [|p]; [reflexivity|].
  do 4 (destruct p as [p|p|]; try reflexivity); lia.
Qed.

Lemma percent_byte_alphabet c :
  string_forall (fun c => uri_unreserved c || Ascii.eqb c "%") (percent_byte c) = true.
Proof.
  unfold percent_byte. cbn [string_forall].
  assert (H : (N_of_ascii c < 256)%N) by apply N_ascii_bounded.
  rewrite !hex_digit_unreserved; [reflexivity| |].
  - apply N.mod_lt. discriminate.
  - apply N.Div0.div_lt_upper_bound. exact H.
Qed.

Lemma encodeURIComponent_alphabet s :
  string_forall (fun c => uri_unreserved c || Ascii.eqb c "%") (encodeURIComponent s) = true.
Proof.
  induction s as [|c s IH]; [reflexivity|].
  cbn [encodeURIComponent]. rewrite string_forall_app, IH, andb_true_r.
  destruct (uri_unreserved c) eqn:E; [simpl; rewrite E; reflexivity|].
  apply percent_byte_alphabet.
Qed.

Lemma join_forall f sep l :
  string_forall f sep = true ->
  Forall (fun x => string_forall f x = true) l ->
  string_forall f (join sep l) = true.
Proof.
  intros Hsep Hl. induction Hl as [|x l Hx Hl IH]; [reflexivity|].
  destruct l as [|y l]; [exact Hx|].
  change (join sep (x :: y :: l)) with (x ++ sep ++ join sep (y :: l)).
  rewrite !string_forall_app, Hx, Hsep, IH. reflexivity.
Qed.

(** Property X11. An encoded path holds only unreserved characters, [%]
    and [/], whatever the path. *)
Theorem encodePath_alphabet path :
  string_forall (fun c => uri_unreserved c || Ascii.eqb c "%" || Ascii.eqb c "/")
                (encodePath path) = true.
Proof.
  unfold encodePath. apply join_forall; [reflexivity|].
  apply Forall_forall. intros x Hx. apply in_map_iff in Hx. destruct Hx as (seg & <- & _).
  apply (string_forall_impl (fun c => uri_unreserved c || Ascii.eqb c "%")).
  - intros c H. rewrite H. reflexivity.
  - apply encodeURIComponent_alphabet.
Qed.

Lemma encodeURIComponent_unreserved s :
  string_forall uri_unreserved s = true -> encodeURIComponent s = s.
Proof.
  induction s as [|c s IH]; [reflexivity|]. simpl. intros H.
  apply andb_true_iff in H. destruct H as [Hc Hs]. rewrite Hc, (IH Hs). reflexivity.
Qed.

Lemma append_nil_r (s : string) : s ++ EmptyString = s.
Proof. induction s as [|c s IH]; simpl; [reflexivity|]. rewrite IH. reflexivity. Qed.

Lemma split_slash_aux_nonempty cur s : split_slash_aux cur s <> [].
Proof.
  revert cur. induction s as [|c s IH]; intros cur; simpl; [discriminate|].
  destruct (Ascii.eqb c "/"); [discriminate|apply IH].
Qed.

Lemma join_cons sep x l : l <> [] -> join sep (x :: l) = x ++ sep ++ join sep l.
Proof. destruct l; [contradiction|reflexivity]. Qed.

Lemma encodePath_aux cur s :
  string_forall uri_unreserved cur = true ->
  string_forall (fun c => uri_unreserved c || Ascii.eqb c "/") s = true ->
  join "/" (map encodeURIComponent (split_slash_aux cur s)) = cur ++ s.
Proof.
  revert cur. induction s as [|c s IH]; intros cur Hcur Hs.
  - simpl. rewrite append_nil_r. apply encodeURIComponent_unreserved. exact Hcur.
  - cbn [string_forall] in Hs. apply andb_true_iff in Hs. destruct Hs as [Hc Hs].
    cbn [split_slash_aux]. destruct (Ascii.eqb c "/") eqn:E.
    + apply Ascii.eqb_eq in E. subst c. cbn [map].
      rewrite join_cons.
      * rewrite (IH EmptyString eq_refl Hs), (encodeURIComponent_unreserved _ Hcur).
        reflexivity.
      * intros H. apply map_eq_nil in H. exact (split_slash_aux_nonempty _ _ H).
    + rewrite orb_false_r in Hc. rewrite IH.
      * rewrite append_assoc. reflexivity.
      * rewrite string_forall_app, Hcur. simpl. rewrite Hc. reflexivity.
      * exact Hs.
Qed.

(** Property X12. A path made of unreserved characters and [/] is sent as it
    is. *)
Theorem encodePath_unreserved path :
  string_forall (fun c => uri_unreserved c || Ascii.eqb c "/") path = true ->
  encodePath path = path.
Proof. intros H. unfold encodePath, split_slash. apply (encodePath_aux EmptyString path eq_refl H). Qed.

Lemma count_char_app c a b : count_char c (a ++ b) = count_char c a + count_char c b.
Proof. induction a as [|x a IH]; simpl; [reflexivity|]. rewrite IH. lia. Qed.

Lemma encodeURIComponent_no_slash s : count_char "/" (encodeURIComponent s) = 0.
Proof.
  pose proof (encodeURIComponent_alphabet s) as H.
  induction (encodeURIComponent s) as [|c t IH]; [reflexivity|].
  simpl in *. apply andb_true_iff in H. destruct H as [Hc Ht]. rewrite (IH Ht).
  destruct (Ascii.eqb c "/") eqn:E; [|reflexivity].
  apply Ascii.eqb_eq in E. subst c. discriminate Hc.
Qed.

Lemma encodePath_slashes_aux cur s :
  count_char "/" (join "/" (map encodeURIComponent (split_slash_aux cur s)))
  = count_char "/" s.
Proof.
  revert cur. induction s as [|c s IH]; intros cur.
  - simpl. apply encodeURIComponent_no_slash.
  - cbn [split_slash_aux count_char]. destruct (Ascii.eqb c "/") eqn:E.
    + cbn [map]. rewrite join_cons.
      * rewrite !count_char_app, encodeURIComponent_no_slash, IH. reflexivity.
      * intros H. apply map_eq_nil in H. exact (split_slash_aux_nonempty _ _ H).
    + apply IH.
Qed.

(** Property X13. Encoding keeps the segments of a path apart: the encoded
    path has as many [/] and as many segments as the path, a [/] being
    neither added nor encoded. *)
Theorem encodePath_keeps_segments path :
  count_char "/" (encodePath path) = count_char "/" path
  /\ length (split_slash (encodePath path)) = length (split_slash path).
Proof.
  assert (Hlen : forall cur s, length (split_slash_aux cur s) = S (count_char "/" s)).
  { intros cur s. revert cur. induction s as [|c s IH]; intros cur; [reflexivity|].
    cbn [split_slash_aux count_char]. destruct (Ascii.eqb c "/"); simpl; rewrite IH; reflexivity. }
  assert (H : count_char "/" (encodePath path) = count_char "/" path)
    by apply encodePath_slashes_aux.
  split; [exact H|]. unfold split_slash. rewrite !Hlen, H. reflexivity.
Qed.

(* ===================================================================== *)
(** ** The draft handlers *)
(* ===================================================================== *)

Section DraftFacts.
Context (w : World).

Local Open Scope list_scope.

Lemma destructure_ok args k :
  nullish args = false -> destructure args k = inr (opt_chain args k).
Proof. destruct args as [[]|]; simpl; try discriminate; reflexivity. Qed.

Lemma opt_chain_or args k :
  opt_chain (Some (js_or args (JObj []))) k = opt_chain args k.
Proof. destruct args as [[| [] |z|s| |]|]; try reflexivity; simpl.
  - destruct (z =? 0)%Z; reflexivity.
  - destruct (s =? EmptyString)%string; reflexivity.
Qed.

Lemma ensureAuthenticated_run s :
  ensureAuthenticated w false s
  = let after := {| heap := heap s;
                    trace := trace s ++ [EvNewTokenStorage; EvGetValidAccessToken] |} in
    match getValidAccessToken w (count_token_calls (trace s)) with
    | TokenValue fresh =>
        if truthy_str fresh then (Resolved (str_or_empty fresh), after)
        else (Rejected (Error "Authentication required"), after)
    | TokenThrows e => (Rejected e, after)
    end.
Proof.
  unfold ensureAuthenticated, bind, emit, call_getValidAccessToken. cbn [trace heap].
  rewrite count_token_calls_app. unfold count_token_calls at 2. cbn [filter is_token_call length].
  rewrite Nat.add_0_r, <- app_assoc. cbn [app].
  destruct (getValidAccessToken w _) as [fresh|e]; [|reflexivity].
  destruct (truthy_str fresh); reflexivity.
Qed.

(** The first request of a call that is not simulated. *)
Lemma callGraphAPI_first_request fuel tok m p d q b s url s1 :
  in_test_mode w tok = false ->
  buildFinalUrl w p q s = (Resolved url, s1) ->
  exists rest,
    trace (snd (callGraphAPI w (S fuel) tok m p d q b s))
    = trace s ++ EvHttp (make_request w url tok m d) :: rest.
Proof.
  intros Hmode Hurl. rewrite callGraphAPI_eq. cbv zeta. rewrite Hmode, Hurl.
  rewrite (buildFinalUrl_trace w _ _ _ _ _ Hurl).
  set (req := make_request w url tok m d).
  destruct (https_request w _ _) as [st rd|msg|e]; try (exists []; reflexivity).
  destruct (is_2xx st || negb ((st =? 401)%Z && negb b)) eqn:Hst.
  - rewrite on_end_no_retry by exact Hst. exists []. reflexivity.
  - apply orb_false_iff in Hst. destruct Hst as [_ Hst].
    apply negb_false_iff, andb_true_iff in Hst. destruct Hst as [Hst Hb].
    apply Z.eqb_eq in Hst. apply negb_true_iff in Hb. subst st b.
    rewrite on_end_401. cbv zeta.
    destruct (getValidAccessToken w _) as [fresh|e];
      [|exists [EvGetValidAccessToken]; simpl; rewrite <- app_assoc; reflexivity].
    destruct (truthy_str fresh);
      [|exists [EvGetValidAccessToken]; simpl; rewrite <- app_assoc; reflexivity].
    match goal with
    | |- context [callGraphAPI w fuel ?t m p d q true ?s0] =>
        destruct (callGraphAPI_events_send w fuel t m p d q true s0) as (evs & Ht & _);
        destruct (callGraphAPI w fuel t m p d q true s0) as [[j|e|] s3]
    end; cbn [fst snd] in *; rewrite Ht; unfold add_event; cbn [trace];
      exists (EvGetValidAccessToken :: evs); rewrite <- !app_assoc; reflexivity.
Qed.


Lemma buildFinalUrl_fresh_params p q s :
  is_absolute_url p = false ->
  nth q (heap s) [] = [] ->
  buildFinalUrl w (JStr p) q s = (Resolved (GRAPH_API_ENDPOINT w ++ encodePath p)%string, s).
Proof.
  intros Hrel Hq. rewrite (buildFinalUrl_relative w _ _ _ Hrel).
  unfold buildQueryString, bind, deref, ret. simpl. rewrite Hq. simpl.
  rewrite append_nil_r. reflexivity.
Qed.

Lemma create_draft_eq html_no flags endpoint fuel t to cc bcc subject body importance
      tos ccs bccs html s :
  parse_recipients "to" to = inr tos ->
  parse_recipients "cc" cc = inr ccs ->
  parse_recipients "bcc" bcc = inr bccs ->
  body_includes_html body = inr html ->
  create_draft w html_no flags endpoint fuel t to cc bcc subject body importance s
  = match callGraphAPI w fuel t "POST" (JStr endpoint)
            (draft_object html_no flags subject body importance html tos ccs bccs)
            (length (heap s)) false {| heap := heap s ++ [[]]; trace := trace s |} with
    | (Resolved result, s') =>
        match get_prop result "id" with
        | inl e => (Rejected e, s')
        | inr id =>
            (Resolved (text_response
                         (success_text subject body (recipientInfo tos ccs bccs) id)), s')
        end
    | (Rejected e, s') => (Rejected e, s')
    | (OutOfFuel, s') => (OutOfFuel, s')
    end.
Proof.
  intros Hto Hcc Hbcc Hhtml. unfold create_draft.
  rewrite Hto, Hcc, Hbcc, Hhtml. unfold bind, lift, ret, alloc. cbn [heap trace].
  destruct (callGraphAPI w fuel t "POST" _ _ _ false _) as [[result|e|] s']; try reflexivity.
  destruct (get_prop result "id"); reflexivity.
Qed.

(** What [create_draft] can come to. *)
Lemma create_draft_outcome html_no flags endpoint fuel t to cc bcc subject body importance s :
  2 <= fuel ->
  match fst (create_draft w html_no flags endpoint fuel t to cc bcc subject body importance s)
  with
  | Resolved v => exists text, v = text_response text
  | Rejected _ => True
  | OutOfFuel => False
  end.
Proof.
  intros Hfuel. unfold create_draft. unfold bind, lift, ret, throw, alloc.
  destruct (parse_recipients "to" to); [exact I|].
  destruct (parse_recipients "cc" cc); [exact I|].
  destruct (parse_recipients "bcc" bcc); [exact I|].
  destruct (body_includes_html body); [exact I|]. cbn [heap trace].
  match goal with
  | |- context [callGraphAPI w fuel t "POST" ?p ?d ?q false ?s0] =>
      pose proof (callGraphAPI_settles w fuel t "POST" p d q false s0 Hfuel) as Hout;
      destruct (callGraphAPI w fuel t "POST" p d q false s0) as [[result|e|] s']
  end; cbn [fst] in *; [|exact I|contradiction].
  destruct (get_prop result "id"); cbn [fst]; [exact I|]. eexists. reflexivity.
Qed.

Lemma handleCreateDraft_eq fuel args s :
  nullish args = false ->
  truthy_opt (opt_chain args "subject") || truthy_opt (opt_chain args "body") = true ->
  handleCreateDraft w fuel args s
  = match ensureAuthenticated w false s with
    | (Resolved t, s1) =>
        match create_draft w "text" [("isDraft", JBool true)] "me/mailFolders/drafts/messages"
                fuel t (opt_chain args "to") (opt_chain args "cc") (opt_chain args "bcc")
                (opt_chain args "subject") (opt_chain args "body") (importance_of args) s1
        with
        | (Rejected e, s2) => (Resolved (draft_error_response e), s2)
        | r => r
        end
    | (Rejected e, s1) => (Resolved (draft_error_response e), s1)
    | (OutOfFuel, s1) => (OutOfFuel, s1)
    end.
Proof.
  intros Hargs Hcontent. unfold handleCreateDraft.
  rewrite !(destructure_ok _ _ Hargs). unfold lift. unfold bind at 1 2 3 4 5 6. unfold ret at 1 2 3 4 5 6.
  apply orb_true_iff in Hcontent.
  assert (Hguard : negb (truthy_opt (opt_chain args "subject"))
                   && negb (truthy_opt (opt_chain args "body")) = false).
  { destruct Hcontent as [H|H]; rewrite H; [reflexivity|apply andb_false_r]. }
  rewrite Hguard. unfold try_catch, bind. fold (importance_of args).
  destruct (ensureAuthenticated w false s) as [[t|e|] s1]; reflexivity.
Qed.

Lemma handleCreateDraft_direct_eq fuel args s :
  truthy_opt (opt_chain args "subject") || truthy_opt (opt_chain args "body") = true ->
  handleCreateDraft_direct w fuel args s
  = match token_with_fallback w s with
    | (Resolved t, s1) =>
        match create_draft w "Text" [] "me/messages"
                fuel t (opt_chain args "to") (opt_chain args "cc") (opt_chain args "bcc")
                (opt_chain args "subject") (opt_chain args "body") (importance_of args) s1
        with
        | (Rejected e, s2) => (Resolved (draft_error_response e), s2)
        | r => r
        end
    | (Rejected e, s1) => (Resolved (draft_error_response e), s1)
    | (OutOfFuel, s1) => (OutOfFuel, s1)
    end.
Proof.
  intros Hcontent. unfold handleCreateDraft_direct. cbv zeta.
  assert (Hargs : nullish (Some (js_or args (JObj []))) = false).
  { destruct args as [[| [] |z|s0| |]|]; try reflexivity; simpl.
    - destruct (z =? 0)%Z; reflexivity.
    - destruct (s0 =? EmptyString)%string; reflexivity. }
  rewrite !(destructure_ok _ _ Hargs), !opt_chain_or.
  unfold lift. unfold bind at 1 2 3 4 5 6. unfold ret at 1 2 3 4 5 6.
  apply orb_true_iff in Hcontent.
  assert (Hguard : negb (truthy_opt (opt_chain args "subject"))
                   && negb (truthy_opt (opt_chain args "body")) = false).
  { destruct Hcontent as [H|H]; rewrite H; [reflexivity|apply andb_false_r]. }
  rewrite Hguard. unfold try_catch at 1. unfold bind at 1. fold (importance_of args).
  destruct (token_with_fallback w s) as [[t|e|] s1]; reflexivity.
Qed.

Lemma token_with_fallback_eq s :
  token_with_fallback w s
  = let n := count_token_calls (trace s) in
    let once := {| heap := heap s;
                   trace := trace s ++ [EvNewTokenStorage; EvGetValidAccessToken] |} in
    let twice := {| heap := heap s;
                    trace := trace s ++ [EvNewTokenStorage; EvGetValidAccessToken;
                                         EvNewTokenStorage; EvGetValidAccessToken] |} in
    let again :=
      match getValidAccessToken w (S n) with
      | TokenValue fresh =>
          if truthy_str fresh then (Resolved (str_or_empty fresh), twice)
          else (Rejected (Error "Authentication required"), twice)
      | TokenThrows e => (Rejected e, twice)
      end in
    match getValidAccessToken w n with
    | TokenValue fresh =>
        if truthy_str fresh then (Resolved (str_or_empty fresh), once) else again
    | TokenThrows _ => again
    end.
Proof.
  cbv zeta. unfold token_with_fallback, try_catch. rewrite ensureAuthenticated_run. cbv zeta.
  assert (Hagain : forall h t,
    (emit EvNewTokenStorage;;;
     accessToken <- call_getValidAccessToken w;;
     (if negb (truthy_str accessToken)
      then throw (Error "Authentication required")
      else ret (str_or_empty accessToken)))%js {| heap := h; trace := t |}
    = match getValidAccessToken w (count_token_calls t) with
      | TokenValue fresh =>
          if truthy_str fresh
          then (Resolved (str_or_empty fresh),
                {| heap := h; trace := t ++ [EvNewTokenStorage; EvGetValidAccessToken] |})
          else (Rejected (Error "Authentication required"),
                {| heap := h; trace := t ++ [EvNewTokenStorage; EvGetValidAccessToken] |})
      | TokenThrows e =>
          (Rejected e, {| heap := h; trace := t ++ [EvNewTokenStorage; EvGetValidAccessToken] |})
      end).
  { intros h t. unfold bind, emit, call_getValidAccessToken. cbn [trace heap].
    rewrite count_token_calls_app. unfold count_token_calls at 2.
    cbn [filter is_token_call length]. rewrite Nat.add_0_r, <- app_assoc. cbn [app].
    destruct (getValidAccessToken w _) as [fresh|e]; [|reflexivity].
    destruct (truthy_str fresh); reflexivity. }
  assert (Hn : count_token_calls (trace s ++ [EvNewTokenStorage; EvGetValidAccessToken])
               = S (count_token_calls (trace s))).
  { rewrite count_token_calls_app. unfold count_token_calls at 2. simpl. lia. }
  destruct (getValidAccessToken w (count_token_calls (trace s))) as [fresh|e].
  - destruct (truthy_str fresh); [reflexivity|].
    rewrite Hagain, Hn, <- app_assoc. reflexivity.
  - rewrite Hagain, Hn, <- app_assoc. reflexivity.
Qed.



Lemma handleCreateDraft_run fuel args s t tos ccs bccs html :
  nullish args = false ->
  has_content args = true ->
  getValidAccessToken w (count_token_calls (trace s)) = TokenValue (Some t) ->
  t <> EmptyString ->
  well_formed_draft args tos ccs bccs html ->
  handleCreateDraft w fuel args s
  = answer_of (opt_chain args "subject") (opt_chain args "body") (recipientInfo tos ccs bccs)
      (callGraphAPI w fuel t "POST" (JStr "me/mailFolders/drafts/messages")
         (draft_v1 args tos ccs bccs html) (length (heap s)) false (authenticated s)).
Proof.
  intros Hargs Hcontent Htok Hne (Hto & Hcc & Hbcc & Hhtml).
  rewrite (handleCreateDraft_eq _ _ _ Hargs Hcontent), ensureAuthenticated_run. cbv zeta.
  rewrite Htok.
  assert (Hf : truthy_str (Some t) = true)
    by (simpl; apply negb_true_iff, String.eqb_neq; exact Hne).
  rewrite Hf. cbn [str_or_empty].
  rewrite (create_draft_eq _ _ _ _ _ _ _ _ _ _ _ _ _ _ _ _ Hto Hcc Hbcc Hhtml).
  cbn [heap trace]. unfold answer_of, authenticated, draft_v1.
  destruct (callGraphAPI w fuel t "POST" _ _ _ false _) as [[result|e|] s']; try reflexivity.
  destruct (get_prop result "id"); reflexivity.
Qed.

Lemma handleCreateDraft_direct_run fuel args s t tos ccs bccs html :
  has_content args = true ->
  well_formed_draft args tos ccs bccs html ->
  t <> EmptyString ->
  let n := count_token_calls (trace s) in
  (getValidAccessToken w n = TokenValue (Some t) ->
   handleCreateDraft_direct w fuel args s
   = answer_of (opt_chain args "subject") (opt_chain args "body")
       (recipientInfo tos ccs bccs)
       (callGraphAPI w fuel t "POST" (JStr "me/messages")
          (draft_v2 args tos ccs bccs html) (length (heap s)) false (authenticated s)))
  /\ (no_token (getValidAccessToken w n) ->
      getValidAccessToken w (S n) = TokenValue (Some t) ->
      handleCreateDraft_direct w fuel args s
      = answer_of (opt_chain args "subject") (opt_chain args "body")
          (recipientInfo tos ccs bccs)
          (callGraphAPI w fuel t "POST" (JStr "me/messages")
             (draft_v2 args tos ccs bccs html) (length (heap s)) false
             (authenticated_twice s))).
Proof.
  intros Hcontent (Hto & Hcc & Hbcc & Hhtml) Hne. cbv zeta.
  assert (Hf : truthy_str (Some t) = true)
    by (simpl; apply negb_true_iff, String.eqb_neq; exact Hne).
  rewrite (handleCreateDraft_direct_eq _ _ _ Hcontent), token_with_fallback_eq. cbv zeta.
  assert (Hrun : forall s1,
    match create_draft w "Text" [] "me/messages" fuel t (opt_chain args "to")
            (opt_chain args "cc") (opt_chain args "bcc") (opt_chain args "subject")
            (opt_chain args "body") (importance_of args) s1 with
    | (Rejected e, s2) => (Resolved (draft_error_response e), s2)
    | r => r
    end
    = answer_of (opt_chain args "subject") (opt_chain args "body")
        (recipientInfo tos ccs bccs)
        (callGraphAPI w fuel t "POST" (JStr "me/messages")
           (draft_v2 args tos ccs bccs html) (length (heap s1)) false
           {| heap := heap s1 ++ [[]]; trace := trace s1 |})).
  { intros s1. rewrite (create_draft_eq _ _ _ _ _ _ _ _ _ _ _ _ _ _ _ _ Hto Hcc Hbcc Hhtml).
    unfold answer_of, draft_v2.
    destruct (callGraphAPI w fuel t "POST" _ _ _ false _) as [[result|e|] s']; try reflexivity.
    destruct (get_prop result "id"); reflexivity. }
  split.
  - intros Htok. rewrite Htok, Hf. cbn [str_or_empty]. apply Hrun.
  - intros Hno Htok2. rewrite Htok2, Hf. cbn [str_or_empty].
    destruct (getValidAccessToken w (count_token_calls (trace s))) as [fresh|e].
    + simpl in Hno. rewrite Hno. apply Hrun.
    + apply Hrun.
Qed.

Lemma draft_request_url p s :
  is_absolute_url p = false ->
  buildFinalUrl w (JStr p) (length (heap s)) (authenticated s)
  = (Resolved (GRAPH_API_ENDPOINT w ++ encodePath p)%string, authenticated s)
  /\ buildFinalUrl w (JStr p) (length (heap s)) (authenticated_twice s)
     = (Resolved (GRAPH_API_ENDPOINT w ++ encodePath p)%string, authenticated_twice s).
Proof.
  intros Hrel. split; apply buildFinalUrl_fresh_params; try exact Hrel;
    unfold authenticated, authenticated_twice; cbn [heap]; apply nth_middle.
Qed.

Lemma answer_of_state subject body info r : snd (answer_of subject body info r) = snd r.
Proof.
  destruct r as [[result|e|] s']; try reflexivity. simpl.
  destruct (get_prop result "id"); reflexivity.
Qed.

Lemma handlers_without_content fuel args s :
  has_content args = false ->
  (nullish args = false ->
   handleCreateDraft w fuel args s = (Resolved missing_content_response, s))
  /\ handleCreateDraft_direct w fuel args s = (Resolved missing_content_response, s).
Proof.
  intros Hc. unfold has_content in Hc. apply orb_false_iff in Hc. destruct Hc as [Hs Hb].
  split.
  - intros Hargs. unfold handleCreateDraft. rewrite !(destructure_ok _ _ Hargs).
    unfold lift. unfold bind, ret. rewrite Hs, Hb. reflexivity.
  - unfold handleCreateDraft_direct. cbv zeta.
    assert (Hargs : nullish (Some (js_or args (JObj []))) = false).
    { destruct args as [[| [] |z|s0| |]|]; try reflexivity; simpl.
      - destruct (z =? 0)%Z; reflexivity.
      - destruct (s0 =? EmptyString)%string; reflexivity. }
    rewrite !(destructure_ok _ _ Hargs), !opt_chain_or.
    unfold lift. unfold bind, ret. rewrite Hs, Hb. reflexivity.
Qed.

(** Property X14. Without a truthy [subject] or [body] both versions of
    [handleCreateDraft] answer that content is required, before any
    authentication and any request: the state is unchanged. The later
    version does so for missing arguments too. *)
Theorem handleCreateDraft_requires_content fuel args s :
  has_content args = false ->
  (nullish args = false ->
   handleCreateDraft w fuel args s = (Resolved missing_content_response, s))
  /\ handleCreateDraft_direct w fuel args s = (Resolved missing_content_response, s).
Proof. apply handlers_without_content. Qed.

Lemma draft_error_response_is_text e : exists text, draft_error_response e = text_response text.
Proof. unfold draft_error_response. destruct (message e =? _)%string; eexists; reflexivity. Qed.

Ltac error_text :=
  cbn [fst];
  match goal with
  | |- exists _, Resolved (draft_error_response ?e) = _ =>
      destruct (draft_error_response_is_text e) as (? & ->); eexists; reflexivity
  end.

(** Property X15. Given a budget of two calls, [handleCreateDraft] resolves
    with a text response whatever the token storage and the network do,
    provided [args] is not [null] or [undefined]; the later version does so
    for every [args]. On [null] or [undefined] the first version rejects:
    it destructures [args] outside its [try]. *)
Theorem handleCreateDraft_always_answers fuel args s :
  2 <= fuel ->
  (nullish args = false ->
   exists text, fst (handleCreateDraft w fuel args s) = Resolved (text_response text))
  /\ (exists text, fst (handleCreateDraft_direct w fuel args s) = Resolved (text_response text))
  /\ (nullish args = true -> exists e, handleCreateDraft w fuel args s = (Rejected e, s)).
Proof.
  intros Hfuel.
  assert (Hdraft : forall html_no flags endpoint t s1,
    exists text,
      fst (match create_draft w html_no flags endpoint fuel t (opt_chain args "to")
                   (opt_chain args "cc") (opt_chain args "bcc") (opt_chain args "subject")
                   (opt_chain args "body") (importance_of args) s1 with
           | (Rejected e, s2) => (Resolved (draft_error_response e), s2)
           | r => r
           end) = Resolved (text_response text)).
  { intros html_no flags endpoint t s1.
    pose proof (create_draft_outcome html_no flags endpoint fuel t (opt_chain args "to")
                  (opt_chain args "cc") (opt_chain args "bcc") (opt_chain args "subject")
                  (opt_chain args "body") (importance_of args) s1 Hfuel) as H.
    destruct (create_draft w _ _ _ fuel t _ _ _ _ _ _ s1) as [[v|e|] s2]; cbn [fst] in *.
    - destruct H as (text & ->). eauto.
    - error_text.
    - contradiction. }
  destruct (has_content args) eqn:Hc.
  - split; [|split].
    + intros Hargs. rewrite (handleCreateDraft_eq _ _ _ Hargs Hc), ensureAuthenticated_run.
      cbv zeta. destruct (getValidAccessToken w _) as [fresh|e].
      * destruct (truthy_str fresh); [apply Hdraft|error_text].
      * error_text.
    + rewrite (handleCreateDraft_direct_eq _ _ _ Hc), token_with_fallback_eq. cbv zeta.
      assert (Hagain : exists text,
        fst (match
               match getValidAccessToken w (S (count_token_calls (trace s))) with
               | TokenValue fresh =>
                   if truthy_str fresh
                   then (Resolved (str_or_empty fresh),
                         {| heap := heap s;
                            trace := trace s ++ [EvNewTokenStorage; EvGetValidAccessToken;
                                                 EvNewTokenStorage; EvGetValidAccessToken] |})
                   else (Rejected (Error "Authentication required"),
                         {| heap := heap s;
                            trace := trace s ++ [EvNewTokenStorage; EvGetValidAccessToken;
                                                 EvNewTokenStorage; EvGetValidAccessToken] |})
               | TokenThrows e =>
                   (Rejected e,
                    {| heap := heap s;
                       trace := trace s ++ [EvNewTokenStorage; EvGetValidAccessToken;
                                            EvNewTokenStorage; EvGetValidAccessToken] |})
               end
             with
             | (Resolved t, s1) =>
                 match create_draft w "Text" [] "me/messages" fuel t (opt_chain args "to")
                         (opt_chain args "cc") (opt_chain args "bcc")
                         (opt_chain args "subject") (opt_chain args "body")
                         (importance_of args) s1 with
                 | (Rejected e, s2) => (Resolved (draft_error_response e), s2)
                 | r => r
                 end
             | (Rejected e, s1) => (Resolved (draft_error_response e), s1)
             | (OutOfFuel, s1) => (OutOfFuel, s1)
             end) = Resolved (text_response text)).
      { destruct (getValidAccessToken w (S _)) as [fresh|e].
        - destruct (truthy_str fresh); [apply Hdraft|error_text].
        - error_text. }
      destruct (getValidAccessToken w (count_token_calls (trace s))) as [fresh|e].
      * destruct (truthy_str fresh); [apply Hdraft|exact Hagain].
      * exact Hagain.
    + intros Hargs. unfold handleCreateDraft.
      destruct args as [[]|]; try discriminate; eexists; reflexivity.
  - destruct (handlers_without_content fuel args s Hc) as [H1 H2].
    split; [|split].
    + intros Hargs. rewrite (H1 Hargs). eexists. reflexivity.
    + rewrite H2. eexists. reflexivity.
    + intros Hargs. unfold handleCreateDraft.
      destruct args as [[]|]; try discriminate; eexists; reflexivity.
Qed.

(** Property X16. When the token storage has no token, [handleCreateDraft]
    answers [Authentication required. Please use the 'authenticate' tool
    first.]; when it throws, the answer is made from the error. In both
    cases the token storage was built and asked once, and no request was
    sent. *)
Theorem handleCreateDraft_authentication_required fuel args s :
  nullish args = false ->
  has_content args = true ->
  let after := {| heap := heap s;
                  trace := trace s ++ [EvNewTokenStorage; EvGetValidAccessToken] |} in
  (forall fresh,
      getValidAccessToken w (count_token_calls (trace s)) = TokenValue fresh ->
      truthy_str fresh = false ->
      handleCreateDraft w fuel args s
      = (Resolved (text_response
                     "Authentication required. Please use the 'authenticate' tool first."),
         after))
  /\ (forall e,
        getValidAccessToken w (count_token_calls (trace s)) = TokenThrows e ->
        handleCreateDraft w fuel args s = (Resolved (draft_error_response e), after)).
Proof.
  intros Hargs Hc. cbv zeta.
  rewrite (handleCreateDraft_eq _ _ _ Hargs Hc), ensureAuthenticated_run. cbv zeta.
  split.
  - intros fresh -> Hf. rewrite Hf. reflexivity.
  - intros e ->. reflexivity.
Qed.

(** Property X17. With a token and arguments of the right kinds, the first
    request of [handleCreateDraft] is a [POST] to
    [me/mailFolders/drafts/messages] under the Graph endpoint, with the
    token as bearer and the serialised draft as body, sent right after the
    one asking of the token storage. *)
Theorem handleCreateDraft_posts_draft fuel args s t tos ccs bccs html :
  nullish args = false ->
  has_content args = true ->
  getValidAccessToken w (count_token_calls (trace s)) = TokenValue (Some t) ->
  t <> EmptyString ->
  in_test_mode w t = false ->
  well_formed_draft args tos ccs bccs html ->
  exists rest,
    trace (snd (handleCreateDraft w (S fuel) args s))
    = trace s
      ++ [EvNewTokenStorage; EvGetValidAccessToken;
          EvHttp {| req_url := GRAPH_API_ENDPOINT w ++ "me/mailFolders/drafts/messages";
                    req_method := "POST";
                    req_authorization := "Bearer " ++ t;
                    req_body := Some (JSON_stringify w (draft_v1 args tos ccs bccs html)) |}]
      ++ rest.
Proof.
  intros Hargs Hc Htok Hne Hmode Hwf.
  rewrite (handleCreateDraft_run _ _ _ _ _ _ _ _ Hargs Hc Htok Hne Hwf), answer_of_state.
  destruct (draft_request_url "me/mailFolders/drafts/messages" s eq_refl) as [Hurl _].
  destruct (callGraphAPI_first_request fuel t "POST" _ (draft_v1 args tos ccs bccs html) _
              false _ _ _ Hmode Hurl) as (rest & Hrest).
  exists rest. rewrite Hrest. unfold authenticated. cbn [trace].
  rewrite <- app_assoc. reflexivity.
Qed.

Lemma handleCreateDraft_answer fuel args s t tos ccs bccs html st rd :
  nullish args = false ->
  has_content args = true ->
  getValidAccessToken w (count_token_calls (trace s)) = TokenValue (Some t) ->
  t <> EmptyString ->
  in_test_mode w t = false ->
  well_formed_draft args tos ccs bccs html ->
  https_request w (count_http (trace s))
    (draft_request w "me/mailFolders/drafts/messages" t (draft_v1 args tos ccs bccs html))
  = Response st rd ->
  is_2xx st || negb (st =? 401)%Z = true ->
  handleCreateDraft w (S fuel) args s
  = answer_of (opt_chain args "subject") (opt_chain args "body") (recipientInfo tos ccs bccs)
      (settle_final w st rd,
       add_event (authenticated s)
         (EvHttp (draft_request w "me/mailFolders/drafts/messages" t
                    (draft_v1 args tos ccs bccs html)))).
Proof.
  intros Hargs Hc Htok Hne Hmode Hwf Hnet Hst.
  rewrite (handleCreateDraft_run _ _ _ _ _ _ _ _ Hargs Hc Htok Hne Hwf).
  destruct (draft_request_url "me/mailFolders/drafts/messages" s eq_refl) as [Hurl _].
  f_equal. unfold draft_request in *.
  rewrite (callGraphAPI_no_retry w fuel t "POST" _ _ _ false _ _ _ st rd Hmode Hurl).
  - reflexivity.
  - unfold authenticated. cbn [trace]. rewrite count_http_app. unfold count_http at 2.
    cbn [filter is_http length]. rewrite Nat.add_0_r. exact Hnet.
  - cbn [negb]. rewrite andb_true_r. exact Hst.
Qed.

(** Property X18. When the request for the draft is answered 2xx with a body
    that parses, [handleCreateDraft] resolves with the success text, which
    names the subject, the recipients, the [id] of the answer and the length
    of the body; one request was sent. *)
Theorem handleCreateDraft_reports_success fuel args s t tos ccs bccs html st rd result id :
  nullish args = false ->
  has_content args = true ->
  getValidAccessToken w (count_token_calls (trace s)) = TokenValue (Some t) ->
  t <> EmptyString ->
  in_test_mode w t = false ->
  well_formed_draft args tos ccs bccs html ->
  https_request w (count_http (trace s))
    (draft_request w "me/mailFolders/drafts/messages" t (draft_v1 args tos ccs bccs html))
  = Response st rd ->
  is_2xx st = true ->
  JSON_parse w (body_or_empty_object rd) = inr result ->
  get_prop result "id" = inr id ->
  handleCreateDraft w (S fuel) args s
  = (Resolved (text_response
                 (success_text (opt_chain args "subject") (opt_chain args "body")
                    (recipientInfo tos ccs bccs) id)),
     add_event (authenticated s)
       (EvHttp (draft_request w "me/mailFolders/drafts/messages" t
                  (draft_v1 args tos ccs bccs html)))).
Proof.
  intros Hargs Hc Htok Hne Hmode Hwf Hnet Hst Hparse Hid.
  rewrite (handleCreateDraft_answer fuel _ _ _ _ _ _ _ _ _ Hargs Hc Htok Hne Hmode Hwf Hnet)
    by (rewrite Hst; reflexivity).
  unfold answer_of, settle_final. rewrite Hst, Hparse, Hid. reflexivity.
Qed.

(** Property X19. When the request for the draft is answered with a status
    that is neither 2xx nor 401, [handleCreateDraft] resolves with
    [Error creating draft: API call failed with status <status>: <body>];
    one request was sent. *)
Theorem handleCreateDraft_reports_api_error fuel args s t tos ccs bccs html st rd :
  nullish args = false ->
  has_content args = true ->
  getValidAccessToken w (count_token_calls (trace s)) = TokenValue (Some t) ->
  t <> EmptyString ->
  in_test_mode w t = false ->
  well_formed_draft args tos ccs bccs html ->
  https_request w (count_http (trace s))
    (draft_request w "me/mailFolders/drafts/messages" t (draft_v1 args tos ccs bccs html))
  = Response st rd ->
  is_2xx st = false ->
  st <> 401%Z ->
  handleCreateDraft w (S fuel) args s
  = (Resolved (text_response
                 ("Error creating draft: API call failed with status " ++ string_of_Z st
                    ++ ": " ++ rd)),
     add_event (authenticated s)
       (EvHttp (draft_request w "me/mailFolders/drafts/messages" t
                  (draft_v1 args tos ccs bccs html)))).
Proof.
  intros Hargs Hc Htok Hne Hmode Hwf Hnet Hst H401.
  rewrite (handleCreateDraft_answer fuel _ _ _ _ _ _ _ _ _ Hargs Hc Htok Hne Hmode Hwf Hnet).
  - unfold answer_of, settle_final. rewrite Hst. reflexivity.
  - apply Z.eqb_neq in H401. rewrite H401. apply orb_true_r.
Qed.

(** Property X20. When the request for the draft is answered 401 and the
    refresh gives no token or fails, [handleCreateDraft] resolves with
    [Error creating draft: UNAUTHORIZED: ...], not with the invitation to
    authenticate; one request was sent and the token storage was asked
    twice, once by [ensureAuthenticated] and once for the refresh. *)
Theorem handleCreateDraft_reports_failed_refresh fuel args s t tos ccs bccs html rd :
  nullish args = false ->
  has_content args = true ->
  getValidAccessToken w (count_token_calls (trace s)) = TokenValue (Some t) ->
  t <> EmptyString ->
  in_test_mode w t = false ->
  well_formed_draft args tos ccs bccs html ->
  https_request w (count_http (trace s))
    (draft_request w "me/mailFolders/drafts/messages" t (draft_v1 args tos ccs bccs html))
  = Response 401 rd ->
  no_token (getValidAccessToken w (S (count_token_calls (trace s)))) ->
  exists why,
    handleCreateDraft w (S fuel) args s
    = (Resolved (text_response ("Error creating draft: UNAUTHORIZED: " ++ why)),
       add_event
         (add_event (authenticated s)
            (EvHttp (draft_request w "me/mailFolders/drafts/messages" t
                       (draft_v1 args tos ccs bccs html))))
         EvGetValidAccessToken).
Proof.
  intros Hargs Hc Htok Hne Hmode Hwf Hnet Hno.
  rewrite (handleCreateDraft_run _ _ _ _ _ _ _ _ Hargs Hc Htok Hne Hwf).
  destruct (draft_request_url "me/mailFolders/drafts/messages" s eq_refl) as [Hurl _].
  change (encodePath "me/mailFolders/drafts/messages")
    with "me/mailFolders/drafts/messages" in Hurl.
  rewrite callGraphAPI_eq. cbv zeta. rewrite Hmode, Hurl. unfold draft_request in *.
  assert (Hcount : count_http (trace (authenticated s)) = count_http (trace s)).
  { unfold authenticated. cbn [trace]. rewrite count_http_app. unfold count_http at 2.
    cbn [filter is_http length]. apply Nat.add_0_r. }
  rewrite Hcount, Hnet, on_end_401. cbv zeta. cbn [trace heap].
  assert (Htokens : count_token_calls (trace (authenticated s) ++ [EvHttp
             (make_request w (GRAPH_API_ENDPOINT w ++ "me/mailFolders/drafts/messages")
                t "POST" (draft_v1 args tos ccs bccs html))])
           = S (count_token_calls (trace s))).
  { unfold authenticated. cbn [trace]. rewrite !count_token_calls_app.
    unfold count_token_calls at 2 3. cbn [filter is_token_call length]. lia. }
  rewrite Htokens.
  destruct (getValidAccessToken w (S _)) as [fresh|e]; cbn [no_token] in Hno.
  - rewrite Hno. eexists. reflexivity.
  - exists (message e). reflexivity.
Qed.

(** Property X21. In the later version of [handleCreateDraft], when
    [ensureAuthenticated] fails and a second token storage, built on the
    spot, hands out a token, the draft is posted with that token, to
    [me/messages], as the first request. *)
Theorem handleCreateDraft_direct_second_chance fuel args s t tos ccs bccs html :
  has_content args = true ->
  well_formed_draft args tos ccs bccs html ->
  t <> EmptyString ->
  in_test_mode w t = false ->
  no_token (getValidAccessToken w (count_token_calls (trace s))) ->
  getValidAccessToken w (S (count_token_calls (trace s))) = TokenValue (Some t) ->
  exists rest,
    trace (snd (handleCreateDraft_direct w (S fuel) args s))
    = trace s
      ++ [EvNewTokenStorage; EvGetValidAccessToken;
          EvNewTokenStorage; EvGetValidAccessToken;
          EvHttp {| req_url := GRAPH_API_ENDPOINT w ++ "me/messages";
                    req_method := "POST";
                    req_authorization := "Bearer " ++ t;
                    req_body := Some (JSON_stringify w (draft_v2 args tos ccs bccs html)) |}]
      ++ rest.
Proof.
  intros Hc Hwf Hne Hmode Hno Htok.
  destruct (handleCreateDraft_direct_run (S fuel) args s t tos ccs bccs html Hc Hwf Hne)
    as [_ Hrun].
  rewrite (Hrun Hno Htok), answer_of_state.
  destruct (draft_request_url "me/messages" s eq_refl) as [_ Hurl].
  destruct (callGraphAPI_first_request fuel t "POST" _ (draft_v2 args tos ccs bccs html) _
              false _ _ _ Hmode Hurl) as (rest & Hrest).
  exists rest. rewrite Hrest. unfold authenticated_twice. cbn [trace].
  rewrite <- app_assoc. reflexivity.
Qed.

(** Property X22. In the later version of [handleCreateDraft], when both
    askings for a token fail, no request is sent and the answer is made from
    the second failure alone: the invitation to authenticate when no token
    came, the error of the second token storage when it threw. The failure
    of [ensureAuthenticated] is not reported. *)
Theorem handleCreateDraft_direct_authentication_required fuel args s :
  has_content args = true ->
  no_token (getValidAccessToken w (count_token_calls (trace s))) ->
  no_token (getValidAccessToken w (S (count_token_calls (trace s)))) ->
  handleCreateDraft_direct w fuel args s
  = (Resolved
       (draft_error_response
          match getValidAccessToken w (S (count_token_calls (trace s))) with
          | TokenValue _ => Error "Authentication required"
          | TokenThrows e => e
          end),
     {| heap := heap s;
        trace := trace s ++ [EvNewTokenStorage; EvGetValidAccessToken;
                             EvNewTokenStorage; EvGetValidAccessToken] |}).
Proof.
  intros Hc Hno1 Hno2.
  rewrite (handleCreateDraft_direct_eq _ _ _ Hc), token_with_fallback_eq. cbv zeta.
  destruct (getValidAccessToken w (count_token_calls (trace s))) as [fresh1|e1];
    cbn [no_token] in Hno1; try rewrite Hno1;
    destruct (getValidAccessToken w (S _)) as [fresh2|e2];
    cbn [no_token] in Hno2; try rewrite Hno2; reflexivity.
Qed.

End DraftFacts.

Lemma split_on_aux_length sep s : forall cur,
  length (split_on_aux sep cur s) = S (count_char sep s).
Proof.
  induction s as [|c rest IH]; intros cur; simpl.
  - reflexivity.
  - destruct (Ascii.eqb c sep); simpl; rewrite IH; reflexivity.
Qed.

(** Property X23. A non-empty recipient string gives one recipient per
    comma-separated piece, that is one more than it has commas; each is the
    trimmed piece, and an empty or blank piece is kept, as a recipient with
    an empty address. *)
Theorem parse_recipients_count name s :
  s <> EmptyString ->
  exists recipients,
    parse_recipients name (Some (JStr s)) = inr recipients
    /\ length recipients = S (count_char "," s)
    /\ forall i piece, nth_error (split_on "," s) i = Some piece ->
         nth_error recipients i
         = Some (JObj [("emailAddress", JObj [("address", JStr (trim piece))])]).
Proof.
  intros Hne. unfold parse_recipients.
  assert (Ht : truthy (JStr s) = true)
    by (simpl; apply negb_true_iff, String.eqb_neq; exact Hne).
  rewrite Ht. eexists. split; [reflexivity|]. split.
  - rewrite length_map. apply split_on_aux_length.
  - intros i piece Hi. rewrite nth_error_map, Hi. reflexivity.
Qed.

(* ===================================================================== *)
(** ** Properties of the request handlers of [index.js] *)
(* ===================================================================== *)

Section ServerFacts.
Local Open Scope list_scope.

Variable SERVER_NAME SERVER_VERSION : string.

Lemma find_tool_first before t after n :
  Forall (fun t' => tool_name t' <> n) before ->
  tool_name t = n ->
  find_tool (before ++ t :: after) (Some (JStr n)) = Some t.
Proof.
  intros Hbefore Hname. induction Hbefore as [|t' before' Hneq _ IH]; simpl.
  - rewrite Hname, String.eqb_refl. reflexivity.
  - apply String.eqb_neq in Hneq. rewrite Hneq. exact IH.
Qed.

Lemma find_tool_none TOOLS name :
  (forall t, In t TOOLS -> Some (JStr (tool_name t)) <> name) ->
  find_tool TOOLS name = None.
Proof.
  induction TOOLS as [|t rest IH]; intros Hnone; simpl; [reflexivity|].
  assert (Hrest : find_tool rest name = None)
    by (apply IH; intros t' Hin; apply Hnone; right; exact Hin).
  destruct name as [[| | |n| |]|]; try exact Hrest.
  destruct (tool_name t =? n)%string eqn:Heq; [|exact Hrest].
  apply String.eqb_eq in Heq. exfalso. apply (Hnone t); [left; reflexivity|].
  rewrite Heq. reflexivity.
Qed.

Lemma call_arguments_not_nullish params : nullish (Some (call_arguments params)) = false.
Proof.
  unfold call_arguments.
  destruct (js_coalesce _ _) as [j|] eqn:Hfound; [|reflexivity].
  destruct (nullish (Some j)) eqn:Hn; [reflexivity|exact Hn].
Qed.

(** Property X24. A [tools/call] runs the handler of the first tool of the
    requested name, on the arguments found under [arguments], [input],
    [params.arguments] or [params.input], which are never [null] or
    [undefined]; when the handler rejects, the call resolves with error
    code -32603 and the message of the rejection. *)
Theorem tools_call_first_match before t after n handler params s :
  opt_chain params "name" = Some (JStr n) ->
  Forall (fun t' => tool_name t' <> n) before ->
  tool_name t = n ->
  tool_handler t = Some handler ->
  tools_call (before ++ t :: after) params s
  = match handler (call_arguments params) s with
    | (Rejected error, s') =>
        (Resolved (rpc_error (-32603) ("Error processing tool call: " ++ message error)), s')
    | r => r
    end
  /\ nullish (Some (call_arguments params)) = false.
Proof.
  intros Hname Hbefore Ht Hhandler. split; [|apply call_arguments_not_nullish].
  unfold tools_call, try_catch. cbv zeta. rewrite opt_chain_or, Hname.
  rewrite (find_tool_first before t after n Hbefore Ht).
  destruct t as [tn td ts th]. cbn [tool_handler] in Hhandler. subst th.
  destruct (handler (call_arguments params) s) as [[v|e|] s']; reflexivity.
Qed.

(** Property X25. When every tool of the requested name lacks a handler,
    in particular when no tool has that name, a [tools/call] resolves with
    error code -32601 and [Tool not found: <name>], and nothing else
    happens. *)
Theorem tools_call_unknown_tool TOOLS params s :
  (forall t, In t TOOLS ->
     Some (JStr (tool_name t)) = opt_chain params "name" -> tool_handler t = None) ->
  tools_call TOOLS params s
  = (Resolved (rpc_error (-32601)
                 ("Tool not found: " ++ js_toString_opt (opt_chain params "name"))), s).
Proof.
  intros Hnone. unfold tools_call, try_catch. cbv zeta. rewrite opt_chain_or.
  destruct (find_tool TOOLS (opt_chain params "name")) as [[tn td ts [h|]]|] eqn:Hfind;
    try reflexivity.
  exfalso.
  assert (Hfound : forall TOOLS' name t, find_tool TOOLS' name = Some t ->
            In t TOOLS' /\ Some (JStr (tool_name t)) = name).
  { clear. induction TOOLS' as [|t' rest IH]; intros name t Hf; simpl in Hf; [discriminate|].
    destruct name as [[| | |n| |]|];
      try (destruct (IH _ _ Hf) as [Hin Heq]; split; [right; exact Hin|exact Heq]).
    destruct (tool_name t' =? n)%string eqn:Heq.
    - injection Hf as <-. apply String.eqb_eq in Heq. split; [left; reflexivity|].
      rewrite Heq. reflexivity.
    - destruct (IH _ _ Hf) as [Hin Heq']; split; [right; exact Hin|exact Heq']. }
  destruct (Hfound _ _ _ Hfind) as [Hin Heq].
  specialize (Hnone _ Hin Heq). discriminate Hnone.
Qed.

(** Property X26. [fallbackRequestHandler] never rejects, whatever the
    request and the tools; and on every request that is not a [tools/call]
    it resolves without any effect. *)
Theorem fallbackRequestHandler_never_rejects TOOLS request s :
  (forall error,
     fst (fallbackRequestHandler SERVER_NAME SERVER_VERSION TOOLS request s)
     <> Rejected error)
  /\ (calls_tool request = false ->
      exists response,
        fallbackRequestHandler SERVER_NAME SERVER_VERSION TOOLS request s
        = (Resolved response, s)).
Proof.
  split.
  - intros error. unfold fallbackRequestHandler. unfold try_catch at 1.
    destruct (bind _ _ s) as [[v|e|] s']; cbn [fst]; discriminate.
  - unfold calls_tool, fallbackRequestHandler. unfold try_catch at 1. unfold bind, lift, ret.
    destruct (destructure_request request "method") as [e|method];
      [intros _; eexists; reflexivity|].
    destruct (destructure_request request "params") as [e|params];
      [intros _; eexists; reflexivity|].
    intros Hcall. rewrite Hcall.
    destruct (is_method method "initialize"); [eexists; reflexivity|].
    destruct (is_method method "tools/list"); [eexists; reflexivity|].
    destruct (is_method method "resources/list"); [eexists; reflexivity|].
    destruct (is_method method "prompts/list"); eexists; reflexivity.
Qed.

End ServerFacts.



(* ===================================================================== *)
(** ** The further properties at work *)
(* ===================================================================== *)

Lemma callGraphAPI_network_error_witness :
  let w := world_of false (always (NetworkError "ECONNRESET")) (token_from 0 "token") in
  in_test_mode w "token" = false
  /\ callGraphAPI w 1 "token" "GET" (JStr "me/messages") JNull 0 false empty_state
     = (Rejected (Error "Network error during API call: ECONNRESET"),
        {| heap := [[]];
           trace := [EvHttp {| req_url := "https://graph.microsoft.com/v1.0/me/messages";
                               req_method := "GET";
                               req_authorization := "Bearer token";
                               req_body := None |}] |}).
Proof.
  cbv zeta. split; [reflexivity|].
  exact (callGraphAPI_network_error
           (world_of false (always (NetworkError "ECONNRESET")) (token_from 0 "token"))
           0 "token" "GET" (JStr "me/messages") JNull 0 false empty_state
           "https://graph.microsoft.com/v1.0/me/messages" empty_state "ECONNRESET"
           eq_refl eq_refl eq_refl).
Defined.

Lemma callGraphAPI_refresh_failure_witness :
  let w := world_of false (always (Response 401 "expired")) (token_until 0 "token") in
  in_test_mode w "stale" = false
  /\ getValidAccessToken w 0 = TokenValue None
  /\ callGraphAPI w 1 "stale" "GET" (JStr "me/messages") JNull 0 false empty_state
     = (Rejected (Error "UNAUTHORIZED: refresh failed or no refresh_token"),
        {| heap := [[]];
           trace := [EvHttp {| req_url := "https://graph.microsoft.com/v1.0/me/messages";
                               req_method := "GET";
                               req_authorization := "Bearer stale";
                               req_body := None |};
                     EvGetValidAccessToken] |}).
Proof.
  cbv zeta. split; [reflexivity|]. split; [reflexivity|].
  destruct (callGraphAPI_refresh_failure
              (world_of false (always (Response 401 "expired")) (token_until 0 "token"))
              0 "stale" "GET" (JStr "me/messages") JNull 0 empty_state
              "https://graph.microsoft.com/v1.0/me/messages" empty_state "expired"
              eq_refl eq_refl eq_refl) as [H _].
  exact (H None eq_refl eq_refl).
Defined.

Lemma callGraphAPI_recovers_witness :
  in_test_mode world_401_then_200 "stale-token" = false
  /\ "fresh-token" <> EmptyString
  /\ callGraphAPI world_401_then_200 2 "stale-token" "GET" (JStr "me/messages") JNull 0 false
       empty_state
     = (Resolved (JObj []),
        {| heap := [[]];
           trace := [EvHttp {| req_url := "https://graph.microsoft.com/v1.0/me/messages";
                               req_method := "GET";
                               req_authorization := "Bearer stale-token";
                               req_body := None |};
                     EvGetValidAccessToken;
                     EvHttp {| req_url := "https://graph.microsoft.com/v1.0/me/messages";
                               req_method := "GET";
                               req_authorization := "Bearer fresh-token";
                               req_body := None |}] |}).
Proof.
  assert (H : "fresh-token" <> EmptyString) by discriminate.
  split; [reflexivity|]. split; [exact H|].
  exact (callGraphAPI_recovers world_401_then_200 0 "stale-token" "GET" (JStr "me/messages")
           JNull 0 empty_state "https://graph.microsoft.com/v1.0/me/messages" empty_state
           "expired" "fresh-token" "https://graph.microsoft.com/v1.0/me/messages" empty_state
           200%Z EmptyString (JObj [])
           eq_refl eq_refl eq_refl eq_refl eq_refl H eq_refl eq_refl eq_refl eq_refl).
Defined.

Lemma callGraphAPI_resolves_from_2xx_witness :
  let run := callGraphAPI (world_always 200 EmptyString) 1 "token" "GET" (JStr "me/messages")
               JNull 0 false empty_state in
  USE_TEST_MODE (world_always 200 EmptyString) = false
  /\ fst run = Resolved (JObj [])
  /\ exists before r after st rd,
       trace (snd run) = (before ++ EvHttp r :: after)%list
       /\ https_request (world_always 200 EmptyString) (count_http before) r = Response st rd
       /\ is_2xx st = true
       /\ JSON_parse (world_always 200 EmptyString) (body_or_empty_object rd) = inr (JObj []).
Proof.
  cbv zeta. split; [reflexivity|]. split; [reflexivity|].
  exact (callGraphAPI_resolves_from_2xx (world_always 200 EmptyString) 1 "token" "GET"
           (JStr "me/messages") JNull 0 false empty_state (JObj []) eq_refl eq_refl).
Defined.

Lemma test_mode_stays_offline_witness :
  let w := world_of true (always (NetworkError "unreachable")) (token_from 0 "token") in
  in_test_mode w "test_access_token_1" = true
  /\ exists evs,
       trace (snd (callGraphAPIPaginated w 3 "test_access_token_1" "GET" (JStr "me/messages")
                     0 0 empty_state))
       = (trace empty_state ++ evs)%list
       /\ Forall offline evs.
Proof.
  cbv zeta. split; [reflexivity|].
  destruct (test_mode_stays_offline
              (world_of true (always (NetworkError "unreachable")) (token_from 0 "token"))
              "test_access_token_1" eq_refl) as [_ H].
  exact (H 3 "GET" (JStr "me/messages") 0 0%Z empty_state).
Defined.

Lemma callGraphAPIPaginated_result_shape_witness :
  fst (callGraphAPIPaginated world_three_pages 3 "token" "GET" (JStr "me/messages") 0 3
         empty_state)
  = Resolved (JObj [("value", JArr [JNum 1; JNum 2; JNum 3]); ("@odata.count", JNum 3)])
  /\ exists items,
       JObj [("value", JArr [JNum 1; JNum 2; JNum 3]); ("@odata.count", JNum 3)]
       = JObj [("value", JArr items); ("@odata.count", JNum (Z.of_nat (length items)))]
       /\ ((0 < 3)%Z -> (Z.of_nat (length items) <= 3)%Z).
Proof.
  split; [reflexivity|].
  destruct (callGraphAPIPaginated_result_shape world_three_pages 3 "token" "GET"
              (JStr "me/messages") 0 3%Z empty_state
              (JObj [("value", JArr [JNum 1; JNum 2; JNum 3]); ("@odata.count", JNum 3)])
              eq_refl) as [_ H].
  exact H.
Defined.

Lemma callGraphAPIPaginated_follows_cursors_forever_witness :
  let w := world_of false (always (Response 200 "<more>")) (token_from 0 "token") in
  let run := callGraphAPIPaginated w 50 "token" "GET" (JStr "me/messages") 0 0 empty_state in
  in_test_mode w "token" = false
  /\ fst run = OutOfFuel
  /\ count_http (trace (snd run)) = 50.
Proof.
  cbv zeta. split; [reflexivity|].
  assert (Hmax : (0 <= 0)%Z) by lia.
  apply (callGraphAPIPaginated_follows_cursors_forever
           (world_of false (always (Response 200 "<more>")) (token_from 0 "token"))
           "token" 0%Z eq_refl Hmax).
  intros n r.
  exists 200%Z, "<more>", endless_page, (Some (JArr [JNum 1])),
         "https://graph.microsoft.com/v1.0/me/messages?$skip=1".
  repeat split; reflexivity.
Defined.

Lemma encodePath_unreserved_witness :
  string_forall (fun c => uri_unreserved c || Ascii.eqb c "/") "me/mailFolders/drafts/messages"
  = true
  /\ encodePath "me/mailFolders/drafts/messages" = "me/mailFolders/drafts/messages".
Proof.
  split; [reflexivity|].
  exact (encodePath_unreserved "me/mailFolders/drafts/messages" eq_refl).
Defined.

Lemma handleCreateDraft_requires_content_witness :
  let w := world_of false (always (Response 201 "<draft>")) (token_from 0 "token") in
  let args := Some (JObj [("to", JStr "ann@example.com"); ("subject", JStr EmptyString)]) in
  has_content args = false
  /\ handleCreateDraft w 2 args empty_state = (Resolved missing_content_response, empty_state)
  /\ handleCreateDraft_direct w 2 args empty_state
     = (Resolved missing_content_response, empty_state).
Proof.
  cbv zeta. split; [reflexivity|].
  destruct (handleCreateDraft_requires_content
              (world_of false (always (Response 201 "<draft>")) (token_from 0 "token")) 2
              (Some (JObj [("to", JStr "ann@example.com"); ("subject", JStr EmptyString)]))
              empty_state eq_refl) as [H1 H2].
  split; [exact (H1 eq_refl)|exact H2].
Defined.

Lemma handleCreateDraft_always_answers_witness :
  let w := world_of false (always (NetworkError "ECONNRESET")) (token_from 0 "token") in
  2 <= 2
  /\ (exists text, fst (handleCreateDraft w 2 draft_args empty_state)
                   = Resolved (text_response text))
  /\ (exists text, fst (handleCreateDraft_direct w 2 None empty_state)
                   = Resolved (text_response text))
  /\ (exists e, handleCreateDraft w 2 None empty_state = (Rejected e, empty_state)).
Proof.
  cbv zeta. split; [lia|].
  destruct (handleCreateDraft_always_answers
              (world_of false (always (NetworkError "ECONNRESET")) (token_from 0 "token")) 2
              draft_args empty_state (le_n 2)) as (H1 & _ & _).
  destruct (handleCreateDraft_always_answers
              (world_of false (always (NetworkError "ECONNRESET")) (token_from 0 "token")) 2
              None empty_state (le_n 2)) as (_ & H2 & H3).
  split; [exact (H1 eq_refl)|]. split; [exact H2|exact (H3 eq_refl)].
Defined.

Lemma handleCreateDraft_authentication_required_witness :
  let w := world_of false (always (Response 201 "<draft>")) (token_until 0 "token") in
  nullish draft_args = false
  /\ has_content draft_args = true
  /\ handleCreateDraft w 2 draft_args empty_state
     = (Resolved (text_response
                    "Authentication required. Please use the 'authenticate' tool first."),
        {| heap := [[]]; trace := [EvNewTokenStorage; EvGetValidAccessToken] |}).
Proof.
  cbv zeta. split; [reflexivity|]. split; [reflexivity|].
  destruct (handleCreateDraft_authentication_required
              (world_of false (always (Response 201 "<draft>")) (token_until 0 "token")) 2
              draft_args empty_state eq_refl eq_refl) as [H _].
  exact (H None eq_refl eq_refl).
Defined.

Lemma handleCreateDraft_posts_draft_witness :
  let w := world_of false (always (Response 201 "<draft>")) (token_from 0 "token") in
  well_formed_draft draft_args draft_tos [] [] false
  /\ "token" <> EmptyString
  /\ exists rest,
       trace (snd (handleCreateDraft w 2 draft_args empty_state))
       = ([EvNewTokenStorage; EvGetValidAccessToken;
          EvHttp {| req_url := "https://graph.microsoft.com/v1.0/me/mailFolders/drafts/messages";
                    req_method := "POST";
                    req_authorization := "Bearer token";
                    req_body := Some "{}" |}]
         ++ rest)%list.
Proof.
  cbv zeta.
  assert (Hwf : well_formed_draft draft_args draft_tos [] [] false)
    by (repeat split; reflexivity).
  assert (Hne : "token" <> EmptyString) by discriminate.
  split; [exact Hwf|]. split; [exact Hne|].
  exact (handleCreateDraft_posts_draft
           (world_of false (always (Response 201 "<draft>")) (token_from 0 "token")) 1
           draft_args empty_state "token" draft_tos [] [] false
           eq_refl eq_refl eq_refl Hne eq_refl Hwf).
Defined.

Lemma handleCreateDraft_reports_success_witness :
  let w := world_of false (always (Response 201 "<draft>")) (token_from 0 "token") in
  well_formed_draft draft_args draft_tos [] [] false
  /\ "token" <> EmptyString
  /\ fst (handleCreateDraft w 2 draft_args empty_state)
     = Resolved (text_response
                   (success_text (Some (JStr "Hello")) (Some (JStr "See you on Monday."))
                      (recipientInfo draft_tos [] []) (Some (JStr "AAMkAGI2")))).
Proof.
  cbv zeta.
  assert (Hwf : well_formed_draft draft_args draft_tos [] [] false)
    by (repeat split; reflexivity).
  assert (Hne : "token" <> EmptyString) by discriminate.
  split; [exact Hwf|]. split; [exact Hne|].
  rewrite (handleCreateDraft_reports_success
             (world_of false (always (Response 201 "<draft>")) (token_from 0 "token")) 1
             draft_args empty_state "token" draft_tos [] [] false 201%Z "<draft>" draft_saved
             (Some (JStr "AAMkAGI2"))
             eq_refl eq_refl eq_refl Hne eq_refl Hwf eq_refl eq_refl eq_refl eq_refl).
  reflexivity.
Defined.

Lemma handleCreateDraft_reports_api_error_witness :
  let w := world_of false (always (Response 403 "denied")) (token_from 0 "token") in
  well_formed_draft draft_args draft_tos [] [] false
  /\ "token" <> EmptyString
  /\ 403%Z <> 401%Z
  /\ fst (handleCreateDraft w 2 draft_args empty_state)
     = Resolved (text_response
                   "Error creating draft: API call failed with status 403: denied").
Proof.
  cbv zeta.
  assert (Hwf : well_formed_draft draft_args draft_tos [] [] false)
    by (repeat split; reflexivity).
  assert (Hne : "token" <> EmptyString) by discriminate.
  assert (Hst : 403%Z <> 401%Z) by lia.
  split; [exact Hwf|]. split; [exact Hne|]. split; [exact Hst|].
  rewrite (handleCreateDraft_reports_api_error
             (world_of false (always (Response 403 "denied")) (token_from 0 "token")) 1
             draft_args empty_state "token" draft_tos [] [] false 403%Z "denied"
             eq_refl eq_refl eq_refl Hne eq_refl Hwf eq_refl eq_refl Hst).
  reflexivity.
Defined.

Lemma handleCreateDraft_reports_failed_refresh_witness :
  let w := world_of false (always (Response 401 "expired")) (token_until 1 "token") in
  well_formed_draft draft_args draft_tos [] [] false
  /\ "token" <> EmptyString
  /\ no_token (getValidAccessToken w 1)
  /\ exists why,
       fst (handleCreateDraft w 2 draft_args empty_state)
       = Resolved (text_response ("Error creating draft: UNAUTHORIZED: " ++ why)).
Proof.
  cbv zeta.
  assert (Hwf : well_formed_draft draft_args draft_tos [] [] false)
    by (repeat split; reflexivity).
  assert (Hne : "token" <> EmptyString) by discriminate.
  split; [exact Hwf|]. split; [exact Hne|]. split; [reflexivity|].
  destruct (handleCreateDraft_reports_failed_refresh
              (world_of false (always (Response 401 "expired")) (token_until 1 "token")) 1
              draft_args empty_state "token" draft_tos [] [] false "expired"
              eq_refl eq_refl eq_refl Hne eq_refl Hwf eq_refl eq_refl) as (why & H).
  exists why. rewrite H. reflexivity.
Defined.

Lemma handleCreateDraft_direct_second_chance_witness :
  let w := world_of false (always (Response 201 "<draft>")) (token_from 1 "token") in
  well_formed_draft draft_args draft_tos [] [] false
  /\ "token" <> EmptyString
  /\ no_token (getValidAccessToken w 0)
  /\ exists rest,
       trace (snd (handleCreateDraft_direct w 2 draft_args empty_state))
       = ([EvNewTokenStorage; EvGetValidAccessToken;
          EvNewTokenStorage; EvGetValidAccessToken;
          EvHttp {| req_url := "https://graph.microsoft.com/v1.0/me/messages";
                    req_method := "POST";
                    req_authorization := "Bearer token";
                    req_body := Some "{}" |}]
         ++ rest)%list.
Proof.
  cbv zeta.
  assert (Hwf : well_formed_draft draft_args draft_tos [] [] false)
    by (repeat split; reflexivity).
  assert (Hne : "token" <> EmptyString) by discriminate.
  split; [exact Hwf|]. split; [exact Hne|]. split; [reflexivity|].
  exact (handleCreateDraft_direct_second_chance
           (world_of false (always (Response 201 "<draft>")) (token_from 1 "token")) 1
           draft_args empty_state "token" draft_tos [] [] false
           eq_refl Hwf Hne eq_refl eq_refl eq_refl).
Defined.

Lemma handleCreateDraft_direct_authentication_required_witness :
  let w := world_of false (always (Response 201 "<draft>")) (token_until 0 "token") in
  has_content draft_args = true
  /\ no_token (getValidAccessToken w 0)
  /\ no_token (getValidAccessToken w 1)
  /\ handleCreateDraft_direct w 2 draft_args empty_state
     = (Resolved (text_response
                    "Authentication required. Please use the 'authenticate' tool first."),
        {| heap := [[]];
           trace := [EvNewTokenStorage; EvGetValidAccessToken;
                     EvNewTokenStorage; EvGetValidAccessToken] |}).
Proof.
  cbv zeta. split; [reflexivity|]. split; [reflexivity|]. split; [reflexivity|].
  exact (handleCreateDraft_direct_authentication_required
           (world_of false (always (Response 201 "<draft>")) (token_until 0 "token")) 2
           draft_args empty_state eq_refl eq_refl eq_refl).
Defined.

Lemma parse_recipients_count_witness :
  "ann@example.com, ,bob@example.com" <> EmptyString
  /\ exists recipients,
       parse_recipients "to" (Some (JStr "ann@example.com, ,bob@example.com")) = inr recipients
       /\ length recipients = 3
       /\ nth_error recipients 1
          = Some (JObj [("emailAddress", JObj [("address", JStr EmptyString)])]).
Proof.
  assert (Hne : "ann@example.com, ,bob@example.com" <> EmptyString) by discriminate.
  split; [exact Hne|].
  destruct (parse_recipients_count "to" "ann@example.com, ,bob@example.com" Hne)
    as (recipients & Hparse & Hlen & Hnth).
  exists recipients. split; [exact Hparse|]. split; [exact Hlen|].
  exact (Hnth 1 " " eq_refl).
Defined.

Lemma tools_call_first_match_witness :
  let params := Some (JObj [("name", JStr "create-draft");
                            ("input", JObj [("subject", JStr "Hello")])]) in
  opt_chain params "name" = Some (JStr "create-draft")
  /\ tools_call sample_tools params empty_state
     = (Resolved (JObj [("subject", JStr "Hello")]), empty_state).
Proof.
  cbv zeta. split; [reflexivity|].
  assert (Hbefore : Forall (fun t' => tool_name t' <> "create-draft")
                      [mkTool "list-emails" (JStr "List emails") (JObj []) None]).
  { constructor; [|constructor]. simpl. discriminate. }
  destruct (tools_call_first_match
              [mkTool "list-emails" (JStr "List emails") (JObj []) None]
              (mkTool "create-draft" (JStr "Create a draft") (JObj [])
                 (Some (fun args => ret args)))
              [mkTool "create-draft" (JStr "Create a draft") (JObj [])
                 (Some (fun _ => throw (Error "unreachable")))]
              "create-draft" (fun args => ret args)
              (Some (JObj [("name", JStr "create-draft");
                           ("input", JObj [("subject", JStr "Hello")])]))
              empty_state eq_refl Hbefore eq_refl eq_refl) as [H _].
  exact H.
Defined.

Lemma tools_call_unknown_tool_witness :
  tools_call sample_tools (Some (JObj [("name", JStr "list-emails")])) empty_state
  = (Resolved (rpc_error (-32601) "Tool not found: list-emails"), empty_state).
Proof.
  apply (tools_call_unknown_tool sample_tools (Some (JObj [("name", JStr "list-emails")]))
           empty_state).
  intros t Hin Hname. simpl in Hin.
  destruct Hin as [<-|[<-|[<-|[]]]]; [reflexivity|discriminate Hname|discriminate Hname].
Defined.

Lemma fallbackRequestHandler_never_rejects_witness :
  let request := Some (JObj [("method", JStr "ping"); ("id", JNum 7)]) in
  calls_tool request = false
  /\ exists response,
       fallbackRequestHandler "outlook" "1.0.0" sample_tools request empty_state
       = (Resolved response, empty_state).
Proof.
  cbv zeta. split; [reflexivity|].
  destruct (fallbackRequestHandler_never_rejects "outlook" "1.0.0" sample_tools
              (Some (JObj [("method", JStr "ping"); ("id", JNum 7)])) empty_state) as [_ H].
  exact (H eq_refl).
Defined.


(* ===================================================================== *)
(** ** The retry and the cursor, seen from the caller *)
(* ===================================================================== *)

Section CallerFacts.
Context (w : World).
Local Open Scope list_scope.



Lemma paginate_loop_after gas tok m maxCount fuel :
  forall i st s st' s',
    loop_after w gas tok m maxCount i st s = Some (st', s') ->
    paginate_loop w (i + fuel) gas tok m maxCount st s
    = paginate_loop w fuel gas tok m maxCount st' s'.
Proof.
  induction i as [|i IH]; intros st s st' s' H; simpl in H.
  - injection H as <- <-. reflexivity.
  - cbn [Nat.add paginate_loop]. unfold bind at 1.
    destruct (page_iteration w gas tok m maxCount st s) as [[[items|st1]|e|] s1];
      try discriminate.
    apply IH. exact H.
Qed.

Lemma paginate_loop_starts fuel gas tok m maxCount st s :
  exists more,
    trace (snd (paginate_loop w (S fuel) gas tok m maxCount st s))
    = trace (snd (callGraphAPI w gas tok m (currentUrl st) JNull (currentParams st) false s))
      ++ more.
Proof.
  cbn [paginate_loop]. unfold bind at 1.
  pose proof (page_iteration_trace w gas tok m maxCount st s) as Ht.
  destruct (page_iteration w gas tok m maxCount st s) as [[[items|st1]|e|] s1];
    cbn [snd] in Ht; rewrite <- Ht;
    try (exists []; cbn [snd ret]; rewrite app_nil_r; reflexivity).
  destruct (paginate_loop_Forall w (sends w m JNull) gas tok m maxCount
              (fun cur q0 s0 => callGraphAPI_events_send w gas tok m cur JNull q0 false s0)
              fuel st1 s1) as (evs & Hevs & _).
  exists evs. exact Hevs.
Qed.

Lemma callGraphAPIPaginated_trace fuel tok path q maxCount s :
  trace (snd (callGraphAPIPaginated w fuel tok "GET" path q maxCount s))
  = trace (snd (paginate_loop w fuel fuel tok "GET" maxCount
                  {| allItems := []; currentUrl := path; currentParams := q |} s)).
Proof.
  unfold callGraphAPIPaginated. cbn [String.eqb Ascii.eqb Bool.eqb negb]. unfold bind.
  destruct (paginate_loop w fuel fuel tok "GET" maxCount _ s) as [[items|e|] s1]; reflexivity.
Qed.

(** Claim C6. Let the loop of [callGraphAPIPaginated] have made [i]
    passes that went on to a next page, and let the call of its next pass
    resolve with a response that carries a truthy [@odata.nextLink], the
    bound not being reached. Then pagination continues, and what
    [callGraphAPIPaginated] does next, right after the events of that call,
    is aimed at the cursor as it came: in test mode a simulated call with
    the cursor as its path and an empty query-parameter object; otherwise,
    for a cursor that is an absolute URL, a [GET] without a body to exactly
    that URL, nothing encoded, nothing appended. *)
Theorem cursor_followed_verbatim fuel tok path q maxCount s i st si response s1 value link :
  loop_after w fuel tok "GET" maxCount i
    {| allItems := []; currentUrl := path; currentParams := q |} s = Some (st, si) ->
  i + 2 <= fuel ->
  callGraphAPI w fuel tok "GET" (currentUrl st) JNull (currentParams st) false si
  = (Resolved response, s1) ->
  get_prop response "value" = inr value ->
  bound_reached maxCount (length (push_page (allItems st) value)) = false ->
  get_prop response "@odata.nextLink" = inr (Some link) ->
  truthy link = true ->
  exists rest,
    trace (snd (callGraphAPIPaginated w fuel tok "GET" path q maxCount s)) = trace s1 ++ rest
    /\ (in_test_mode w tok = true ->
        exists rest', rest = EvMock "GET" link JNull [] :: rest')
    /\ (forall cursor,
          in_test_mode w tok = false ->
          link = JStr cursor ->
          is_absolute_url cursor = true ->
          exists rest',
            rest = EvHttp {| req_url := cursor;
                             req_method := "GET";
                             req_authorization := "Bearer " ++ tok;
                             req_body := None |} :: rest').
Proof.
  intros Hafter Hfuel Hcall Hvalue Hbound Hnext Hlink.
  rewrite callGraphAPIPaginated_trace.
  destruct (Nat.le_exists_sub (i + 2) fuel Hfuel) as (f & Hf & _).
  assert (Hsplit : fuel = i + S (S f)) by lia.
  assert (Hloop : paginate_loop w fuel fuel tok "GET" maxCount
                    {| allItems := []; currentUrl := path; currentParams := q |} s
                  = paginate_loop w (S (S f)) fuel tok "GET" maxCount st si).
  { rewrite <- (paginate_loop_after fuel tok "GET" maxCount (S (S f)) i _ _ _ _ Hafter).
    rewrite <- Hsplit. reflexivity. }
  rewrite Hloop. clear Hloop.
  assert (Hpass : page_iteration w fuel tok "GET" maxCount st si
                  = (Resolved (Continue {| allItems := push_page (allItems st) value;
                                           currentUrl := link;
                                           currentParams := length (heap s1) |}),
                     {| heap := heap s1 ++ [[]]; trace := trace s1 |})).
  { unfold page_iteration. unfold bind at 1. rewrite Hcall.
    unfold bind at 1. rewrite Hvalue. unfold lift at 1, ret at 1. cbv beta iota zeta.
    rewrite Hbound.
    unfold bind at 1. rewrite Hnext. unfold lift at 1, ret at 1. cbv beta iota.
    rewrite Hlink. reflexivity. }
  cbn [paginate_loop]. unfold bind at 1. rewrite Hpass.
  set (st' := {| allItems := push_page (allItems st) value;
                 currentUrl := link;
                 currentParams := length (heap s1) |}).
  set (s' := {| heap := heap s1 ++ [[]]; trace := trace s1 |}).
  destruct (paginate_loop_starts f fuel tok "GET" maxCount st' s') as (more & Hmore).
  cbn [paginate_loop] in Hmore. rewrite Hmore. clear Hmore.
  subst st'. cbn [currentUrl currentParams].
  destruct fuel as [|g]; [lia|].
  rewrite callGraphAPI_eq. cbv zeta.
  destruct (in_test_mode w tok) eqn:Hmode.
  - destruct (mock_run w "GET" link JNull (length (heap s1)) s') as (r & E & _).
    rewrite E. unfold add_event, s'. cbn [snd trace heap]. rewrite nth_middle.
    exists ([EvMock "GET" link JNull []] ++ more). rewrite <- app_assoc.
    split; [reflexivity|]. split; [intros _; exists more; reflexivity|].
    intros cursor H. discriminate H.
  - assert (Hrest : forall cursor, link = JStr cursor -> is_absolute_url cursor = true ->
              exists rest',
                trace (snd (callGraphAPI w (S g) tok "GET" link JNull (length (heap s1))
                              false s'))
                = trace s1 ++ EvHttp {| req_url := cursor;
                                        req_method := "GET";
                                        req_authorization := "Bearer " ++ tok;
                                        req_body := None |} :: rest').
    { intros cursor -> Habs.
      destruct (callGraphAPI_first_request w g tok "GET" (JStr cursor) JNull
                  (length (heap s1)) false s' cursor s' Hmode
                  (buildFinalUrl_absolute w cursor _ s' Habs)) as (rest' & Hr).
      exists rest'. rewrite Hr. reflexivity. }
    rewrite callGraphAPI_eq in Hrest. cbv zeta in Hrest. rewrite Hmode in Hrest.
    destruct (callGraphAPI_events_send w (S g) tok "GET" link JNull (length (heap s1))
                false s') as (evs & Hevs & _).
    rewrite callGraphAPI_eq in Hevs. cbv zeta in Hevs. rewrite Hmode in Hevs.
    rewrite Hevs. exists (evs ++ more). rewrite <- app_assoc.
    split; [reflexivity|]. split; [intros H; discriminate H|].
    intros cursor _ Hc Habs. destruct (Hrest cursor Hc Habs) as (rest' & Hr).
    rewrite Hevs in Hr. apply app_inv_head in Hr. subst evs.
    exists (rest' ++ more). reflexivity.
Qed.

End CallerFacts.

(* ===================================================================== *)
(** ** Numbers in texts *)
(* ===================================================================== *)

(** Numbers print as the runtime prints them: in full up to twenty-one
    digits, with the digits of the shortest decimal that reads as the same
    double, and in exponent form beyond. *)
Example Number_toString_examples :
  Number_toString 0 = "0"
  /\ Number_toString (-42) = "-42"
  /\ Number_toString (2 ^ 53 - 1) = "9007199254740991"
  /\ Number_toString (2 ^ 53 + 1) = "9007199254740992"
  /\ Number_toString (2 ^ 60) = "1152921504606847000"
  /\ Number_toString (10 ^ 21 - 1) = "1e+21"
  /\ Number_toString (10 ^ 21) = "1e+21"
  /\ Number_toString (- 2 ^ 70) = "-1.1805916207174113e+21"
  /\ Number_toString 123456789012345678901234567890 = "1.2345678901234568e+29"
  /\ Number_toString (2 ^ 1024) = "Infinity".
Proof. vm_compute. repeat split. Qed.

(** A subject that is the number [1e21] is named as [1e+21]. *)
Example success_text_numeric_subject :
  success_text (Some (JNum (10 ^ 21))) (Some (JStr "Hi")) EmptyString (Some (JNum 7))
  = "Draft created successfully!" ++ nl ++ nl
      ++ "Subject: 1e+21" ++ nl
      ++ "Draft ID: 7" ++ nl
      ++ "Message Length: 2 characters" ++ nl ++ nl
      ++ "The draft has been saved in your Drafts folder and can be edited or sent later.".
Proof. vm_compute. reflexivity. Qed.

(** So is a tool name. *)
Example tools_call_numeric_name :
  tools_call sample_tools (Some (JObj [("name", JNum (10 ^ 21))])) empty_state
  = (Resolved (rpc_error (-32601) "Tool not found: 1e+21"), empty_state).
Proof. vm_compute. reflexivity. Qed.

(* ===================================================================== *)
(** ** The retry and the cursor at work *)
(* ===================================================================== *)


Lemma cursor_followed_verbatim_witness :
  let first := {| req_url := "https://graph.microsoft.com/v1.0/me/messages";
                  req_method := "GET";
                  req_authorization := "Bearer token";
                  req_body := None |} in
  let second := {| req_url := "https://graph.microsoft.com/v1.0/me/messages?$skip=2";
                   req_method := "GET";
                   req_authorization := "Bearer token";
                   req_body := None |} in
  let third := {| req_url := "https://graph.microsoft.com/v1.0/me/messages?$skip=4";
                  req_method := "GET";
                  req_authorization := "Bearer token";
                  req_body := None |} in
  loop_after world_three_pages 3 "token" "GET" 0 1
    {| allItems := []; currentUrl := JStr "me/messages"; currentParams := 0 |} empty_state
  = Some ({| allItems := [JNum 1; JNum 2];
             currentUrl := JStr "https://graph.microsoft.com/v1.0/me/messages?$skip=2";
             currentParams := 1 |},
          {| heap := [[]; []]; trace := [EvHttp first] |})
  /\ 1 + 2 <= 3
  /\ exists rest,
       trace (snd (callGraphAPIPaginated world_three_pages 3 "token" "GET"
                     (JStr "me/messages") 0 0 empty_state))
       = ([EvHttp first; EvHttp second] ++ EvHttp third :: rest)%list.
Proof.
  cbv zeta.
  assert (Hafter :
    loop_after world_three_pages 3 "token" "GET" 0 1
      {| allItems := []; currentUrl := JStr "me/messages"; currentParams := 0 |} empty_state
    = Some ({| allItems := [JNum 1; JNum 2];
               currentUrl := JStr "https://graph.microsoft.com/v1.0/me/messages?$skip=2";
               currentParams := 1 |},
            {| heap := [[]; []];
               trace := [EvHttp {| req_url := "https://graph.microsoft.com/v1.0/me/messages";
                                   req_method := "GET";
                                   req_authorization := "Bearer token";
                                   req_body := None |}] |}))
    by (vm_compute; reflexivity).
  split; [exact Hafter|]. split; [lia|].
  destruct (cursor_followed_verbatim world_three_pages 3 "token" (JStr "me/messages") 0 0%Z
              empty_state 1 _ _ page2
              {| heap := [[]; []];
                 trace := [EvHttp {| req_url := "https://graph.microsoft.com/v1.0/me/messages";
                                     req_method := "GET";
                                     req_authorization := "Bearer token";
                                     req_body := None |};
                           EvHttp {| req_url :=
                                       "https://graph.microsoft.com/v1.0/me/messages?$skip=2";
                                     req_method := "GET";
                                     req_authorization := "Bearer token";
                                     req_body := None |}] |}
              (Some (JArr [JNum 3; JNum 4]))
              (JStr "https://graph.microsoft.com/v1.0/me/messages?$skip=4")
              Hafter (le_n 3) eq_refl eq_refl eq_refl eq_refl eq_refl)
    as (rest & Htrace & _ & Hnext).
  destruct (Hnext "https://graph.microsoft.com/v1.0/me/messages?$skip=4"
              eq_refl eq_refl eq_refl) as (rest' & Hrest).
  exists rest'. rewrite Htrace, Hrest. reflexivity.
Defined.
